(** * Orchestration of the build and revise workflows of [app.py]

    A shallow embedding of [src/app.py]: the deployment watcher
    ([wait_for_github_pages_deployment]), the notification dispatcher
    ([notify_evaluator]), the two workflows ([process_build_request],
    [process_revise_request]) with the steps they call, and the inbound
    handler ([handle_project_request]).

    Python's effects are threaded explicitly: every function is a state
    transformer that ends in a value or in a raised exception.  The services
    the program talks to (the hosting platform, the language model, the
    evaluator's endpoint) answer from an [env] of scripted replies, so that
    every definition can be evaluated on concrete inputs. *)

From Stdlib Require Import ZArith String Ascii List Bool Lia.
From stdpp Require Import base option list gmap strings pretty.

#[local] Set Warnings "-register-all".
Local Open Scope string_scope.
Local Open Scope Z_scope.

(** ** Python strings

    A [str] is modelled as a [string] whose characters are the code points
    below 256. *)

Module Py.

(** [str.isspace] on one character, for the code points below 256:
    TAB..CR, FS..US, SPACE, NEL and NBSP. *)
Definition isspace (c : ascii) : bool :=
  let n := nat_of_ascii c in
  ((9 <=? n)%nat && (n <=? 13)%nat)
  || ((28 <=? n)%nat && (n <=? 32)%nat)
  || (n =? 133)%nat || (n =? 160)%nat.

Fixpoint lstrip (s : string) : string :=
  match s with
  | EmptyString => EmptyString
  | String c s' => if isspace c then lstrip s' else s
  end.

Fixpoint rstrip (s : string) : string :=
  match s with
  | EmptyString => EmptyString
  | String c s' =>
      match rstrip s' with
      | EmptyString => if isspace c then EmptyString else String c EmptyString
      | r => String c r
      end
  end.

(** [s.strip()] *)
Definition strip (s : string) : string := rstrip (lstrip s).

(** Truth value of a [str]: [not s] holds for the empty string only. *)
Definition truthy (s : string) : bool :=
  match s with EmptyString => false | _ => true end.

(** [s.split(sep)] for a non-empty [sep]: matches are found left to right
    and do not overlap.  [skip] counts the characters of a matched
    separator that are still to be passed over, [cur] is the segment read
    so far, reversed. *)
Fixpoint split_go (sep : string) (skip : nat) (cur : string) (s : string)
  : list string :=
  match s with
  | EmptyString => [String.rev cur]
  | String c s' =>
      match skip with
      | S k => split_go sep k cur s'
      | O =>
          if String.prefix sep s
          then String.rev cur :: split_go sep (String.length sep - 1) EmptyString s'
          else split_go sep 0 (String c cur) s'
      end
  end.

Definition split (sep s : string) : list string := split_go sep 0 EmptyString s.

(** [s.split(sep, 1)]: at most one cut, at the first occurrence. *)
Fixpoint split1_go (sep : string) (cur : string) (s : string) : list string :=
  match s with
  | EmptyString => [String.rev cur]
  | String c s' =>
      if String.prefix sep s
      then [String.rev cur; String.substring (String.length sep) (String.length s) s]
      else split1_go sep (String c cur) s'
  end.

Definition split1 (sep s : string) : list string := split1_go sep EmptyString s.

(** [s.replace(old, new)] for a non-empty [old]. *)
Fixpoint replace_go (old new : string) (skip : nat) (s : string) : string :=
  match s with
  | EmptyString => EmptyString
  | String c s' =>
      match skip with
      | S k => replace_go old new k s'
      | O =>
          if String.prefix old s
          then new +:+ replace_go old new (String.length old - 1) s'
          else String c (replace_go old new 0 s')
      end
  end.

Definition replace (old new s : string) : string := replace_go old new 0 s.

(** [x in l] for a list of strings. *)
Definition mem (x : string) (l : list string) : bool :=
  existsb (String.eqb x) l.

Definition nl : string := String (ascii_of_nat 10) EmptyString.

End Py.

(** ** Values of the inbound request

    What [request.json] can hold.  Numbers with a fraction or an exponent are
    outside the model. *)

Inductive pyval : Type :=
| PNone
| PBool (b : bool)
| PInt (z : Z)
| PStr (s : string)
| PList (l : list pyval)
| PDict (d : list (string * pyval)).

(** Truth value, as [not data] tests it. *)
Definition py_truthy (v : pyval) : bool :=
  match v with
  | PNone => false
  | PBool b => b
  | PInt z => negb (z =? 0)
  | PStr s => Py.truthy s
  | PList l => match l with [] => false | _ => true end
  | PDict d => match d with [] => false | _ => true end
  end.

(** The pairs of a parsed JSON object are kept in the order of the text; a
    key written twice keeps its last value, as [json.loads] does. *)
Fixpoint assoc_last (k : string) (d : list (string * pyval)) : option pyval :=
  match d with
  | [] => None
  | (k', v) :: d' =>
      match assoc_last k d' with
      | Some w => Some w
      | None => if String.eqb k k' then Some v else None
      end
  end.

(** [v == n] for an [int] literal [n]: a [bool] compares as 0 or 1. *)
Definition py_eq_int (v : pyval) (n : Z) : bool :=
  match v with
  | PInt z => z =? n
  | PBool b => (if b then 1 else 0) =? n
  | _ => false
  end.

(** [v == secret] where [secret] is the value of [os.environ.get]: a [str], or
    [None] when the variable is not set. *)
Definition py_eq_env (v : pyval) (secret : option string) : bool :=
  match v, secret with
  | PNone, None => true
  | PStr s, Some t => String.eqb s t
  | _, _ => false
  end.

(** ** Exceptions, results and the state *)

Inductive exn : Type :=
| GithubException
| RequestException
| GenerationError
| AttributeError
| KeyError
| TypeError
| UnboundLocalError (name : string)
| FuelExhausted.

Inductive res (A : Type) : Type :=
| Val (a : A)
| Exc (x : exn).
Arguments Val {A} a.
Arguments Exc {A} x.

Record blob : Type := mkBlob { b_path : string; b_content : string; b_sha : string }.

Record repository : Type := mkRepository {
  r_files : gmap string blob;
  r_head : string
}.

Record payload : Type := mkPayload {
  p_email : pyval;
  p_task : pyval;
  p_round : Z;
  p_nonce : pyval;
  p_repo_url : string;
  p_commit_sha : string;
  p_pages_url : pyval
}.

(** Calls to the hosting platform through the client library. *)
Inductive api : Type :=
| AuthToken
| GithubClient
| GetUser
| CreateRepo (name : string)
| CreateFile (repo path content : string)
| EnablePages (repo : string)
| GetWorkflowRuns (repo : string)
| GetBranch (repo : string)
| GetRepo (name : string)
| GetContents (repo path : string)
| UpdateFile (repo path content sha : string).

(** What the program does to the outside, in order. *)
Inductive event : Type :=
| Sleep (seconds : Z)
| Api (c : api)
| Generate
| Post (url : pyval) (body : payload)
| Respond (status : Z).

Inductive fmt_arg : Type :=
| FStr (s : string)
| FInt (z : Z)
| FVal (v : pyval)
| FOpt (o : option string)
| FExn (x : exn).

(** A printed line: the text of the source's literal, and the values of its
    replacement fields in order. *)
Record line : Type := Line { l_text : string; l_args : list fmt_arg }.

(** A workflow run as the hosting platform reports it. *)
Record run : Type := mkRun { status : string; conclusion : option string }.

Inductive poll_obs : Type :=
| PollRaises
| NoRun
| LatestRun (r : run).

Inductive post_result : Type :=
| PostStatus (code : Z)
| PostRaises.

Inductive llm_result : Type :=
| LlmText (text : string)
| LlmRaises.

Inductive pages_result : Type :=
| PagesStatus (code : Z) (html_url : pyval)
| PagesRaises.

(** The scripted outside world.  Replies are indexed by how many calls of
    the same kind were made before. *)
Record env : Type := mkEnv {
  MY_APP_SECRET : option string;
  login : string;
  fault : nat -> bool;             (* the n-th client-library call raises *)
  poll : nat -> poll_obs;          (* reply to the n-th [get_workflow_runs] *)
  post : nat -> post_result;       (* reply to the n-th notification POST *)
  llm : nat -> llm_result;         (* reply to the n-th [generate_content] *)
  pages : string -> pages_result;  (* reply to the Pages request for a repository *)
  commit_sha_of : nat -> string;   (* identifier of the n-th commit *)
  blob_sha_of : string -> string;  (* version token of a content *)
  repr : pyval -> string           (* [str()] of a list or dict *)
}.

Record state : Type := mkState {
  host : gmap string repository;
  trace : list event;
  stdout : list line;
  n_api : nat;
  n_polls : nat;
  n_posts : nat;
  n_llm : nat;
  n_commits : nat
}.

Definition M (A : Type) : Type := state -> res A * state.

Definition ret {A} (a : A) : M A := fun st => (Val a, st).
Definition raise {A} (x : exn) : M A := fun st => (Exc x, st).
Definition bind {A B} (m : M A) (k : A -> M B) : M B :=
  fun st => match m st with
            | (Val a, st') => k a st'
            | (Exc x, st') => (Exc x, st')
            end.
(** [try: m except Exception as e: h e] *)
Definition try_except {A} (m : M A) (h : exn -> M A) : M A :=
  fun st => match m st with
            | (Val a, st') => (Val a, st')
            | (Exc x, st') => h x st'
            end.

Declare Scope py_scope.
Delimit Scope py_scope with py.
Notation "x <- m ;; k" := (bind m (fun x => k))
  (at level 100, m at next level, right associativity) : py_scope.
Notation "m ;;; k" := (bind m (fun _ => k))
  (at level 100, right associativity) : py_scope.
Local Open Scope py_scope.

Definition emit (ev : event) : M unit := fun st =>
  (Val tt, mkState (host st) (trace st ++ [ev]) (stdout st)
                   (n_api st) (n_polls st) (n_posts st) (n_llm st) (n_commits st)).

Definition print (text : string) (args : list fmt_arg) : M unit := fun st =>
  (Val tt, mkState (host st) (trace st) (stdout st ++ [Line text args])
                   (n_api st) (n_polls st) (n_posts st) (n_llm st) (n_commits st)).

(** [time.sleep(seconds)] *)
Definition sleep (seconds : Z) : M unit := emit (Sleep seconds).

Definition get_host : M (gmap string repository) := fun st => (Val (host st), st).

Definition set_host (h : gmap string repository) : M unit := fun st =>
  (Val tt, mkState h (trace st) (stdout st)
                   (n_api st) (n_polls st) (n_posts st) (n_llm st) (n_commits st)).

Definition timeout_seconds : Z := 300.
Definition poll_interval_seconds : Z := 10.
Definition max_retries : nat := 5.

Definition is_request_exception (x : exn) : bool :=
  match x with RequestException => true | _ => false end.

(** [try: m except requests.exceptions.RequestException as e: h e] *)
Definition try_except_request {A} (m : M A) (h : exn -> M A) : M A :=
  fun st => match m st with
            | (Val a, st') => (Val a, st')
            | (Exc x, st') => if is_request_exception x then h x st' else (Exc x, st')
            end.

Section Program.

Variable e : env.
(** The text of the licence file, a constant of the source. *)
Variable license_content : string.

(** [str(v)], as an f-string renders a replacement field. *)
Definition py_str (v : pyval) : string :=
  match v with
  | PNone => "None"
  | PBool true => "True"
  | PBool false => "False"
  | PInt z => pretty z
  | PStr s => s
  | _ => repr e v
  end.

(** [data.get(key, default)]; only a dict has the method. *)
Definition py_get (data : pyval) (key : string) (default : pyval) : M pyval :=
  match data with
  | PDict d => ret (match assoc_last key d with Some v => v | None => default end)
  | _ => raise AttributeError
  end.

(** *** The hosting platform *)

(** A call through the client library: recorded, and it raises when the
    script says so. *)
Definition call (c : api) : M unit := fun st =>
  let st' := mkState (host st) (trace st ++ [Api c]) (stdout st)
                     (S (n_api st)) (n_polls st) (n_posts st) (n_llm st) (n_commits st) in
  if fault e (n_api st) then (Exc GithubException, st') else (Val tt, st').

Definition fresh_commit : M string := fun st =>
  (Val (commit_sha_of e (n_commits st)),
   mkState (host st) (trace st) (stdout st)
           (n_api st) (n_polls st) (n_posts st) (n_llm st) (S (n_commits st))).

Definition html_url (repo : string) : string :=
  "https://github.com/" +:+ login e +:+ "/" +:+ repo.

(** [user.create_repo(name, private=False)]; the handle of a repository is
    its name. *)
Definition create_repo (name : string) : M string :=
  call (CreateRepo name) ;;;
  h <- get_host ;;
  match h !! name with
  | Some _ => raise GithubException
  | None => set_host (<[name := mkRepository ∅ ""]> h) ;;; ret name
  end.

(** [user.get_repo(name)] *)
Definition get_repo (name : string) : M string :=
  call (GetRepo name) ;;;
  h <- get_host ;;
  match h !! name with
  | Some _ => ret name
  | None => raise GithubException
  end.

(** [repo.create_file(path, message, content, branch="main")] *)
Definition create_file (repo path content : string) : M string :=
  call (CreateFile repo path content) ;;;
  h <- get_host ;;
  match h !! repo with
  | None => raise GithubException
  | Some r =>
      match r_files r !! path with
      | Some _ => raise GithubException
      | None =>
          sha <- fresh_commit ;;
          set_host (<[repo := mkRepository
                                (<[path := mkBlob path content (blob_sha_of e content)]> (r_files r))
                                sha]> h) ;;;
          ret sha
      end
  end.

(** [repo.get_contents(path)] *)
Definition get_contents (repo path : string) : M blob :=
  call (GetContents repo path) ;;;
  h <- get_host ;;
  match h !! repo with
  | None => raise GithubException
  | Some r =>
      match r_files r !! path with
      | None => raise GithubException
      | Some b => ret b
      end
  end.

(** [repo.update_file(path, message, content, sha)]: the platform refuses
    a version token that is not the stored file's.  The value is
    [result['commit'].sha]. *)
Definition update_file (repo path content sha : string) : M string :=
  call (UpdateFile repo path content sha) ;;;
  h <- get_host ;;
  match h !! repo with
  | None => raise GithubException
  | Some r =>
      match r_files r !! path with
      | None => raise GithubException
      | Some b =>
          if String.eqb (b_sha b) sha
          then
            c <- fresh_commit ;;
            set_host (<[repo := mkRepository
                                  (<[path := mkBlob path content (blob_sha_of e content)]> (r_files r))
                                  c]> h) ;;;
            ret c
          else raise GithubException
      end
  end.

(** [repo.get_branch("main").commit.sha] *)
Definition get_branch_head (repo : string) : M string :=
  call (GetBranch repo) ;;;
  h <- get_host ;;
  match h !! repo with
  | None => raise GithubException
  | Some r => ret (r_head r)
  end.

(** [requests.post(pages_endpoint, ...)] *)
Definition enable_pages (repo : string) : M (Z * pyval) := fun st =>
  let st' := mkState (host st) (trace st ++ [Api (EnablePages repo)]) (stdout st)
                     (n_api st) (n_polls st) (n_posts st) (n_llm st) (n_commits st) in
  match pages e repo with
  | PagesStatus code url => (Val (code, url), st')
  | PagesRaises => (Exc RequestException, st')
  end.

(** [repo.get_workflow_runs()] and the look at its first element: [None]
    when [totalCount] is 0. *)
Definition get_workflow_runs (repo : string) : M (option run) := fun st =>
  let st' := mkState (host st) (trace st ++ [Api (GetWorkflowRuns repo)]) (stdout st)
                     (n_api st) (S (n_polls st)) (n_posts st) (n_llm st) (n_commits st) in
  match poll e (n_polls st) with
  | PollRaises => (Exc GithubException, st')
  | NoRun => (Val None, st')
  | LatestRun r => (Val (Some r), st')
  end.

(** [requests.post(evaluation_url, json=payload, timeout=10)]; the value is
    [response.status_code]. *)
Definition requests_post (url : pyval) (body : payload) : M Z := fun st =>
  let st' := mkState (host st) (trace st ++ [Post url body]) (stdout st)
                     (n_api st) (n_polls st) (S (n_posts st)) (n_llm st) (n_commits st) in
  match post e (n_posts st) with
  | PostStatus code => (Val code, st')
  | PostRaises => (Exc RequestException, st')
  end.

(** [model.generate_content(prompt)] and [response.text] *)
Definition generate_content : M string := fun st =>
  let st' := mkState (host st) (trace st ++ [Generate]) (stdout st)
                     (n_api st) (n_polls st) (n_posts st) (S (n_llm st)) (n_commits st) in
  match llm e (n_llm st) with
  | LlmText t => (Val t, st')
  | LlmRaises => (Exc GenerationError, st')
  end.

(** *** [wait_for_github_pages_deployment] *)

(** One turn of the [while] body.  [Some b] is [return b]; [None] means
    the body reached its end, after the sleep. *)
Definition poll_once (repo : string) : M (option bool) :=
  try_except
    (workflow_runs <- get_workflow_runs repo ;;
     match workflow_runs with
     | Some latest_run =>
         print "  - Run status: {latest_run.status}, Conclusion: {latest_run.conclusion}"
               [FStr (status latest_run); FOpt (conclusion latest_run)] ;;;
         if String.eqb (status latest_run) "completed"
         then
           match conclusion latest_run with
           | Some c =>
               if String.eqb c "success"
               then print "✅ Deployment successful!" [] ;;; ret (Some true)
               else print "❌ Deployment failed with conclusion: {latest_run.conclusion}"
                          [FOpt (conclusion latest_run)] ;;; ret (Some false)
           | None =>
               print "❌ Deployment failed with conclusion: {latest_run.conclusion}"
                     [FOpt (conclusion latest_run)] ;;; ret (Some false)
           end
         else sleep poll_interval_seconds ;;; ret None
     | None => sleep poll_interval_seconds ;;; ret None
     end)
    (fun x =>
       print "An error occurred while checking workflow status: {e}" [FExn x] ;;;
       ret (Some false)).

(** The [while elapsed_time < timeout_seconds] loop.  Every turn adds
    [poll_interval_seconds] to [elapsed_time]; [fuel] bounds the turns. *)
Fixpoint poll_loop (fuel : nat) (repo : string) (elapsed_time : Z) : M bool :=
  if elapsed_time <? timeout_seconds
  then
    match fuel with
    | O => raise FuelExhausted
    | S fuel' =>
        r <- poll_once repo ;;
        match r with
        | Some b => ret b
        | None => poll_loop fuel' repo (elapsed_time + poll_interval_seconds)
        end
    end
  else
    print "❌ Deployment check timed out after 2 minutes." [] ;;; ret false.

Definition wait_for_github_pages_deployment (repo : string) : M bool :=
  print "Waiting for GitHub Pages deployment to complete..." [] ;;;
  sleep 5 ;;;
  let elapsed_time := 0 in
  poll_loop (Z.to_nat timeout_seconds) repo elapsed_time.

(** *** [notify_evaluator] *)

(** The [try] statement of one turn of the [for] loop: [true] is
    [return True], [false] means the turn goes on to the sleep. *)
Definition attempt (i : nat) (evaluation_url : pyval) (body : payload) : M bool :=
  try_except_request
    (print "Sending notification to {evaluation_url}..." [FVal evaluation_url] ;;;
     status_code <- requests_post evaluation_url body ;;
     if status_code =? 200
     then print "Notification successful." [] ;;; ret true
     else print "Attempt {i + 1} failed with status {response.status_code}."
                [FInt (Z.of_nat i + 1); FInt status_code] ;;; ret false)
    (fun x =>
       print "Attempt {i + 1} failed with an exception: {e}"
             [FInt (Z.of_nat i + 1); FExn x] ;;; ret false).

(** [for i in range(max_retries)], over the values of [i] still to come. *)
Fixpoint notify_loop (range : list nat) (evaluation_url : pyval) (body : payload)
                     (delay : Z) : M bool :=
  match range with
  | [] => print "Notification failed after all retries." [] ;;; ret false
  | i :: range' =>
      ok <- attempt i evaluation_url body ;;
      if ok then ret true
      else
        sleep delay ;;;
        notify_loop range' evaluation_url body (delay * 2)
  end.

Definition notify_evaluator (evaluation_url : pyval) (body : payload) : M bool :=
  let delay := 1 in
  notify_loop (seq 0 max_retries) evaluation_url body delay.

(** *** Round 1: [generate_app_code], [create_and_deploy_repo] *)

(** [att[key]] *)
Definition subscript (att : pyval) (key : string) : M pyval :=
  match att with
  | PDict d =>
      match assoc_last key d with
      | Some v => ret v
      | None => raise KeyError
      end
  | _ => raise TypeError
  end.

Fixpoint subscripts (att : pyval) (keys : list string) : M unit :=
  match keys with
  | [] => ret tt
  | k :: keys' => subscript att k ;;; subscripts att keys'
  end.

Fixpoint each_attachment (keys : list string) (l : list pyval) : M unit :=
  match l with
  | [] => ret tt
  | att :: l' => subscripts att keys ;;; each_attachment keys l'
  end.

(** The part of the prompt on attachments: [if attachments:] and the loop
    that reads [keys] of every element.  Only whether it raises is kept;
    the text of the prompt has no part in what the model replies here. *)
Definition attachments_prompt_part (keys : list string) (attachments : pyval) : M unit :=
  if py_truthy attachments
  then
    match attachments with
    | PList l => each_attachment keys l
    | _ => raise TypeError
    end
  else ret tt.

Definition strip_fences (s : string) : string :=
  Py.replace "```" "" (Py.replace "```html" "" s).

Definition generate_app_code (brief checks attachments : pyval) : M string :=
  attachments_prompt_part ["name"; "url"] attachments ;;;
  print "Generating code with Gemini..." [] ;;;
  text <- generate_content ;;
  let generated_code := strip_fences (Py.strip text) in
  print "Code generation complete." [] ;;;
  ret generated_code.

Record details : Type := mkDetails {
  repo_url : string;
  pages_url : pyval;
  commit_sha : string
}.

Definition create_and_deploy_repo (task_id : pyval) (generated_html : string)
  : M (option details) :=
  try_except
    (call AuthToken ;;;
     call GithubClient ;;;
     call GetUser ;;;
     let repo_name := "llm-app-" +:+ py_str task_id in
     print "Creating repository: {repo_name}" [FStr repo_name] ;;;
     repo <- create_repo repo_name ;;
     create_file repo "LICENSE" license_content ;;;
     let readme_content :=
       "# " +:+ repo_name +:+ Py.nl +:+ Py.nl
            +:+ "This project was auto-generated for the TDS Project." in
     create_file repo "README.md" readme_content ;;;
     create_file repo "index.html" generated_html ;;;
     print "Enabling GitHub Pages via API..." [] ;;;
     response <- enable_pages repo ;;
     if negb (fst response =? 201)
     then
       print "Failed to enable GitHub Pages. Status: {response.status_code}, Response: {response.text}"
             [FInt (fst response)] ;;;
       ret None
     else
       let pages_url := snd response in
       print "GitHub Pages enabled. URL will be: {pages_url}" [FVal pages_url] ;;;
       deployment_successful <- wait_for_github_pages_deployment repo ;;
       if negb deployment_successful
       then print "Aborting due to deployment failure or timeout." [] ;;; ret None
       else
         commit_sha <- get_branch_head repo ;;
         ret (Some (mkDetails (html_url repo) pages_url commit_sha)))
    (fun x =>
       print "An error occurred during GitHub operations: {e}" [FExn x] ;;;
       ret None).

Definition process_build_request (data : pyval) : M unit :=
  print "Build task started!" [] ;;;
  brief <- py_get data "brief" PNone ;;
  checks <- py_get data "checks" PNone ;;
  attachments <- py_get data "attachments" (PList []) ;;
  generated_code <- generate_app_code brief checks attachments ;;
  if negb (Py.truthy generated_code) then ret tt
  else
    task <- py_get data "task" PNone ;;
    github_details <- create_and_deploy_repo task generated_code ;;
    match github_details with
    | None => ret tt
    | Some github_details =>
        email <- py_get data "email" PNone ;;
        task <- py_get data "task" PNone ;;
        nonce <- py_get data "nonce" PNone ;;
        let notification_payload :=
          mkPayload email task 1 nonce
                    (repo_url github_details)
                    (commit_sha github_details)
                    (pages_url github_details) in
        evaluation_url <- py_get data "evaluation_url" PNone ;;
        notify_evaluator evaluation_url notification_payload ;;;
        print "Build task finished." []
    end.

(** *** Round 2: [get_existing_repo_details], [generate_updated_code],
    [update_repo_files] *)

Record repo_details : Type := mkRepoDetails {
  rd_repo : string;
  rd_user : string;
  rd_index_html : string;
  rd_readme_md : string
}.

(** The [except] clause of [get_existing_repo_details].  Its message reads
    the local [repo_name], which is bound only once the [try] body has
    passed the assignment. *)
Definition repo_details_handler (repo_name : option string) (x : exn)
  : M (option repo_details) :=
  match repo_name with
  | None => raise (UnboundLocalError "repo_name")
  | Some repo_name =>
      print "Error fetching repo files for {repo_name}: {e}" [FStr repo_name; FExn x] ;;;
      ret None
  end.

Definition get_existing_repo_details (task_id : pyval) : M (option repo_details) :=
  fun st =>
    match (call AuthToken ;;; call GithubClient ;;; call GetUser) st with
    | (Exc x, st1) => repo_details_handler None x st1
    | (Val _, st1) =>
        let repo_name := "llm-app-" +:+ py_str task_id in
        match (repo <- get_repo repo_name ;;
               index_file <- get_contents repo "index.html" ;;
               readme_file <- get_contents repo "README.md" ;;
               ret (mkRepoDetails repo (login e)
                                  (b_content index_file) (b_content readme_file))) st1 with
        | (Exc x, st2) => repo_details_handler (Some repo_name) x st2
        | (Val d, st2) => (Val (Some d), st2)
        end
    end.

Definition generate_updated_code (brief checks : pyval) (existing_code : string * string)
                                 (attachments : pyval) : M string :=
  attachments_prompt_part ["name"] attachments ;;;
  print "Generating updated code for all files with Gemini..." [] ;;;
  text <- generate_content ;;
  print "Code update generation complete." [] ;;;
  ret text.

(** One turn of [for file_raw in files_raw]; the value is [new_commit_sha]
    at the end of the turn. *)
Definition update_block (repo : string) (new_commit_sha file_raw : string) : M string :=
  if negb (Py.truthy (Py.strip file_raw)) then ret new_commit_sha
  else
    print "Processing file block..." [] ;;;
    let parts := Py.split1 Py.nl file_raw in
    if (length parts <? 2)%nat
    then print "Warning: Skipping malformed file block." [] ;;; ret new_commit_sha
    else
      let filename := Py.strip (nth 0 (Py.split "---" (nth 0 parts "")) "") in
      let content := strip_fences (Py.strip (nth 1 parts "")) in
      if Py.mem filename ["index.html"; "README.md"]
      then
        print "Found valid file: {filename}" [FStr filename] ;;;
        original_file <- get_contents repo filename ;;
        new_commit_sha <- update_file repo (b_path original_file) content
                                      (b_sha original_file) ;;
        print "Successfully updated {filename}. New commit: {new_commit_sha}"
              [FStr filename; FStr new_commit_sha] ;;;
        ret new_commit_sha
      else
        print "Warning: Skipping unexpected file found in LLM response: {filename}"
              [FStr filename] ;;;
        ret new_commit_sha.

Fixpoint update_blocks (repo : string) (new_commit_sha : string) (files_raw : list string)
  : M string :=
  match files_raw with
  | [] => ret new_commit_sha
  | file_raw :: files_raw' =>
      new_commit_sha <- update_block repo new_commit_sha file_raw ;;
      update_blocks repo new_commit_sha files_raw'
  end.

Definition update_repo_files (repo : string) (llm_response : string) : M (option string) :=
  try_except
    (print "Parsing LLM response and updating repository files..." [] ;;;
     let files_raw := Py.split "--- FILE: " llm_response in
     new_commit_sha <- update_blocks repo "" files_raw ;;
     if negb (Py.truthy new_commit_sha)
     then print "Error: No valid files were updated." [] ;;; ret None
     else
       deployment_successful <- wait_for_github_pages_deployment repo ;;
       if negb deployment_successful
       then print "Aborting due to redeployment failure or timeout." [] ;;; ret None
       else ret (Some new_commit_sha))
    (fun x =>
       print "Failed to update repository files with exception: {e}" [FExn x] ;;;
       ret None).

Definition process_revise_request (data : pyval) : M unit :=
  print "Revision task started!" [] ;;;
  task_id <- py_get data "task" PNone ;;
  brief <- py_get data "brief" PNone ;;
  checks <- py_get data "checks" PNone ;;
  attachments <- py_get data "attachments" (PList []) ;;
  repo_details <- get_existing_repo_details task_id ;;
  match repo_details with
  | None => ret tt
  | Some repo_details =>
      llm_response <- generate_updated_code brief checks
                        (rd_index_html repo_details, rd_readme_md repo_details)
                        attachments ;;
      if negb (Py.truthy llm_response) then ret tt
      else
        commit_sha <- update_repo_files (rd_repo repo_details) llm_response ;;
        match commit_sha with
        | None => ret tt
        | Some commit_sha =>
            if negb (Py.truthy commit_sha) then ret tt
            else
              email <- py_get data "email" PNone ;;
              nonce <- py_get data "nonce" PNone ;;
              let notification_payload :=
                mkPayload email task_id 2 nonce
                          (html_url (rd_repo repo_details))
                          commit_sha
                          (PStr ("https://" +:+ rd_user repo_details +:+ ".github.io/"
                                            +:+ rd_repo repo_details +:+ "/")) in
              evaluation_url <- py_get data "evaluation_url" PNone ;;
              notify_evaluator evaluation_url notification_payload ;;;
              print "Revision task finished." []
        end
  end.

(** *** The inbound handler *)

Definition handle_project_request (data : pyval) : M (string * Z) :=
  if negb (py_truthy data) then ret ("Invalid or missing secret", 403)
  else
    secret <- py_get data "secret" PNone ;;
    if negb (py_eq_env secret (MY_APP_SECRET e))
    then ret ("Invalid or missing secret", 403)
    else
      round <- py_get data "round" PNone ;;
      (if py_eq_int round 2 then process_revise_request data
       else if py_eq_int round 1 then process_build_request data
       else ret tt) ;;;
      ret ("Request processed successfully.", 200).

(** The route registered by [@app.route]: the framework calls the view with
    the parsed body and sends back what the view returns, once it has
    returned; an exception that leaves the view is answered with status
    500. *)
Definition route_api_project (data : pyval) : M Z :=
  fun st =>
    match handle_project_request data st with
    | (Val (_, code), st') => (emit (Respond code) ;;; ret code) st'
    | (Exc _, st') => (emit (Respond 500) ;;; ret 500) st'
    end.

End Program.

Local Open Scope list_scope.

(** ** Notions used in the statements *)

Definition is_post (ev : event) : bool :=
  match ev with Post _ _ => true | _ => false end.

(** The notifications sent, in order. *)
Definition posts (tr : list event) : list event := List.filter is_post tr.

(** The delays slept, in order. *)
Definition sleeps (tr : list event) : list Z :=
  omap (fun ev => match ev with Sleep s => Some s | _ => None end) tr.

(** What a function leaves alone when it only talks to the evaluator or only
    polls: the repositories and the counters of the other services. *)
Definition same_frame (st st' : state) : Prop :=
  host st' = host st /\ n_api st' = n_api st /\ n_llm st' = n_llm st
  /\ n_commits st' = n_commits st.

(** *** Notification *)

(** A reply that [notify_evaluator] takes for a success. *)
Definition acknowledged (r : post_result) : bool :=
  match r with PostStatus code => code =? 200 | PostRaises => false end.

(** What [n] failed attempts in a row leave in the trace when the first
    delay is [delay]. *)
Fixpoint backoff (url : pyval) (body : payload) (n : nat) (delay : Z) : list event :=
  match n with
  | O => []
  | S n' => Post url body :: Sleep delay :: backoff url body n' (delay * 2)
  end.

(** Every sleep in the trace is followed, later on, by an attempt. *)
Definition no_delay_after_final_attempt (tr : list event) : Prop :=
  forall pre s rest, tr = pre ++ Sleep s :: rest -> exists u b, In (Post u b) rest.

(** *** Deployment watcher *)

Definition completed (r : run) : bool := String.eqb (status r) "completed".

Definition succeeded (r : run) : bool :=
  completed r
  && match conclusion r with Some c => String.eqb c "success" | None => false end.

(** A reply after which the watcher polls again: no run yet, or a run that
    is not completed. *)
Definition pending (o : poll_obs) : bool :=
  match o with
  | NoRun => true
  | LatestRun r => negb (completed r)
  | PollRaises => false
  end.

Definition success_reply (o : poll_obs) : bool :=
  match o with LatestRun r => succeeded r | _ => false end.

(** Among the [n] replies from index [p] on, the number of pending replies
    before the first one that is not pending. *)
Fixpoint first_decisive (e : env) (p n : nat) : option nat :=
  match n with
  | O => None
  | S n' =>
      if pending (poll e p) then option_map S (first_decisive e (S p) n') else Some O
  end.

(** The trace of [k] turns of the polling loop that end in the sleep. *)
Fixpoint rounds (repo : string) (k : nat) : list event :=
  match k with
  | O => []
  | S k' => Api (GetWorkflowRuns repo) :: Sleep poll_interval_seconds :: rounds repo k'
  end.

(** The replies a run of the watcher received, between two states. *)
Definition observations (e : env) (st st' : state) : list poll_obs :=
  map (poll e) (seq (n_polls st) (n_polls st' - n_polls st)).

(** The first observation that shows a completed run. *)
Definition first_completed (obs : list poll_obs) : option run :=
  match List.find (fun o => match o with LatestRun r => completed r | _ => false end) obs with
  | Some (LatestRun r) => Some r
  | _ => None
  end.

Definition timed_out_line : line := Line "❌ Deployment check timed out after 2 minutes." [].

(** The number of polls that fit in the budget. *)
Definition max_polls : nat := 30.

(** Time slept in all. *)
Definition total (delays : list Z) : Z := fold_right Z.add 0 delays.

(** The watcher's answer, read off the script of replies from index [p]. *)
Definition watch_verdict (e : env) (p : nat) : bool :=
  match first_decisive e p max_polls with
  | Some k => success_reply (poll e (p + k))
  | None => false
  end.

(** *** What a computation leaves unchanged *)

(** [m] never changes the observation [f] of the state, however it ends. *)
Definition preserves {A X : Type} (f : state -> X) (m : M A) : Prop :=
  forall st r st', m st = (r, st') -> f st' = f st.

(** The notifications sent so far. *)
Definition sent (st : state) : list event := posts (trace st).

(** [m] sends no notification. *)
Abbreviation quiet m := (preserves sent m).

(** What the operations on repositories leave alone: the notifications
    sent, and how far the scripts of the watcher, of the evaluator and of
    the model have been read. *)
Definition services (st : state) : list event * nat * nat * nat :=
  (sent st, n_polls st, n_posts st, n_llm st).

(** *** Segments of the structured response *)

Definition known_files : list string := ["index.html"; "README.md"].

Definition has_line_break (s : string) : bool :=
  existsb (Ascii.eqb (ascii_of_nat 10)) (list_ascii_of_string s).

Definition blank (file_raw : string) : bool := negb (Py.truthy (Py.strip file_raw)).

(** The file name a segment announces: its first line, cut at the first
    [---] and stripped. *)
Definition segment_filename (file_raw : string) : string :=
  Py.strip (nth 0 (Py.split "---" (nth 0 (Py.split1 Py.nl file_raw) "")) "").

Definition segment_content (file_raw : string) : string :=
  strip_fences (Py.strip (nth 1 (Py.split1 Py.nl file_raw) "")).

(** A segment that names one of the two known files and has a body. *)
Definition recognized (file_raw : string) : bool :=
  negb (blank file_raw) && has_line_break file_raw
  && Py.mem (segment_filename file_raw) known_files.

(** The state after printing [lines]. *)
Definition printed (st : state) (lines : list line) : state :=
  mkState (host st) (trace st) (stdout st ++ lines)
          (n_api st) (n_polls st) (n_posts st) (n_llm st) (n_commits st).

Definition malformed_warning : line := Line "Warning: Skipping malformed file block." [].

Definition unexpected_warning (filename : string) : line :=
  Line "Warning: Skipping unexpected file found in LLM response: {filename}" [FStr filename].

Definition processing_line : line := Line "Processing file block..." [].

Definition no_valid_files_line : line := Line "Error: No valid files were updated." [].

(** *** The inbound handler *)

Definition is_respond (ev : event) : bool :=
  match ev with Respond _ => true | _ => false end.

(** The response was sent while events of the run were still to come. *)
Fixpoint responded_early (tr : list event) : bool :=
  match tr with
  | [] => false
  | ev :: rest =>
      (is_respond ev && match rest with [] => false | _ => true end)
      || responded_early rest
  end.

Definition accepted_reply : string * Z := ("Request processed successfully.", 200).
Definition rejected_reply : string * Z := ("Invalid or missing secret", 403).

(** [data.get(key)] on a dict. *)
Definition dict_get (d : list (string * pyval)) (key : string) : pyval :=
  match assoc_last key d with Some v => v | None => PNone end.

(** [data.get(key, default)] on a dict. *)
Definition dict_get_or (d : list (string * pyval)) (key : string) (default : pyval) : pyval :=
  match assoc_last key d with Some v => v | None => default end.

(** The generation step of Round 1 for the request [d]. *)
Definition build_generation (e : env) (d : list (string * pyval)) : M string :=
  generate_app_code e (dict_get d "brief") (dict_get d "checks")
                    (dict_get_or d "attachments" (PList [])).

(** The generation step of Round 2 for the request [d]. *)
Definition revise_generation (e : env) (d : list (string * pyval)) (rd : repo_details)
  : M string :=
  generate_updated_code e (dict_get d "brief") (dict_get d "checks")
                        (rd_index_html rd, rd_readme_md rd)
                        (dict_get_or d "attachments" (PList [])).

Definition build_payload (d : list (string * pyval)) (gd : details) : payload :=
  mkPayload (dict_get d "email") (dict_get d "task") 1 (dict_get d "nonce")
            (repo_url gd) (commit_sha gd) (pages_url gd).

Definition revise_payload (e : env) (d : list (string * pyval)) (rd : repo_details)
                          (sha : string) : payload :=
  mkPayload (dict_get d "email") (dict_get d "task") 2 (dict_get d "nonce")
            (html_url e (rd_repo rd)) sha
            (PStr ("https://" +:+ rd_user rd +:+ ".github.io/" +:+ rd_repo rd +:+ "/")).

Definition parsing_line : line :=
  Line "Parsing LLM response and updating repository files..." [].

Definition build_started : line := Line "Build task started!" [].
Definition revision_started : line := Line "Revision task started!" [].

(** The workflow the handler selects for a request that passed the check of
    the secret. *)
Definition selected_workflow (e : env) (license_content : string) (data : pyval) : M unit :=
  bind (py_get data "round" PNone)
       (fun round =>
          if py_eq_int round 2 then process_revise_request e data
          else if py_eq_int round 1 then process_build_request e license_content data
          else ret tt).

Definition authenticated (e : env) (d : list (string * pyval)) : bool :=
  py_truthy (PDict d) && py_eq_env (dict_get d "secret") (MY_APP_SECRET e).

(** ** Scenarios *)

Definition st0 : state := mkState ∅ [] [] 0 0 0 0 0.

Definition body0 : payload :=
  mkPayload (PStr "a@b.c") (PStr "t1") 1 (PStr "n") "https://github.com/u/llm-app-t1" "c3"
            (PStr "https://u.github.io/llm-app-t1/").

Definition url0 : pyval := PStr "https://evaluator.example/notify".

Definition run_ok : run := mkRun "completed" (Some "success").
Definition run_bad : run := mkRun "completed" (Some "failure").
Definition run_busy : run := mkRun "in_progress" None.

(** A world where nothing fails: the model replies [reply], the first
    deployment run observed has completed with success, and the evaluator
    answers 200. *)
Definition world (secret : option string) (reply : string) : env :=
  mkEnv secret "u" (fun _ => false) (fun _ => LatestRun run_ok) (fun _ => PostStatus 200)
        (fun _ => LlmText reply)
        (fun repo => PagesStatus 201 (PStr ("https://u.github.io/" +:+ repo +:+ "/")))
        (fun n => "c" +:+ pretty (Z.of_nat n)) (fun content => "h:" +:+ content)
        (fun _ => "?").

Definition with_post (e : env) (f : nat -> post_result) : env :=
  mkEnv (MY_APP_SECRET e) (login e) (fault e) (poll e) f (llm e) (pages e)
        (commit_sha_of e) (blob_sha_of e) (repr e).

Definition with_poll (e : env) (f : nat -> poll_obs) : env :=
  mkEnv (MY_APP_SECRET e) (login e) (fault e) f (post e) (llm e) (pages e)
        (commit_sha_of e) (blob_sha_of e) (repr e).

Definition with_fault (e : env) (f : nat -> bool) : env :=
  mkEnv (MY_APP_SECRET e) (login e) f (poll e) (post e) (llm e) (pages e)
        (commit_sha_of e) (blob_sha_of e) (repr e).

Definition page : string := "<html><body>todo</body></html>".

Definition license0 : string := "MIT License".

(** A request as the evaluator posts it. *)
Definition request (secret : pyval) (round : pyval) : list (string * pyval) :=
  [("secret", secret); ("round", round); ("task", PStr "t1"); ("brief", PStr "todo app");
   ("checks", PList [PStr "has a title"]); ("attachments", PList []);
   ("email", PStr "a@b.c"); ("nonce", PStr "n"); ("evaluation_url", url0)].

(** The model replies with a page, the deployment never completes. *)
Definition stuck_deployment : env :=
  with_poll (world None page) (fun _ => LatestRun run_busy).

(** A state in which Round 1 has published the application of task [t1]. *)
Definition st_published : state :=
  mkState
    {[ "llm-app-t1" :=
         mkRepository
           {[ "index.html" := mkBlob "index.html" page ("h:" +:+ page);
              "README.md" := mkBlob "README.md" "# llm-app-t1" "h:# llm-app-t1" ]}
           "c2" ]}
    [] [] 0 0 0 0 3.

(** A reply with no usable file: a preamble with no line break, and a file
    that is not one of the two known ones. *)
Definition reply_no_valid_files : string :=
  "Sure, here it is: --- FILE: style.css ---" +:+ Py.nl +:+ "body { margin: 0 }".

(** A reply with both files, in the order the prompt asks for. *)
Definition reply_both_files : string :=
  "--- FILE: index.html ---" +:+ Py.nl +:+ "<html><body>done</body></html>" +:+ Py.nl
  +:+ Py.nl +:+ "--- FILE: README.md ---" +:+ Py.nl +:+ "# revised".

(** The model replies with both files; the tenth call to the hosting
    platform, which is the update of the second file, raises. *)
Definition second_update_fails : env :=
  with_fault (world None reply_both_files) (fun n => Nat.eqb n 9).

Definition details_t1 : repo_details :=
  mkRepoDetails "llm-app-t1" "u" page "# llm-app-t1".

(** The first call to the hosting platform raises. *)
Definition auth_down : env := with_fault (world None "") (fun n => Nat.eqb n 0).

Definition with_llm (e : env) (f : nat -> llm_result) : env :=
  mkEnv (MY_APP_SECRET e) (login e) (fault e) (poll e) (post e) f (pages e)
        (commit_sha_of e) (blob_sha_of e) (repr e).

(** The model cannot be reached. *)
Definition llm_down : env := with_llm (world None page) (fun _ => LlmRaises).

(** An evaluator that answers 500 to every attempt. *)
Definition always_500 : env := with_post (world None "") (fun _ => PostStatus 500).

(** An evaluator that is unreachable, then answers 503, then 200. *)
Definition third_time : env :=
  with_post (world None "")
            (fun n => match n with
                      | O => PostRaises
                      | S O => PostStatus 503
                      | _ => PostStatus 200
                      end).

(** A deployment that stays in progress for ever. *)
Definition never_done : env := with_poll (world None "") (fun _ => LatestRun run_busy).

(** No run, then a run in progress, then a run that completed with a
    failure; later replies would show a success. *)
Definition fails_third : env :=
  with_poll (world None "")
            (fun n => match n with
                      | O => NoRun
                      | S O => LatestRun run_busy
                      | S (S O) => LatestRun run_bad
                      | _ => LatestRun run_ok
                      end).

(** ** Further notions and scenarios *)

(** *** Further notions: notification *)

(** Among the [n] replies of the evaluator from index [p] on, the number of
    failed replies before the first acknowledged one. *)
Fixpoint first_ack (e : env) (p n : nat) : option nat :=
  match n with
  | O => None
  | S n' =>
      if acknowledged (post e p) then Some O else option_map S (first_ack e (S p) n')
  end.

(** The number of requests [notify_evaluator] sends when the evaluator's
    replies are read from index [p] on. *)
Definition attempts (e : env) (p : nat) : nat :=
  match first_ack e p 5 with Some k => S k | None => 5%nat end.

(** The second poll raises. *)
Definition poll_breaks : env :=
  with_poll (world None "")
            (fun n => match n with
                      | O => LatestRun run_busy
                      | S O => PollRaises
                      | _ => LatestRun run_ok
                      end).

(** The run completes with success at the fourth poll. *)
Definition fourth_poll : env :=
  with_poll (world None "")
            (fun n => if (n <? 3)%nat then LatestRun run_busy else LatestRun run_ok).

(** *** Further notions: publishing *)

(** The name of the repository of a task. *)
Definition repo_name_of (e : env) (task_id : pyval) : string :=
  "llm-app-" +:+ py_str e task_id.

Definition readme_of (repo_name : string) : string :=
  "# " +:+ repo_name +:+ Py.nl +:+ Py.nl
       +:+ "This project was auto-generated for the TDS Project.".

(** The files Round 1 seeds a repository with. *)
Definition seeded_files (e : env) (license_content repo_name generated_html : string)
  : gmap string blob :=
  <["index.html" := mkBlob "index.html" generated_html (blob_sha_of e generated_html)]>
    (<["README.md" := mkBlob "README.md" (readme_of repo_name)
                             (blob_sha_of e (readme_of repo_name))]>
       (<["LICENSE" := mkBlob "LICENSE" license_content (blob_sha_of e license_content)]> ∅)).

Definition with_pages (e : env) (f : string -> pages_result) : env :=
  mkEnv (MY_APP_SECRET e) (login e) (fault e) (poll e) (post e) (llm e) f
        (commit_sha_of e) (blob_sha_of e) (repr e).

(** The platform answers the request for Pages with 404. *)
Definition pages_off : env := with_pages (world None page) (fun _ => PagesStatus 404 PNone).

(** From [st] to [st'] the program made [calls] calls through the client
    library and [commits] commits, and nothing else that counts: it sent
    nothing, polled nothing, asked the model nothing and did not sleep. *)
Definition moved (st st' : state) (calls commits : nat) : Prop :=
  n_api st' = (n_api st + calls)%nat
  /\ n_commits st' = (n_commits st + commits)%nat
  /\ services st' = services st
  /\ sleeps (trace st') = sleeps (trace st).

(** The end of the [try] body of [create_and_deploy_repo], from the request
    for Pages on. *)
Definition pages_and_deployment (e : env) (repo : string) : M (option details) :=
  bind (enable_pages e repo) (fun response =>
    if negb (fst response =? 201)
    then
      bind (print "Failed to enable GitHub Pages. Status: {response.status_code}, Response: {response.text}"
                  [FInt (fst response)])
           (fun _ => ret None)
    else
      bind (print "GitHub Pages enabled. URL will be: {pages_url}" [FVal (snd response)])
           (fun _ =>
      bind (wait_for_github_pages_deployment e repo) (fun deployment_successful =>
        if negb deployment_successful
        then bind (print "Aborting due to deployment failure or timeout." [])
                  (fun _ => ret None)
        else
          bind (get_branch_head e repo) (fun commit_sha =>
            ret (Some (mkDetails (html_url e repo) (snd response) commit_sha)))))).

Definition publish_failed (x : exn) : M (option details) :=
  bind (print "An error occurred during GitHub operations: {e}" [FExn x])
       (fun _ => ret None).

(** *** Further notions: strings *)

(** [sep.join(l)] *)
Fixpoint join (sep : string) (l : list string) : string :=
  match l with
  | [] => ""
  | x :: l' =>
      match l' with
      | [] => x
      | _ => x +:+ sep +:+ join sep l'
      end
  end.

(** A block as the prompt asks for it: the name of the file, the closing
    dashes, a line break and the body. *)
Definition file_block (name body : string) : string :=
  name +:+ " ---" +:+ Py.nl +:+ body.

(** *** Further notions: the repositories *)

(** Every repository but [repo] is in [st'] as it was in [st]. *)
Definition others_kept (repo : string) (st st' : state) : Prop :=
  forall name, name <> repo -> host st' !! name = host st !! name.

(** The file [path] of a repository, with [content] written to it. *)
Definition written (e : env) (path content : string) (files : gmap string blob)
  : gmap string blob :=
  <[path := mkBlob path content (blob_sha_of e content)]> files.

(** *** Further notions: the request *)

(** An attachment from which every key of [keys] can be read. *)
Definition has_keys (keys : list string) (att : pyval) : bool :=
  match att with
  | PDict d =>
      forallb (fun k => match assoc_last k d with Some _ => true | None => false end) keys
  | _ => false
  end.

(** Attachments the generation step can read: a falsy value, or a list
    whose elements all have the keys. *)
Definition readable (keys : list string) (attachments : pyval) : bool :=
  negb (py_truthy attachments)
  || match attachments with PList l => forallb (has_keys keys) l | _ => false end.

Definition is_object (data : pyval) : bool :=
  match data with PDict _ => true | _ => false end.

(** What the model's reply makes of the generation step. *)
Definition reply_as (e : env) (n : nat) (f : string -> string) : res string :=
  match llm e n with
  | LlmText t => Val (f t)
  | LlmRaises => Exc GenerationError
  end.

Definition build_finished : line := Line "Build task finished." [].
Definition revision_finished : line := Line "Revision task finished." [].

(** The model replies with a page and the platform cooperates, but the
    evaluator answers 500 to every attempt. *)
Definition deaf_evaluator : env := with_post (world None page) (fun _ => PostStatus 500).

(** A request with an attachment that has no [url]. *)
Definition request_without_url : list (string * pyval) :=
  [("round", PInt 1); ("task", PStr "t1");
   ("attachments", PList [PDict [("name", PStr "data.csv")]])].

(** [sub in s] *)
Fixpoint contains (sub s : string) : bool :=
  match s with
  | EmptyString => String.prefix sub s
  | String _ s' => String.prefix sub s || contains sub s'
  end.

(** The mark of a code fence. *)
Definition fence : string := "```".

(** A reply of the model wrapped in a code fence. *)
Definition fenced_reply : string :=
  "```html" +:+ Py.nl +:+ page +:+ Py.nl +:+ "```".

(** * Proofs *)

Lemma same_frame_refl st : same_frame st st.
Proof. unfold same_frame; auto. Qed.

Lemma same_frame_trans st1 st2 st3 :
  same_frame st1 st2 -> same_frame st2 st3 -> same_frame st1 st3.
Proof. unfold same_frame; intuition congruence. Qed.

Lemma posts_app tr1 tr2 : posts (tr1 ++ tr2) = posts tr1 ++ posts tr2.
Proof. unfold posts. apply List.filter_app. Qed.

Lemma sleeps_app tr1 tr2 : sleeps (tr1 ++ tr2) = sleeps tr1 ++ sleeps tr2.
Proof. unfold sleeps. apply omap_app. Qed.

(** ** The notification dispatcher *)

Section Notify.

Variable e : env.

(** One attempt sends one POST, and succeeds exactly on a 200. *)
Lemma attempt_spec i url body st :
  exists st',
    attempt e i url body st = (Val (acknowledged (post e (n_posts st))), st')
    /\ trace st' = trace st ++ [Post url body]
    /\ n_posts st' = S (n_posts st)
    /\ n_polls st' = n_polls st
    /\ same_frame st st'.
Proof.
  unfold attempt, try_except_request, bind, print, requests_post, ret, acknowledged,
    same_frame; cbn.
  destruct (post e (n_posts st)) as [code|]; cbn.
  - destruct (code =? 200); cbn; eexists; (split; [reflexivity|]); cbn; auto 10.
  - eexists; (split; [reflexivity|]); cbn; auto 10.
Qed.

Lemma notify_loop_all_fail url body range : forall delay st,
  (forall k, (k < length range)%nat -> acknowledged (post e (n_posts st + k)) = false) ->
  exists st',
    notify_loop e range url body delay st = (Val false, st')
    /\ trace st' = trace st ++ backoff url body (length range) delay
    /\ n_posts st' = (n_posts st + length range)%nat
    /\ n_polls st' = n_polls st
    /\ same_frame st st'.
Proof.
  induction range as [|i range IH]; intros delay st Hfail; cbn [notify_loop].
  - unfold bind, print, ret; cbn. eexists; split; [reflexivity|]; cbn.
    rewrite app_nil_r, Nat.add_0_r. unfold same_frame; auto 10.
  - destruct (attempt_spec i url body st) as (st1 & Hrun & Htr & Hn & Hp & Hfr).
    unfold bind at 1. rewrite Hrun.
    pose proof (Hfail 0%nat ltac:(cbn; lia)) as H0.
    rewrite Nat.add_0_r in H0. rewrite H0.
    unfold bind at 1, sleep, emit; cbn.
    match goal with
    | |- context [notify_loop e range url body _ ?s] =>
        destruct (IH (delay * 2) s) as (st2 & Hrun2 & Htr2 & Hn2 & Hp2 & Hfr2)
    end.
    { intros k Hk; cbn. rewrite Hn.
      replace (S (n_posts st) + k)%nat with (n_posts st + S k)%nat by lia.
      apply Hfail; cbn; lia. }
    exists st2; split; [exact Hrun2|]. cbn in *.
    rewrite Htr2, Htr, Hn2, Hn, Hp2, Hp, <- !app_assoc. cbn.
    repeat split; try lia; unfold same_frame in *; cbn in *; intuition congruence.
Qed.

(** When the first success is the reply to attempt [k] of the range, the
    loop makes [k] failed attempts, each followed by its delay, then the
    successful one, and returns at once. *)
Lemma notify_loop_first_success url body range : forall k delay st,
  (k < length range)%nat ->
  (forall j, (j < k)%nat -> acknowledged (post e (n_posts st + j)) = false) ->
  acknowledged (post e (n_posts st + k)) = true ->
  exists st',
    notify_loop e range url body delay st = (Val true, st')
    /\ trace st' = trace st ++ backoff url body k delay ++ [Post url body]
    /\ n_posts st' = (n_posts st + S k)%nat
    /\ n_polls st' = n_polls st
    /\ same_frame st st'.
Proof.
  induction range as [|i range IH]; intros k delay st Hk Hfail Hok; cbn in Hk; [lia|].
  cbn [notify_loop].
  destruct (attempt_spec i url body st) as (st1 & Hrun & Htr & Hn & Hp & Hfr).
  unfold bind at 1. rewrite Hrun.
  destruct k as [|k].
  - rewrite Nat.add_0_r in Hok. rewrite Hok. unfold ret.
    exists st1; split; [reflexivity|]. rewrite Htr, Hn. cbn.
    repeat split; try lia; auto; apply Hfr.
  - pose proof (Hfail 0%nat ltac:(lia)) as H0.
    rewrite Nat.add_0_r in H0. rewrite H0.
    unfold bind at 1, sleep, emit; cbn.
    match goal with
    | |- context [notify_loop e range url body _ ?s] =>
        destruct (IH k (delay * 2) s) as (st2 & Hrun2 & Htr2 & Hn2 & Hp2 & Hfr2)
    end.
    { lia. }
    { intros j Hj; cbn. rewrite Hn.
      replace (S (n_posts st) + j)%nat with (n_posts st + S j)%nat by lia.
      apply Hfail; lia. }
    { cbn. rewrite Hn.
      replace (S (n_posts st) + k)%nat with (n_posts st + S k)%nat by lia.
      exact Hok. }
    exists st2; split; [exact Hrun2|]. cbn in *.
    rewrite Htr2, Htr, Hn2, Hn, Hp2, Hp, <- !app_assoc. cbn.
    repeat split; try lia; unfold same_frame in *; cbn in *; intuition congruence.
Qed.

End Notify.

(** C1 (as amended).  For a target that fails each of the five attempts,
    [notify_evaluator] makes exactly five attempts and returns failure; a
    backoff delay follows every failed attempt, the last one included: the
    delays are 1, 2, 4, 8, 16, and the delay of 16 comes after the fifth
    attempt. *)
Theorem notify_evaluator_exhausts_retries (e : env) url body st :
  (forall k, (k < 5)%nat -> acknowledged (post e (n_posts st + k)) = false) ->
  exists st',
    notify_evaluator e url body st = (Val false, st')
    /\ trace st' = trace st ++
         [Post url body; Sleep 1; Post url body; Sleep 2; Post url body; Sleep 4;
          Post url body; Sleep 8; Post url body; Sleep 16]
    /\ length (posts (trace st')) = (length (posts (trace st)) + 5)%nat
    /\ sleeps (trace st') = sleeps (trace st) ++ [1; 2; 4; 8; 16]
    /\ last (trace st') = Some (Sleep 16).
Proof.
  intros Hfail. unfold notify_evaluator.
  destruct (notify_loop_all_fail e url body (seq 0 max_retries) 1 st)
    as (st' & Hrun & Htr & _); [exact Hfail|].
  exists st'. split; [exact Hrun|]. cbn in Htr. rewrite Htr.
  split; [reflexivity|]. rewrite posts_app, sleeps_app, length_app. cbn.
  split; [reflexivity|]. split; [reflexivity|].
  rewrite last_app. reflexivity.
Qed.

Lemma notify_evaluator_exhausts_retries_witness :
  exists st',
    notify_evaluator always_500 url0 body0 st0 = (Val false, st')
    /\ sleeps (trace st') = [1; 2; 4; 8; 16]
    /\ last (trace st') = Some (Sleep 16).
Proof.
  destruct (notify_evaluator_exhausts_retries always_500 url0 body0 st0)
    as (st' & Hrun & _ & _ & Hs & Hl); [intros k _; reflexivity|].
  exists st'. auto.
Defined.

(** C1 as the specification words it does not hold: after the fifth and last
    attempt on a target that always answers 500, the dispatcher still sleeps
    (16 time-units) before it returns. *)
Lemma notify_evaluator_sleeps_after_final_attempt :
  (forall n, acknowledged (post always_500 n) = false)
  /\ length (posts (trace (snd (notify_evaluator always_500 url0 body0 st0)))) = 5%nat
  /\ ~ no_delay_after_final_attempt
         (trace (snd (notify_evaluator always_500 url0 body0 st0))).
Proof.
  split; [intros n; reflexivity|]. split; [reflexivity|].
  intros H.
  destruct (H [Post url0 body0; Sleep 1; Post url0 body0; Sleep 2; Post url0 body0; Sleep 4;
               Post url0 body0; Sleep 8; Post url0 body0] 16 []) as (u & b & Hin).
  - reflexivity.
  - destruct Hin.
Qed.

(** C7.  An attempt succeeds exactly when the reply has status 200: any
    other status, and an exception of the transport, leave a failed attempt.
    The dispatcher stops at the first success: when the first 200 is the
    reply to attempt [k + 1] (of at most five), exactly [k + 1] attempts are
    made, no delay follows the successful one, and the result is success.
    For a target that answers 200 to the third attempt that is three
    attempts, with delays 1 and 2 between them. *)
Theorem notify_evaluator_stops_at_first_200 (e : env) url body st :
  (forall i, exists st1,
      attempt e i url body st = (Val (acknowledged (post e (n_posts st))), st1)
      /\ trace st1 = trace st ++ [Post url body])
  /\ (forall code, acknowledged (PostStatus code) = true <-> code = 200)
  /\ acknowledged PostRaises = false
  /\ (forall k, (k < 5)%nat ->
        (forall j, (j < k)%nat -> acknowledged (post e (n_posts st + j)) = false) ->
        acknowledged (post e (n_posts st + k)) = true ->
        exists st',
          notify_evaluator e url body st = (Val true, st')
          /\ trace st' = trace st ++ backoff url body k 1 ++ [Post url body]
          /\ length (posts (trace st')) = (length (posts (trace st)) + S k)%nat)
  /\ (acknowledged (post e (n_posts st)) = false ->
      acknowledged (post e (n_posts st + 1)) = false ->
      acknowledged (post e (n_posts st + 2)) = true ->
      exists st',
        notify_evaluator e url body st = (Val true, st')
        /\ trace st' = trace st ++
             [Post url body; Sleep 1; Post url body; Sleep 2; Post url body]).
Proof.
  assert (Hgen : forall k, (k < 5)%nat ->
        (forall j, (j < k)%nat -> acknowledged (post e (n_posts st + j)) = false) ->
        acknowledged (post e (n_posts st + k)) = true ->
        exists st',
          notify_evaluator e url body st = (Val true, st')
          /\ trace st' = trace st ++ backoff url body k 1 ++ [Post url body]
          /\ length (posts (trace st')) = (length (posts (trace st)) + S k)%nat).
  { intros k Hk Hfail Hok. unfold notify_evaluator.
    destruct (notify_loop_first_success e url body (seq 0 max_retries) k 1 st)
      as (st' & Hrun & Htr & _); [exact Hk | exact Hfail | exact Hok |].
    exists st'. split; [exact Hrun|]. split; [exact Htr|].
    rewrite Htr, !posts_app, !length_app. cbn.
    assert (Hb : forall n d, length (posts (backoff url body n d)) = n).
    { induction n as [|n IHn]; intros d; cbn; [reflexivity|]. now rewrite IHn. }
    rewrite Hb. lia. }
  split.
  { intros i. destruct (attempt_spec e i url body st) as (st1 & Hrun & Htr & _).
    exists st1; auto. }
  split.
  { intros code; unfold acknowledged. apply Z.eqb_eq. }
  split; [reflexivity|]. split; [exact Hgen|].
  intros H0 H1 H2.
  destruct (Hgen 2%nat) as (st' & Hrun & Htr & _); [lia | | exact H2 |].
  { intros j Hj. destruct j as [|[|j]]; [now rewrite Nat.add_0_r | exact H1 | lia]. }
  exists st'. split; [exact Hrun|]. rewrite Htr. reflexivity.
Qed.

Lemma notify_evaluator_stops_at_first_200_witness :
  (exists st',
      notify_evaluator third_time url0 body0 st0 = (Val true, st')
      /\ trace st' = [Post url0 body0; Sleep 1; Post url0 body0; Sleep 2; Post url0 body0])
  /\ (exists st',
        notify_evaluator (world None page) url0 body0 st0 = (Val true, st')
        /\ trace st' = [Post url0 body0]).
Proof.
  split.
  - destruct (notify_evaluator_stops_at_first_200 third_time url0 body0 st0)
      as (_ & _ & _ & _ & H3).
    apply H3; reflexivity.
  - destruct (notify_evaluator_stops_at_first_200 (world None page) url0 body0 st0)
      as (_ & _ & _ & Hk & _).
    destruct (Hk 0%nat) as (st' & Hrun & Htr & _).
    + lia.
    + intros j Hj; lia.
    + reflexivity.
    + exists st'. split; [exact Hrun | exact Htr].
Defined.

(** ** The deployment watcher *)

Section Watcher.

Variable e : env.

Lemma first_decisive_some p n : forall k,
  first_decisive e p n = Some k ->
  (k < n)%nat /\ pending (poll e (p + k)) = false
  /\ forall j, (j < k)%nat -> pending (poll e (p + j)) = true.
Proof.
  revert p. induction n as [|n IH]; intros p k H; cbn in H; [discriminate|].
  destruct (pending (poll e p)) eqn:Hp.
  - destruct (first_decisive e (S p) n) as [k'|] eqn:Hk; [|discriminate].
    injection H as <-. destruct (IH _ _ Hk) as (Hlt & Hnp & Hbefore).
    split; [lia|]. split.
    + now rewrite Nat.add_succ_r.
    + intros [|j] Hj; [now rewrite Nat.add_0_r|].
      rewrite Nat.add_succ_r. apply Hbefore. lia.
  - injection H as <-. split; [lia|]. split; [now rewrite Nat.add_0_r|].
    intros j Hj; lia.
Qed.

Lemma first_decisive_none p n :
  first_decisive e p n = None ->
  forall j, (j < n)%nat -> pending (poll e (p + j)) = true.
Proof.
  revert p. induction n as [|n IH]; intros p H j Hj; [lia|]. cbn in H.
  destruct (pending (poll e p)) eqn:Hp; [|discriminate].
  destruct (first_decisive e (S p) n) eqn:Hk; [discriminate|].
  destruct j as [|j]; [now rewrite Nat.add_0_r|].
  rewrite Nat.add_succ_r. apply (IH (S p)); [assumption | lia].
Qed.

Lemma first_decisive_intro p n : forall k,
  (k < n)%nat -> pending (poll e (p + k)) = false ->
  (forall j, (j < k)%nat -> pending (poll e (p + j)) = true) ->
  first_decisive e p n = Some k.
Proof.
  revert p. induction n as [|n IH]; intros p k Hk Hnp Hbefore; [lia|]. cbn.
  destruct k as [|k].
  - rewrite Nat.add_0_r in Hnp. now rewrite Hnp.
  - pose proof (Hbefore 0%nat ltac:(lia)) as H0. rewrite Nat.add_0_r in H0. rewrite H0.
    rewrite (IH (S p) k); [reflexivity | lia | |].
    + now rewrite Nat.add_succ_r in Hnp.
    + intros j Hj. specialize (Hbefore (S j) ltac:(lia)).
      now rewrite Nat.add_succ_r in Hbefore.
Qed.

Lemma first_decisive_all_pending p n :
  (forall j, (j < n)%nat -> pending (poll e (p + j)) = true) ->
  first_decisive e p n = None.
Proof.
  intros H. destruct (first_decisive e p n) as [k|] eqn:Hk; [|reflexivity].
  destruct (first_decisive_some _ _ _ Hk) as (Hlt & Hnp & _).
  rewrite (H k Hlt) in Hnp. discriminate.
Qed.

(** One turn of the loop: one poll; on a pending reply the turn ends in
    the sleep, on any other reply the function returns. *)
Lemma poll_once_spec repo st :
  exists st',
    poll_once e repo st =
      (Val (if pending (poll e (n_polls st)) then None
            else Some (success_reply (poll e (n_polls st)))), st')
    /\ trace st' = trace st ++ Api (GetWorkflowRuns repo)
                     :: (if pending (poll e (n_polls st))
                         then [Sleep poll_interval_seconds] else [])
    /\ n_polls st' = S (n_polls st)
    /\ n_posts st' = n_posts st
    /\ same_frame st st'.
Proof.
  unfold poll_once, try_except, bind, get_workflow_runs, print, sleep, emit, ret,
    pending, success_reply, succeeded, completed, same_frame.
  destruct (poll e (n_polls st)) as [| |[s c]]; cbn.
  - eexists; split; [reflexivity|]; cbn; auto 10.
  - eexists; split; [reflexivity|]; cbn. rewrite <- app_assoc. auto 10.
  - destruct (String.eqb s "completed"); cbn.
    + destruct c as [c|]; cbn; [destruct (String.eqb c "success"); cbn|];
        eexists; (split; [reflexivity|]); cbn; auto 10.
    + eexists; split; [reflexivity|]; cbn. rewrite <- app_assoc. auto 10.
Qed.

(** The loop with [n] polls left in the budget. *)
Lemma poll_loop_spec repo n : forall fuel elapsed st,
  (n <= fuel)%nat ->
  elapsed = timeout_seconds - poll_interval_seconds * Z.of_nat n ->
  exists st',
    poll_loop e fuel repo elapsed st =
      (Val (match first_decisive e (n_polls st) n with
            | Some k => success_reply (poll e (n_polls st + k))
            | None => false
            end), st')
    /\ trace st' = trace st ++
         match first_decisive e (n_polls st) n with
         | Some k => rounds repo k ++ [Api (GetWorkflowRuns repo)]
         | None => rounds repo n
         end
    /\ n_polls st' = (n_polls st +
         match first_decisive e (n_polls st) n with Some k => S k | None => n end)%nat
    /\ (first_decisive e (n_polls st) n = None -> last (stdout st') = Some timed_out_line)
    /\ n_posts st' = n_posts st
    /\ same_frame st st'.
Proof.
  induction n as [|n IH]; intros fuel elapsed st Hf He.
  - cbn in He. subst elapsed.
    destruct fuel; cbn;
      (eexists; split; [reflexivity|]; cbn; rewrite app_nil_r, Nat.add_0_r, last_snoc;
       unfold same_frame; auto 10).
  - destruct fuel as [|fuel]; [lia|].
    assert (Hlt : (elapsed <? timeout_seconds) = true).
    { apply Z.ltb_lt. unfold timeout_seconds, poll_interval_seconds in *. lia. }
    cbn [poll_loop first_decisive]. rewrite Hlt.
    destruct (poll_once_spec repo st) as (st1 & Hrun & Htr & Hp & Hq & Hfr).
    unfold bind at 1. rewrite Hrun.
    destruct (pending (poll e (n_polls st))) eqn:Hpend.
    + destruct (IH fuel (elapsed + poll_interval_seconds) st1)
        as (st2 & Hrun2 & Htr2 & Hp2 & Hto2 & Hq2 & Hfr2);
        [lia | unfold timeout_seconds, poll_interval_seconds in *; lia |].
      exists st2. rewrite Hrun2, Htr2, Hp2, Htr, Hp, Hq2, Hq.
      rewrite Hp in Hto2.
      destruct (first_decisive e (S (n_polls st)) n) as [k|]; cbn;
        rewrite <- ?app_assoc; cbn; rewrite ?Nat.add_succ_r;
        (repeat split; try lia; try discriminate; auto;
         eapply same_frame_trans; eassumption).
    + exists st1. rewrite Htr, Hp, Hq. cbn. rewrite Nat.add_0_r.
      repeat split; try lia; try discriminate; auto; apply Hfr.
Qed.

(** [wait_for_github_pages_deployment] always returns: it sleeps 5, then
    polls until a reply is not pending or 30 polls have been made. *)
Lemma wait_spec repo st :
  exists st',
    wait_for_github_pages_deployment e repo st =
      (Val (match first_decisive e (n_polls st) max_polls with
            | Some k => success_reply (poll e (n_polls st + k))
            | None => false
            end), st')
    /\ trace st' = trace st ++ Sleep 5 ::
         match first_decisive e (n_polls st) max_polls with
         | Some k => rounds repo k ++ [Api (GetWorkflowRuns repo)]
         | None => rounds repo max_polls
         end
    /\ n_polls st' = (n_polls st +
         match first_decisive e (n_polls st) max_polls with
         | Some k => S k | None => max_polls end)%nat
    /\ (first_decisive e (n_polls st) max_polls = None ->
        last (stdout st') = Some timed_out_line)
    /\ n_posts st' = n_posts st
    /\ same_frame st st'.
Proof.
  unfold wait_for_github_pages_deployment.
  unfold bind at 1, print at 1. cbn beta iota.
  unfold bind at 1, sleep at 1, emit at 1. cbn beta iota.
  match goal with
  | |- context [poll_loop e ?f repo ?el ?s] =>
      destruct (poll_loop_spec repo max_polls f el s)
        as (st' & Hrun & Htr & Hp & Hto & Hq & Hfr)
  end.
  { unfold max_polls, timeout_seconds. cbn. lia. }
  { reflexivity. }
  exists st'. split; [exact Hrun|].
  cbn [trace n_polls n_posts stdout] in Htr, Hp, Hto, Hq.
  rewrite Htr, Hp, Hq, <- app_assoc. cbn [app].
  repeat split; auto; apply Hfr.
Qed.

Lemma sleeps_rounds repo k : sleeps (rounds repo k) = repeat poll_interval_seconds k.
Proof. induction k as [|k IH]; cbn; [reflexivity|]. now rewrite <- IH. Qed.

Lemma first_completed_pending p k :
  (forall j, (j < k)%nat -> pending (poll e (p + j)) = true) ->
  forall o, first_completed (map (poll e) (seq p k) ++ [o])
            = first_completed [o].
Proof.
  revert p. induction k as [|k IH]; intros p H o; [reflexivity|].
  cbn [seq map app]. unfold first_completed in *. cbn [List.find].
  pose proof (H 0%nat ltac:(lia)) as H0. rewrite Nat.add_0_r in H0.
  destruct (poll e p) as [| |r] eqn:Hr; cbn in H0; try discriminate.
  - apply IH. intros j Hj. specialize (H (S j) ltac:(lia)).
    now rewrite Nat.add_succ_r in H.
  - apply negb_true_iff in H0. rewrite H0.
    apply IH. intros j Hj. specialize (H (S j) ltac:(lia)).
    now rewrite Nat.add_succ_r in H.
Qed.

Lemma first_completed_all_pending p k :
  (forall j, (j < k)%nat -> pending (poll e (p + j)) = true) ->
  first_completed (map (poll e) (seq p k)) = None.
Proof.
  intros H. rewrite <- (app_nil_r (map _ _)).
  replace (@nil poll_obs) with (@nil poll_obs ++ []) by reflexivity.
  revert p H. induction k as [|k IH]; intros p H; [reflexivity|].
  cbn [seq map app]. unfold first_completed in *. cbn [List.find].
  pose proof (H 0%nat ltac:(lia)) as H0. rewrite Nat.add_0_r in H0.
  destruct (poll e p) as [| |r] eqn:Hr; cbn in H0; try discriminate.
  - apply IH. intros j Hj. specialize (H (S j) ltac:(lia)).
    now rewrite Nat.add_succ_r in H.
  - apply negb_true_iff in H0. rewrite H0.
    apply IH. intros j Hj. specialize (H (S j) ltac:(lia)).
    now rewrite Nat.add_succ_r in H.
Qed.

End Watcher.

Lemma sleeps_sleep s tr : sleeps (Sleep s :: tr) = s :: sleeps tr.
Proof. reflexivity. Qed.

Lemma sleeps_api c tr : sleeps (Api c :: tr) = sleeps tr.
Proof. reflexivity. Qed.

Lemma rounds_app repo a b : rounds repo (a + b) = rounds repo a ++ rounds repo b.
Proof. induction a as [|a IH]; cbn; [reflexivity|]. now rewrite IH. Qed.

Lemma total_repeat d n : total (repeat d n) = d * Z.of_nat n.
Proof.
  induction n as [|n IH]; [cbn; lia|].
  cbn [repeat total fold_right]. fold (total (repeat d n)). rewrite IH. lia.
Qed.

Lemma succeeded_iff r :
  succeeded r = true <-> completed r = true /\ conclusion r = Some "success".
Proof.
  unfold succeeded. rewrite andb_true_iff.
  split; intros [Hc Hs]; (split; [exact Hc|]).
  - destruct (conclusion r) as [c|]; [|discriminate].
    apply String.eqb_eq in Hs. now subst.
  - rewrite Hs. apply String.eqb_refl.
Qed.

(** C4.  The watcher returns success exactly when the first observation
    that shows a completed run shows the conclusion [success].  A completed
    run with any other conclusion makes it return failure at that
    observation: it is the last event, no further poll and no sleep follow.
    An observation with no run does not end the watch: the watcher sleeps
    the poll interval and, while the budget lasts, polls again. *)
Theorem watcher_first_completed_decides (e : env) repo st :
  exists r st',
    wait_for_github_pages_deployment e repo st = (Val r, st')
    /\ (r = true <->
        exists latest, first_completed (observations e st st') = Some latest
                       /\ conclusion latest = Some "success")
    /\ (forall k latest,
          (k < max_polls)%nat ->
          (forall j, (j < k)%nat -> pending (poll e (n_polls st + j)) = true) ->
          poll e (n_polls st + k) = LatestRun latest ->
          completed latest = true ->
          conclusion latest <> Some "success" ->
          r = false
          /\ n_polls st' = (n_polls st + S k)%nat
          /\ trace st' = trace st ++ Sleep 5 :: rounds repo k ++ [Api (GetWorkflowRuns repo)])
    /\ (forall k,
          (k < max_polls)%nat ->
          (forall j, (j < k)%nat -> pending (poll e (n_polls st + j)) = true) ->
          poll e (n_polls st + k) = NoRun ->
          (exists rest, trace st' = trace st ++ Sleep 5 :: rounds repo (S k) ++ rest)
          /\ ((S k < max_polls)%nat -> (n_polls st + S (S k) <= n_polls st')%nat)).
Proof.
  destruct (wait_spec e repo st) as (st' & Hrun & Htr & Hp & _ & _ & _).
  eexists; exists st'. split; [exact Hrun|].
  set (p := n_polls st) in *.
  split; [|split].
  - unfold observations. fold p.
    destruct (first_decisive e p max_polls) as [k|] eqn:Hd.
    + destruct (first_decisive_some _ _ _ _ Hd) as (Hk & Hnp & Hbefore).
      rewrite Hp. replace (p + S k - p)%nat with (S k) by lia.
      rewrite seq_S, map_app. cbn [map].
      rewrite (first_completed_pending e p k Hbefore).
      unfold first_completed; cbn [List.find].
      destruct (poll e (p + k)) as [| |latest] eqn:Ho; cbn [success_reply].
      * split; [discriminate | intros (l & Hl & _); discriminate].
      * split; [discriminate | intros (l & Hl & _); discriminate].
      * cbn in Hnp. apply negb_false_iff in Hnp. rewrite Hnp.
        rewrite succeeded_iff. split.
        -- intros [_ Hs]. exists latest; auto.
        -- intros (l & Hl & Hs). injection Hl as <-. auto.
    + rewrite Hp. replace (p + max_polls - p)%nat with max_polls by lia.
      rewrite (first_completed_all_pending e p max_polls (first_decisive_none _ _ _ Hd)).
      split; [discriminate | intros (l & Hl & _); discriminate].
  - intros k latest Hk Hbefore Ho Hc Hne.
    assert (Hd : first_decisive e p max_polls = Some k).
    { apply first_decisive_intro; auto. rewrite Ho. cbn. now rewrite Hc. }
    rewrite Hd in *. rewrite Ho. cbn [success_reply].
    split; [|split; [exact Hp | exact Htr]].
    destruct (succeeded latest) eqn:Hs; [|reflexivity].
    apply succeeded_iff in Hs. destruct Hs as [_ Hs]. contradiction.
  - intros k Hk Hbefore Ho.
    assert (Hpend : forall j, (j < S k)%nat -> pending (poll e (p + j)) = true).
    { intros j Hj. destruct (Nat.eq_dec j k) as [->|Hjk]; [now rewrite Ho|].
      apply Hbefore. lia. }
    destruct (first_decisive e p max_polls) as [k'|] eqn:Hd.
    + destruct (first_decisive_some _ _ _ _ Hd) as (Hk' & Hnp & _).
      assert (S k <= k')%nat.
      { destruct (Nat.lt_ge_cases k' (S k)) as [Hlt|]; [|assumption].
        rewrite (Hpend k' Hlt) in Hnp. discriminate. }
      split; [|lia].
      exists (rounds repo (k' - S k) ++ [Api (GetWorkflowRuns repo)]).
      rewrite Htr. replace k' with (S k + (k' - S k))%nat at 1 by lia.
      now rewrite rounds_app, <- app_assoc.
    + split; [|lia].
      exists (rounds repo (max_polls - S k)).
      rewrite Htr. replace max_polls with (S k + (max_polls - S k))%nat at 1 by lia.
      now rewrite rounds_app.
Qed.

Lemma watcher_first_completed_decides_witness :
  exists st',
    wait_for_github_pages_deployment fails_third "llm-app-t1" st0 = (Val false, st')
    /\ n_polls st' = 3%nat
    /\ trace st' =
         [Sleep 5;
          Api (GetWorkflowRuns "llm-app-t1"); Sleep 10;
          Api (GetWorkflowRuns "llm-app-t1"); Sleep 10;
          Api (GetWorkflowRuns "llm-app-t1")]
    /\ (2 <= n_polls st')%nat.
Proof.
  destruct (watcher_first_completed_decides fails_third "llm-app-t1" st0)
    as (r & st' & Hrun & _ & Hbad & Hnone).
  destruct (Hbad 2%nat run_bad) as (-> & Hp & Htr).
  - unfold max_polls; lia.
  - intros [|[|j]] Hj; [reflexivity | reflexivity | lia].
  - reflexivity.
  - reflexivity.
  - discriminate.
  - destruct (Hnone 0%nat) as (_ & Hnext).
    + unfold max_polls; lia.
    + intros j Hj; lia.
    + reflexivity.
    + exists st'. split; [exact Hrun|]. split; [exact Hp|]. split; [exact Htr|].
      apply Hnext. unfold max_polls; lia.
Defined.

(** C5.  The watcher first sleeps the warm-up of 5, and only then polls.
    Every poll that does not decide is followed by a sleep of 10; at most 30
    polls are made, so that the loop sleeps at most 300 in all, the warm-up
    not included.  When none of the 30 replies shows a completed run (and
    none raises), the watcher has slept exactly 5 and then 30 times 10, and
    it returns failure with the time-out message. *)
Theorem watcher_warm_up_and_budget (e : env) repo st :
  exists r st',
    wait_for_github_pages_deployment e repo st = (Val r, st')
    /\ (exists rest, trace st' = trace st ++ Sleep 5 :: Api (GetWorkflowRuns repo) :: rest)
    /\ (exists m, (m <= max_polls)%nat
                  /\ sleeps (trace st') = sleeps (trace st) ++ 5 :: repeat poll_interval_seconds m
                  /\ total (repeat poll_interval_seconds m) <= timeout_seconds)
    /\ (n_polls st' - n_polls st <= max_polls)%nat
    /\ ((forall j, (j < max_polls)%nat -> pending (poll e (n_polls st + j)) = true) ->
        r = false
        /\ trace st' = trace st ++ Sleep 5 :: rounds repo max_polls
        /\ sleeps (trace st') = sleeps (trace st) ++ 5 :: repeat poll_interval_seconds max_polls
        /\ total (repeat poll_interval_seconds max_polls) = timeout_seconds
        /\ n_polls st' = (n_polls st + max_polls)%nat
        /\ last (stdout st') = Some timed_out_line).
Proof.
  destruct (wait_spec e repo st) as (st' & Hrun & Htr & Hp & Hto & _ & _).
  eexists; exists st'. split; [exact Hrun|].
  set (p := n_polls st) in *.
  split; [|split; [|split]].
  - destruct (first_decisive e p max_polls) as [[|k]|]; rewrite Htr; cbn; eauto.
  - destruct (first_decisive e p max_polls) as [k|] eqn:Hd.
    + destruct (first_decisive_some _ _ _ _ Hd) as (Hk & _).
      exists k. split; [lia|].
      rewrite Htr, sleeps_app, sleeps_sleep, sleeps_app, sleeps_rounds, sleeps_api.
      cbn [sleeps omap]. rewrite app_nil_r.
      split; [reflexivity|].
      rewrite total_repeat. unfold poll_interval_seconds, timeout_seconds, max_polls in *. lia.
    + exists max_polls. split; [lia|].
      rewrite Htr, sleeps_app, sleeps_sleep, sleeps_rounds. split; [reflexivity|].
      rewrite total_repeat. reflexivity.
  - rewrite Hp. destruct (first_decisive e p max_polls) as [k|] eqn:Hd; [|lia].
    destruct (first_decisive_some _ _ _ _ Hd) as (Hk & _). lia.
  - intros Hall. rewrite (first_decisive_all_pending e p max_polls Hall) in *.
    split; [reflexivity|]. split; [exact Htr|].
    split.
    { now rewrite Htr, sleeps_app, sleeps_sleep, sleeps_rounds. }
    split; [now rewrite total_repeat|]. split; [exact Hp|]. now apply Hto.
Qed.

Lemma watcher_warm_up_and_budget_witness :
  exists st',
    wait_for_github_pages_deployment never_done "llm-app-t1" st0 = (Val false, st')
    /\ sleeps (trace st') = 5 :: repeat 10 30
    /\ n_polls st' = 30%nat
    /\ last (stdout st') = Some timed_out_line.
Proof.
  destruct (watcher_warm_up_and_budget never_done "llm-app-t1" st0)
    as (r & st' & Hrun & _ & _ & _ & Hall).
  destruct Hall as (-> & _ & Hs & _ & Hp & Hl); [intros j _; reflexivity|].
  exists st'. split; [exact Hrun|]. split; [exact Hs|]. split; [exact Hp | exact Hl].
Defined.

(** ** Sequencing *)

Lemma bind_val {A B} (m : M A) (k : A -> M B) st a st1 :
  m st = (Val a, st1) -> bind m k st = k a st1.
Proof. intros H. unfold bind. now rewrite H. Qed.

Lemma bind_exc {A B} (m : M A) (k : A -> M B) st x st1 :
  m st = (Exc x, st1) -> bind m k st = (Exc x, st1).
Proof. intros H. unfold bind. now rewrite H. Qed.

Lemma bind_inv_val {A B} (m : M A) (k : A -> M B) st b st' :
  bind m k st = (Val b, st') ->
  exists a st1, m st = (Val a, st1) /\ k a st1 = (Val b, st').
Proof.
  unfold bind. destruct (m st) as [[a|x] st1]; [eauto | discriminate].
Qed.

Lemma try_except_val {A} (m : M A) h st : exists r st', try_except m h st = (r, st') /\
  (forall a st1, m st = (Val a, st1) -> r = Val a /\ st' = st1).
Proof.
  unfold try_except. destruct (m st) as [[a|x] st1].
  - eexists _, _; split; [reflexivity|]. intros ? ? [= <- <-]; auto.
  - destruct (h x st1) as [r st'] eqn:E. exists r, st'. split; [reflexivity|]. intros ? ? [=].
Qed.

(** ** What the steps leave unchanged *)

Section Preserves.

Context {X : Type} (f : state -> X).

Lemma preserves_ret {A} (a : A) : preserves f (ret a).
Proof. intros st r st' [= <- <-]. reflexivity. Qed.

Lemma preserves_raise {A} x : preserves f (@raise A x).
Proof. intros st r st' [= <- <-]. reflexivity. Qed.

Lemma preserves_bind {A B} (m : M A) (k : A -> M B) :
  preserves f m -> (forall a, preserves f (k a)) -> preserves f (bind m k).
Proof.
  intros Hm Hk st r st' H. unfold bind in H.
  destruct (m st) as [[a|x] st1] eqn:E.
  - rewrite (Hk a _ _ _ H). exact (Hm _ _ _ E).
  - injection H as <- <-. exact (Hm _ _ _ E).
Qed.

Lemma preserves_try_except {A} (m : M A) h :
  preserves f m -> (forall x, preserves f (h x)) -> preserves f (try_except m h).
Proof.
  intros Hm Hh st r st' H. unfold try_except in H.
  destruct (m st) as [[a|x] st1] eqn:E.
  - injection H as <- <-. exact (Hm _ _ _ E).
  - rewrite (Hh x _ _ _ H). exact (Hm _ _ _ E).
Qed.

Lemma preserves_try_except_request {A} (m : M A) h :
  preserves f m -> (forall x, preserves f (h x)) -> preserves f (try_except_request m h).
Proof.
  intros Hm Hh st r st' H. unfold try_except_request in H.
  destruct (m st) as [[a|x] st1] eqn:E.
  - injection H as <- <-. exact (Hm _ _ _ E).
  - destruct (is_request_exception x).
    + rewrite (Hh x _ _ _ H). exact (Hm _ _ _ E).
    + injection H as <- <-. exact (Hm _ _ _ E).
Qed.

Lemma preserves_get_host : preserves f get_host.
Proof. intros st r st' [= <- <-]. reflexivity. Qed.

End Preserves.

Lemma services_sent {A} (m : M A) : preserves services m -> quiet m.
Proof. intros H st r st' E. apply H in E. unfold services in E. congruence. Qed.

Lemma services_n_polls {A} (m : M A) : preserves services m -> preserves n_polls m.
Proof. intros H st r st' E. apply H in E. unfold services in E. congruence. Qed.

Lemma services_n_llm {A} (m : M A) : preserves services m -> preserves n_llm m.
Proof. intros H st r st' E. apply H in E. unfold services in E. congruence. Qed.

(** A step whose effects are read off its definition. *)
Ltac by_unfolding H :=
  repeat match type of H with
         | context [if ?b then _ else _] => destruct b
         | context [match ?x with _ => _ end] => destruct x
         end;
  injection H as <- <-; cbn;
  unfold services, sent; cbn; rewrite ?posts_app; cbn; rewrite ?app_nil_r; reflexivity.

Lemma services_print text args : preserves services (print text args).
Proof. intros st r st' H. unfold print in H. by_unfolding H. Qed.

Lemma services_set_host h : preserves services (set_host h).
Proof. intros st r st' H. unfold set_host in H. by_unfolding H. Qed.

Lemma services_call e c : preserves services (call e c).
Proof. intros st r st' H. unfold call in H. by_unfolding H. Qed.

Lemma services_fresh_commit e : preserves services (fresh_commit e).
Proof. intros st r st' H. unfold fresh_commit in H. by_unfolding H. Qed.

Lemma services_enable_pages e repo : preserves services (enable_pages e repo).
Proof. intros st r st' H. unfold enable_pages in H. by_unfolding H. Qed.

Lemma quiet_sleep s : quiet (sleep s).
Proof. intros st r st' H. unfold sleep, emit in H. by_unfolding H. Qed.

Lemma quiet_get_workflow_runs e repo : quiet (get_workflow_runs e repo).
Proof. intros st r st' H. unfold get_workflow_runs in H. by_unfolding H. Qed.

Lemma quiet_generate_content e : quiet (generate_content e).
Proof. intros st r st' H. unfold generate_content in H. by_unfolding H. Qed.

Create HintDb steps.
#[local] Hint Resolve preserves_ret preserves_raise preserves_get_host
  services_print services_set_host services_call services_fresh_commit services_enable_pages
  quiet_sleep quiet_get_workflow_runs quiet_generate_content : steps.
#[local] Hint Resolve services_sent | 5 : steps.

Ltac compose :=
  repeat first
    [ solve [auto with steps]
    | apply preserves_bind; [|intros ?]
    | apply preserves_try_except; [|intros ?]
    | apply preserves_try_except_request; [|intros ?]
    | match goal with
      | |- preserves _ (if ?b then _ else _) => destruct b
      | |- preserves _ (match ?x with _ => _ end) => destruct x
      end
    | progress cbv zeta ].

Lemma services_create_repo e name : preserves services (create_repo e name).
Proof. unfold create_repo. compose. Qed.

Lemma services_get_repo e name : preserves services (get_repo e name).
Proof. unfold get_repo. compose. Qed.

Lemma services_create_file e repo path content :
  preserves services (create_file e repo path content).
Proof. unfold create_file. compose. Qed.

Lemma services_get_contents e repo path : preserves services (get_contents e repo path).
Proof. unfold get_contents. compose. Qed.

Lemma services_update_file e repo path content sha :
  preserves services (update_file e repo path content sha).
Proof. unfold update_file. compose. Qed.

Lemma services_get_branch_head e repo : preserves services (get_branch_head e repo).
Proof. unfold get_branch_head. compose. Qed.

#[local] Hint Resolve services_create_repo services_get_repo services_create_file
  services_get_contents services_update_file services_get_branch_head : steps.

Lemma quiet_poll_once e repo : quiet (poll_once e repo).
Proof. unfold poll_once. compose. Qed.

#[local] Hint Resolve quiet_poll_once : steps.

Lemma quiet_poll_loop e repo fuel : forall elapsed, quiet (poll_loop e fuel repo elapsed).
Proof. induction fuel as [|fuel IH]; intros elapsed; cbn [poll_loop]; compose. Qed.

Lemma quiet_wait e repo : quiet (wait_for_github_pages_deployment e repo).
Proof. unfold wait_for_github_pages_deployment. compose; apply quiet_poll_loop. Qed.

#[local] Hint Resolve quiet_wait : steps.

Lemma services_py_get data key default : preserves services (py_get data key default).
Proof. unfold py_get. compose. Qed.

Lemma services_subscripts att keys : preserves services (subscripts att keys).
Proof.
  induction keys as [|k keys IH]; cbn [subscripts]; [compose|]. unfold subscript. compose.
Qed.

Lemma services_each_attachment keys l : preserves services (each_attachment keys l).
Proof.
  induction l as [|att l IH]; cbn [each_attachment]; [compose|].
  apply preserves_bind; [apply services_subscripts | intros _; exact IH].
Qed.

Lemma services_attachments_prompt_part keys attachments :
  preserves services (attachments_prompt_part keys attachments).
Proof. unfold attachments_prompt_part. compose; apply services_each_attachment. Qed.

#[local] Hint Resolve services_py_get services_attachments_prompt_part : steps.

Lemma quiet_generate_app_code e brief checks attachments :
  quiet (generate_app_code e brief checks attachments).
Proof. unfold generate_app_code. compose. Qed.

Lemma quiet_generate_updated_code e brief checks existing attachments :
  quiet (generate_updated_code e brief checks existing attachments).
Proof. unfold generate_updated_code. compose. Qed.

Lemma quiet_create_and_deploy_repo e lic task html :
  quiet (create_and_deploy_repo e lic task html).
Proof. unfold create_and_deploy_repo. compose. Qed.

Lemma services_repo_details_handler name x : preserves services (repo_details_handler name x).
Proof. unfold repo_details_handler. compose. Qed.

Lemma services_get_existing_repo_details e task :
  preserves services (get_existing_repo_details e task).
Proof.
  intros st r st' H. unfold get_existing_repo_details in H.
  match type of H with
  | (match ?m st with _ => _ end) = _ =>
      assert (HA : preserves services m) by compose;
      destruct (m st) as [[a|x] st1] eqn:E1; apply HA in E1
  end.
  - match type of H with
    | (match ?m st1 with _ => _ end) = _ =>
        assert (HB : preserves services m) by compose;
        destruct (m st1) as [[d|x] st2] eqn:E2; apply HB in E2
    end.
    + injection H as <- <-. congruence.
    + apply services_repo_details_handler in H. congruence.
  - apply services_repo_details_handler in H. congruence.
Qed.

Lemma services_update_block e repo sha file_raw :
  preserves services (update_block e repo sha file_raw).
Proof. unfold update_block. compose. Qed.

Lemma services_update_blocks e repo files_raw : forall sha,
  preserves services (update_blocks e repo sha files_raw).
Proof.
  induction files_raw as [|b l IH]; intros sha; cbn [update_blocks]; [compose|].
  apply preserves_bind; [apply services_update_block | intros sha'; apply IH].
Qed.

#[local] Hint Resolve quiet_generate_app_code quiet_generate_updated_code
  quiet_create_and_deploy_repo services_get_existing_repo_details
  services_update_blocks : steps.

Lemma quiet_update_repo_files e repo llm_response :
  quiet (update_repo_files e repo llm_response).
Proof. unfold update_repo_files. compose. Qed.

Lemma wait_verdict e repo st :
  exists st',
    wait_for_github_pages_deployment e repo st = (Val (watch_verdict e (n_polls st)), st')
    /\ host st' = host st.
Proof.
  destruct (wait_spec e repo st) as (st' & Hrun & _ & _ & _ & _ & Hfr).
  exists st'. split; [exact Hrun | apply Hfr].
Qed.

Ltac host_step H :=
  apply bind_inv_val in H;
  let a := fresh "a" in
  let s := fresh "s" in
  let E := fresh "E" in
  destruct H as (a & s & E & H);
  match type of E with
  | ?m _ = _ =>
      let P := fresh "P" in
      assert (P : preserves services m) by compose;
      apply P in E; clear P
  end.

Lemma try_except_inv {A} (m : M A) h st r st' :
  try_except m h st = (r, st') ->
  m st = (r, st') \/ exists x st1, m st = (Exc x, st1) /\ h x st1 = (r, st').
Proof.
  unfold try_except. destruct (m st) as [[a|x] st1]; intros H; [left; exact H | right; eauto].
Qed.

Lemma create_and_deploy_repo_returns e lic task html st :
  exists o st', create_and_deploy_repo e lic task html st = (Val o, st').
Proof.
  unfold create_and_deploy_repo, try_except.
  match goal with |- context [match ?m st with _ => _ end] => destruct (m st) as [[o|x] st1] end.
  - eauto.
  - unfold bind, print, ret. eauto.
Qed.

Lemma create_and_deploy_repo_some e lic task html st gd st' :
  create_and_deploy_repo e lic task html st = (Val (Some gd), st') ->
  watch_verdict e (n_polls st) = true.
Proof.
  intros H. unfold create_and_deploy_repo in H.
  apply try_except_inv in H. destruct H as [H | (x & st1 & _ & H)];
    [|unfold bind, print, ret in H; discriminate].
  cbv zeta in H. repeat host_step H.
  match type of H with
  | context [negb (fst ?r =? 201)] => destruct (negb (fst r =? 201))
  end.
  { host_step H. discriminate. }
  host_step H.
  apply bind_inv_val in H. destruct H as (ok & sw & Ew & H).
  match type of Ew with
  | wait_for_github_pages_deployment e ?repo ?s = _ =>
      destruct (wait_verdict e repo s) as (sw' & Hw & _);
      rewrite Hw in Ew; injection Ew as <- <-;
      destruct (watch_verdict e (n_polls s)) eqn:Hv;
      [ replace (n_polls st) with (n_polls s) by (unfold services in *; congruence);
        exact Hv
      | cbn in H; unfold ret in H; discriminate ]
  end.
Qed.

Lemma update_repo_files_returns e repo resp st :
  exists o st', update_repo_files e repo resp st = (Val o, st').
Proof.
  unfold update_repo_files, try_except.
  match goal with |- context [match ?m st with _ => _ end] => destruct (m st) as [[o|x] st1] end.
  - eauto.
  - unfold bind, print, ret. eauto.
Qed.

Lemma update_repo_files_some e repo resp st sha st' :
  update_repo_files e repo resp st = (Val (Some sha), st') ->
  watch_verdict e (n_polls st) = true
  /\ Py.truthy sha = true
  /\ exists st1, update_blocks e repo "" (Py.split "--- FILE: " resp)
                               (printed st [Line "Parsing LLM response and updating repository files..." []])
                 = (Val sha, st1).
Proof.
  intros H. unfold update_repo_files in H.
  apply try_except_inv in H. destruct H as [H | (x & st1 & _ & H)];
    [|unfold bind, print, ret in H; discriminate].
  cbv zeta in H.
  apply bind_inv_val in H. destruct H as ([] & s0 & E0 & H).
  injection E0 as <-.
  apply bind_inv_val in H. destruct H as (sha' & s1 & E1 & H).
  pose proof (services_update_blocks _ _ _ _ _ _ _ E1) as P1.
  destruct (Py.truthy sha') eqn:Ht; cbn [negb] in H.
  2:{ host_step H. discriminate. }
  apply bind_inv_val in H. destruct H as (ok & sw & Ew & H).
  destruct (wait_verdict e repo s1) as (sw' & Hw & _).
  rewrite Hw in Ew; injection Ew as <- <-.
  destruct (watch_verdict e (n_polls s1)) eqn:Hv.
  - cbn in H. injection H as <- <-.
    split; [|split; [exact Ht | eauto]].
    replace (n_polls st) with (n_polls s1); [exact Hv|].
    unfold services in P1. cbn in P1. congruence.
  - cbn in H. unfold ret in H. discriminate.
Qed.

(** ** The two workflows *)

Lemma process_build_request_eq e lic d st :
  process_build_request e lic (PDict d) st =
  bind (build_generation e d)
       (fun generated_code =>
          if negb (Py.truthy generated_code) then ret tt
          else
            bind (create_and_deploy_repo e lic (dict_get d "task") generated_code)
                 (fun github_details =>
                    match github_details with
                    | None => ret tt
                    | Some gd =>
                        bind (notify_evaluator e (dict_get d "evaluation_url")
                                               (build_payload d gd))
                             (fun _ => print "Build task finished." [])
                    end))
       (printed st [build_started]).
Proof. reflexivity. Qed.

Lemma process_revise_request_eq e d st :
  process_revise_request e (PDict d) st =
  bind (get_existing_repo_details e (dict_get d "task"))
       (fun repo_details =>
          match repo_details with
          | None => ret tt
          | Some rd =>
              bind (revise_generation e d rd)
                   (fun llm_response =>
                      if negb (Py.truthy llm_response) then ret tt
                      else
                        bind (update_repo_files e (rd_repo rd) llm_response)
                             (fun commit_sha =>
                                match commit_sha with
                                | None => ret tt
                                | Some sha =>
                                    if negb (Py.truthy sha) then ret tt
                                    else
                                      bind (notify_evaluator e (dict_get d "evaluation_url")
                                                             (revise_payload e d rd sha))
                                           (fun _ => print "Revision task finished." [])
                                end))
          end)
       (printed st [revision_started]).
Proof. reflexivity. Qed.

Lemma sent_printed st lines : sent (printed st lines) = sent st.
Proof. reflexivity. Qed.

(** C3.  In both workflows the notification is sent only after every earlier
    stage has succeeded.  Round 1: when generation raises or returns nothing,
    or when publishing returns nothing (which it does, in particular,
    whenever the deployment watcher fails), the run ends and the
    notifications sent are those sent before.  Round 2: the same when the
    lookup of the repository raises or returns nothing, when generation
    raises or returns nothing, or when the update of the files returns
    nothing (which it does whenever the deployment watcher fails). *)
Theorem no_notification_after_failed_stage (e : env) (lic : string)
        (d : list (string * pyval)) (st : state) :
  (* Round 1 *)
  (forall x st1,
      build_generation e d (printed st [build_started]) = (Exc x, st1) ->
      process_build_request e lic (PDict d) st = (Exc x, st1) /\ sent st1 = sent st)
  /\ (forall code st1,
        build_generation e d (printed st [build_started]) = (Val code, st1) ->
        Py.truthy code = false ->
        process_build_request e lic (PDict d) st = (Val tt, st1) /\ sent st1 = sent st)
  /\ (forall code st1 st2,
        build_generation e d (printed st [build_started]) = (Val code, st1) ->
        Py.truthy code = true ->
        create_and_deploy_repo e lic (dict_get d "task") code st1 = (Val None, st2) ->
        process_build_request e lic (PDict d) st = (Val tt, st2) /\ sent st2 = sent st)
  /\ (forall task html s,
        watch_verdict e (n_polls s) = false ->
        exists s', create_and_deploy_repo e lic task html s = (Val None, s'))
  (* Round 2 *)
  /\ (forall x st1,
        get_existing_repo_details e (dict_get d "task") (printed st [revision_started])
          = (Exc x, st1) ->
        process_revise_request e (PDict d) st = (Exc x, st1) /\ sent st1 = sent st)
  /\ (forall st1,
        get_existing_repo_details e (dict_get d "task") (printed st [revision_started])
          = (Val None, st1) ->
        process_revise_request e (PDict d) st = (Val tt, st1) /\ sent st1 = sent st)
  /\ (forall rd st1 x st2,
        get_existing_repo_details e (dict_get d "task") (printed st [revision_started])
          = (Val (Some rd), st1) ->
        revise_generation e d rd st1 = (Exc x, st2) ->
        process_revise_request e (PDict d) st = (Exc x, st2) /\ sent st2 = sent st)
  /\ (forall rd st1 resp st2,
        get_existing_repo_details e (dict_get d "task") (printed st [revision_started])
          = (Val (Some rd), st1) ->
        revise_generation e d rd st1 = (Val resp, st2) ->
        Py.truthy resp = false ->
        process_revise_request e (PDict d) st = (Val tt, st2) /\ sent st2 = sent st)
  /\ (forall rd st1 resp st2 st3,
        get_existing_repo_details e (dict_get d "task") (printed st [revision_started])
          = (Val (Some rd), st1) ->
        revise_generation e d rd st1 = (Val resp, st2) ->
        Py.truthy resp = true ->
        update_repo_files e (rd_repo rd) resp st2 = (Val None, st3) ->
        process_revise_request e (PDict d) st = (Val tt, st3) /\ sent st3 = sent st)
  /\ (forall repo resp s,
        watch_verdict e (n_polls s) = false ->
        exists s', update_repo_files e repo resp s = (Val None, s')).
Proof.
  repeat apply conj.
  - intros x st1 Hg. rewrite process_build_request_eq, (bind_exc _ _ _ _ _ Hg).
    split; [reflexivity|]. unfold build_generation in Hg. apply quiet_generate_app_code in Hg. exact Hg.
  - intros code st1 Hg Hc. rewrite process_build_request_eq, (bind_val _ _ _ _ _ Hg), Hc.
    split; [reflexivity|]. unfold build_generation in Hg. apply quiet_generate_app_code in Hg. exact Hg.
  - intros code st1 st2 Hg Hc Hp.
    rewrite process_build_request_eq, (bind_val _ _ _ _ _ Hg), Hc. cbn [negb].
    rewrite (bind_val _ _ _ _ _ Hp). split; [reflexivity|].
    unfold build_generation in Hg. apply quiet_generate_app_code in Hg. apply quiet_create_and_deploy_repo in Hp.
    rewrite Hp. exact Hg.
  - intros task html s Hv.
    destruct (create_and_deploy_repo_returns e lic task html s) as ([gd|] & s' & Hr); [|eauto].
    apply create_and_deploy_repo_some in Hr. congruence.
  - intros x st1 Hl. rewrite process_revise_request_eq, (bind_exc _ _ _ _ _ Hl).
    split; [reflexivity|]. apply (services_sent _ (services_get_existing_repo_details _ _)) in Hl.
    change (sent (printed st [revision_started])) with (sent st) in Hl. congruence.
  - intros st1 Hl. rewrite process_revise_request_eq, (bind_val _ _ _ _ _ Hl).
    split; [reflexivity|]. apply (services_sent _ (services_get_existing_repo_details _ _)) in Hl.
    change (sent (printed st [revision_started])) with (sent st) in Hl. congruence.
  - intros rd st1 x st2 Hl Hg.
    rewrite process_revise_request_eq, (bind_val _ _ _ _ _ Hl), (bind_exc _ _ _ _ _ Hg).
    split; [reflexivity|]. apply (services_sent _ (services_get_existing_repo_details _ _)) in Hl.
    unfold revise_generation in Hg. apply quiet_generate_updated_code in Hg.
    change (sent (printed st [revision_started])) with (sent st) in Hl. congruence.
  - intros rd st1 resp st2 Hl Hg Ht.
    rewrite process_revise_request_eq, (bind_val _ _ _ _ _ Hl), (bind_val _ _ _ _ _ Hg), Ht.
    split; [reflexivity|]. apply (services_sent _ (services_get_existing_repo_details _ _)) in Hl.
    unfold revise_generation in Hg. apply quiet_generate_updated_code in Hg.
    change (sent (printed st [revision_started])) with (sent st) in Hl. congruence.
  - intros rd st1 resp st2 st3 Hl Hg Ht Hu.
    rewrite process_revise_request_eq, (bind_val _ _ _ _ _ Hl), (bind_val _ _ _ _ _ Hg), Ht.
    cbn [negb]. rewrite (bind_val _ _ _ _ _ Hu).
    split; [reflexivity|]. apply (services_sent _ (services_get_existing_repo_details _ _)) in Hl.
    unfold revise_generation in Hg. unfold revise_generation in Hg. apply quiet_generate_updated_code in Hg. apply quiet_update_repo_files in Hu.
    change (sent (printed st [revision_started])) with (sent st) in Hl. congruence.
  - intros repo resp s Hv.
    destruct (update_repo_files_returns e repo resp s) as ([sha|] & s' & Hr); [|eauto].
    apply update_repo_files_some in Hr. destruct Hr as (Hr & _). congruence.
Qed.

(** ** The lookup of the repository *)

(** C10.  When one of the three calls that precede the assignment of
    [repo_name] raises (authentication, client, user lookup), the handler of
    [get_existing_repo_details] reads the unbound local and raises in turn:
    the function ends in [UnboundLocalError], it does not return [None] and
    prints nothing.  When these three calls succeed, the function returns a
    value whatever fails afterwards. *)
Theorem get_existing_repo_details_raises_before_binding (e : env) task_id st :
  (forall k,
     (k < 3)%nat ->
     fault e (n_api st + k) = true ->
     (forall j, (j < k)%nat -> fault e (n_api st + j) = false) ->
     exists st',
       get_existing_repo_details e task_id st = (Exc (UnboundLocalError "repo_name"), st')
       /\ host st' = host st /\ stdout st' = stdout st)
  /\ ((forall j, (j < 3)%nat -> fault e (n_api st + j) = false) ->
      exists r st', get_existing_repo_details e task_id st = (Val r, st')).
Proof.
  split.
  - intros k Hk Hfault Hbefore.
    unfold get_existing_repo_details, repo_details_handler, bind, call, raise.
    cbn [n_api].
    destruct k as [|[|[|k]]]; [| | |lia].
    + rewrite Nat.add_0_r in Hfault. rewrite Hfault. eexists; split; [reflexivity|]. cbn; auto.
    + pose proof (Hbefore 0%nat ltac:(lia)) as H0. rewrite Nat.add_0_r in H0.
      rewrite Nat.add_1_r in Hfault. rewrite H0; cbn; rewrite Hfault.
      eexists; split; [reflexivity|]. cbn; auto.
    + pose proof (Hbefore 0%nat ltac:(lia)) as H0. rewrite Nat.add_0_r in H0.
      pose proof (Hbefore 1%nat ltac:(lia)) as H1. rewrite Nat.add_1_r in H1.
      replace (n_api st + 2)%nat with (S (S (n_api st))) in Hfault by lia.
      rewrite H0; cbn; rewrite H1; cbn; rewrite Hfault.
      eexists; split; [reflexivity|]. cbn; auto.
  - intros Hok.
    pose proof (Hok 0%nat ltac:(lia)) as H0. rewrite Nat.add_0_r in H0.
    pose proof (Hok 1%nat ltac:(lia)) as H1. rewrite Nat.add_1_r in H1.
    pose proof (Hok 2%nat ltac:(lia)) as H2.
    replace (n_api st + 2)%nat with (S (S (n_api st))) in H2 by lia.
    unfold get_existing_repo_details, repo_details_handler, bind, call, raise.
    cbn [n_api]. rewrite H0; cbv beta iota; cbn [n_api]; rewrite H1; cbv beta iota; cbn [n_api]; rewrite H2; cbv beta iota.
    unfold print, ret.
    repeat match goal with
           | |- context [let (_, _) := ?m ?s in _] => destruct (m s) as [[?|?] ?]
           end; eauto.
Qed.

Lemma get_existing_repo_details_raises_before_binding_witness :
  (exists st',
      get_existing_repo_details auth_down (PStr "t1") st0
        = (Exc (UnboundLocalError "repo_name"), st')
      /\ stdout st' = [])
  /\ (exists r st', get_existing_repo_details (world None page) (PStr "t1") st0 = (Val r, st')).
Proof.
  split.
  - destruct (get_existing_repo_details_raises_before_binding auth_down (PStr "t1") st0)
      as (Hraise & _).
    destruct (Hraise 0%nat) as (st' & Hrun & _ & Hout).
    + lia.
    + reflexivity.
    + intros j Hj; lia.
    + exists st'. split; [exact Hrun | exact Hout].
  - destruct (get_existing_repo_details_raises_before_binding (world None page) (PStr "t1") st0)
      as (_ & Hreturns).
    apply Hreturns. intros j _. reflexivity.
Defined.

Lemma no_notification_after_failed_stage_witness :
  let req1 := request PNone (PInt 1) in
  let req2 := request PNone (PInt 2) in
  (exists st1, process_build_request llm_down license0 (PDict req1) st0
               = (Exc GenerationError, st1) /\ sent st1 = [])
  /\ (exists st1, process_build_request (world None "  ") license0 (PDict req1) st0
                  = (Val tt, st1) /\ sent st1 = [])
  /\ (exists st2, process_build_request stuck_deployment license0 (PDict req1) st0
                  = (Val tt, st2) /\ sent st2 = [])
  /\ (exists st1, process_revise_request auth_down (PDict req2) st_published
                  = (Exc (UnboundLocalError "repo_name"), st1) /\ sent st1 = [])
  /\ (exists st1, process_revise_request stuck_deployment (PDict req2) st0
                  = (Val tt, st1) /\ sent st1 = [])
  /\ (exists st2, process_revise_request llm_down (PDict req2) st_published
                  = (Exc GenerationError, st2) /\ sent st2 = [])
  /\ (exists st2, process_revise_request (world None "") (PDict req2) st_published
                  = (Val tt, st2) /\ sent st2 = [])
  /\ (exists st3, process_revise_request (world None reply_no_valid_files) (PDict req2)
                                         st_published
                  = (Val tt, st3) /\ sent st3 = [])
  /\ (exists s', update_repo_files stuck_deployment "llm-app-t1" reply_both_files st_published
                 = (Val None, s')).
Proof.
  intros req1 req2.
  pose (lookup := fun e => snd (get_existing_repo_details e (PStr "t1")
                                  (printed st_published [revision_started]))).
  pose (generated := fun e => snd (revise_generation e req2 details_t1 (lookup e))).
  repeat apply conj.
  - destruct (no_notification_after_failed_stage llm_down license0 req1 st0)
      as (H & _).
    eexists. apply (H GenerationError
                      (snd (build_generation llm_down req1 (printed st0 [build_started])))).
    vm_compute. reflexivity.
  - destruct (no_notification_after_failed_stage (world None "  ") license0 req1 st0)
      as (_ & H & _).
    eexists. apply (H "" (snd (build_generation (world None "  ") req1
                                 (printed st0 [build_started])))).
    + vm_compute. reflexivity.
    + reflexivity.
  - destruct (no_notification_after_failed_stage stuck_deployment license0 req1 st0)
      as (_ & _ & Hpublish & Hwait & _).
    destruct (Hwait (PStr "t1") page
                (snd (build_generation stuck_deployment req1 (printed st0 [build_started]))))
      as (s' & Hs'); [reflexivity|].
    exists s'.
    apply (Hpublish page
             (snd (build_generation stuck_deployment req1 (printed st0 [build_started]))));
      [vm_compute; reflexivity | reflexivity | exact Hs'].
  - destruct (no_notification_after_failed_stage auth_down license0 req2 st_published)
      as (_ & _ & _ & _ & H & _).
    eexists. apply (H (UnboundLocalError "repo_name") (lookup auth_down)).
    vm_compute. reflexivity.
  - destruct (no_notification_after_failed_stage stuck_deployment license0 req2 st0)
      as (_ & _ & _ & _ & _ & H & _).
    exists (snd (get_existing_repo_details stuck_deployment (PStr "t1")
                   (printed st0 [revision_started]))).
    apply H. vm_compute. reflexivity.
  - destruct (no_notification_after_failed_stage llm_down license0 req2 st_published)
      as (_ & _ & _ & _ & _ & _ & H & _).
    eexists. apply (H details_t1 (lookup llm_down) GenerationError (generated llm_down)).
    + vm_compute. reflexivity.
    + vm_compute. reflexivity.
  - destruct (no_notification_after_failed_stage (world None "") license0 req2 st_published)
      as (_ & _ & _ & _ & _ & _ & _ & H & _).
    eexists. apply (H details_t1 (lookup (world None "")) "" (generated (world None ""))).
    + vm_compute. reflexivity.
    + vm_compute. reflexivity.
    + reflexivity.
  - set (e := world None reply_no_valid_files).
    destruct (no_notification_after_failed_stage e license0 req2 st_published)
      as (_ & _ & _ & _ & _ & _ & _ & _ & H & _).
    eexists.
    apply (H details_t1 (lookup e) reply_no_valid_files (generated e)
             (snd (update_repo_files e "llm-app-t1" reply_no_valid_files (generated e)))).
    + vm_compute. reflexivity.
    + vm_compute. reflexivity.
    + reflexivity.
    + vm_compute. reflexivity.
  - destruct (no_notification_after_failed_stage stuck_deployment license0 req2 st_published)
      as (_ & _ & _ & _ & _ & _ & _ & _ & _ & H).
    apply H. reflexivity.
Defined.

(** ** Segments of the structured response *)

Lemma split1_go_length cur s :
  length (Py.split1_go Py.nl cur s) = if has_line_break s then 2%nat else 1%nat.
Proof.
  revert cur. induction s as [|c s IH]; intros cur; [reflexivity|].
  unfold has_line_break. cbn [Py.split1_go list_ascii_of_string existsb].
  fold (has_line_break s). unfold Py.nl at 1. cbn [String.prefix].
  destruct (Ascii.ascii_dec (ascii_of_nat 10) c) as [<-|Hne].
  - rewrite Ascii.eqb_refl. destruct s; reflexivity.
  - apply Ascii.eqb_neq in Hne. rewrite Hne. cbn [orb]. apply IH.
Qed.

Lemma split1_length s :
  length (Py.split1 Py.nl s) = if has_line_break s then 2%nat else 1%nat.
Proof. apply split1_go_length. Qed.

Lemma printed_printed st l1 l2 : printed (printed st l1) l2 = printed st (l1 ++ l2).
Proof. unfold printed; cbn. now rewrite <- app_assoc. Qed.

Lemma printed_nil st : printed st [] = st.
Proof. destruct st. unfold printed; cbn. now rewrite app_nil_r. Qed.

Section Segments.

Variable e : env.
Variable repo : string.

Lemma update_block_blank sha file_raw st :
  blank file_raw = true -> update_block e repo sha file_raw st = (Val sha, st).
Proof. unfold blank, update_block. intros ->. reflexivity. Qed.

Lemma update_block_malformed sha file_raw st :
  blank file_raw = false -> has_line_break file_raw = false ->
  update_block e repo sha file_raw st
    = (Val sha, printed st [processing_line; malformed_warning]).
Proof.
  unfold blank, update_block. intros -> Hnl.
  unfold bind at 1, print at 1. cbv zeta.
  rewrite split1_length, Hnl. cbn [Nat.ltb Nat.leb].
  unfold bind, print, ret, printed. cbn. rewrite <- app_assoc. reflexivity.
Qed.

Lemma update_block_unexpected sha file_raw st :
  blank file_raw = false -> has_line_break file_raw = true ->
  Py.mem (segment_filename file_raw) known_files = false ->
  update_block e repo sha file_raw st
    = (Val sha, printed st [processing_line; unexpected_warning (segment_filename file_raw)]).
Proof.
  unfold blank, update_block. intros -> Hnl Hmem.
  unfold bind at 1, print at 1. cbv zeta.
  rewrite split1_length, Hnl. cbn [Nat.ltb Nat.leb].
  fold (segment_filename file_raw). fold known_files. rewrite Hmem.
  unfold bind, print, ret, printed. cbn. rewrite <- app_assoc. reflexivity.
Qed.

Lemma update_block_unrecognized sha file_raw st :
  recognized file_raw = false ->
  exists lines, update_block e repo sha file_raw st = (Val sha, printed st lines).
Proof.
  unfold recognized. intros H.
  destruct (blank file_raw) eqn:Hb.
  { exists []. rewrite printed_nil. now apply update_block_blank. }
  destruct (has_line_break file_raw) eqn:Hnl.
  - cbn in H. eexists. now apply update_block_unexpected.
  - eexists. now apply update_block_malformed.
Qed.

Lemma update_blocks_unrecognized files_raw : forall sha st,
  Forall (fun b => recognized b = false) files_raw ->
  exists lines, update_blocks e repo sha files_raw st = (Val sha, printed st lines).
Proof.
  induction files_raw as [|b l IH]; intros sha st Hall; cbn [update_blocks].
  - exists []. now rewrite printed_nil.
  - apply Forall_cons in Hall. destruct Hall as [Hb Hl].
    destruct (update_block_unrecognized sha b st Hb) as (l1 & E1).
    unfold bind. rewrite E1.
    destruct (IH sha (printed st l1) Hl) as (l2 & E2).
    exists (l1 ++ l2). now rewrite E2, printed_printed.
Qed.

Lemma update_repo_files_no_valid_files llm_response st :
  Forall (fun b => recognized b = false) (Py.split "--- FILE: " llm_response) ->
  exists lines,
    update_repo_files e repo llm_response st = (Val None, printed st lines)
    /\ last lines = Some no_valid_files_line.
Proof.
  intros Hall. unfold update_repo_files, try_except.
  unfold bind at 1, print at 1. cbv zeta.
  destruct (update_blocks_unrecognized _ "" (printed st [parsing_line]) Hall) as (l1 & E1).
  unfold bind at 1. unfold printed at 1 in E1. unfold parsing_line in E1. rewrite E1.
  cbn [Py.truthy negb]. unfold bind, print, ret.
  exists ([parsing_line] ++ l1 ++ [no_valid_files_line]).
  split.
  - rewrite <- !printed_printed. reflexivity.
  - rewrite app_assoc. apply last_snoc.
Qed.

End Segments.

(** Round 2 ends without a notification when the update of the files
    returns nothing. *)
Lemma revise_without_update e d st rd st1 resp st2 st3 :
  get_existing_repo_details e (dict_get d "task") (printed st [revision_started])
    = (Val (Some rd), st1) ->
  revise_generation e d rd st1 = (Val resp, st2) ->
  Py.truthy resp = true ->
  update_repo_files e (rd_repo rd) resp st2 = (Val None, st3) ->
  process_revise_request e (PDict d) st = (Val tt, st3) /\ sent st3 = sent st.
Proof.
  intros Hl Hg Ht Hu.
  rewrite process_revise_request_eq, (bind_val _ _ _ _ _ Hl), (bind_val _ _ _ _ _ Hg), Ht.
  cbn [negb]. rewrite (bind_val _ _ _ _ _ Hu).
  split; [reflexivity|].
  apply (services_sent _ (services_get_existing_repo_details _ _)) in Hl.
  unfold revise_generation in Hg. apply quiet_generate_updated_code in Hg.
  apply quiet_update_repo_files in Hu.
  change (sent (printed st [revision_started])) with (sent st) in Hl. congruence.
Qed.

Lemma split_empty sep : Py.split sep "" = [""].
Proof. reflexivity. Qed.

Lemma truthy_false s : Py.truthy s = false -> s = "".
Proof. destruct s; [reflexivity | discriminate]. Qed.

Lemma Forall_unrecognized l :
  forallb (fun b => negb (recognized b)) l = true ->
  Forall (fun b => recognized b = false) l.
Proof.
  induction l as [|b l IH]; cbn [forallb]; intros H; [constructor|].
  apply andb_true_iff in H. destruct H as [Hb Hl].
  constructor; [now apply negb_true_iff | now apply IH].
Qed.

(** C6.  A segment that is not blank and has no line break, and a segment
    whose file name is not one of the two known ones, are dropped: the only
    effect is the warning printed, the commit recorded so far is kept, and
    the loop goes on with the segments that follow.  When no segment of the
    response is recognized, [update_repo_files] prints that no valid file
    was updated and returns nothing, without touching the repository or
    waiting for a deployment, and Round 2 ends without a notification. *)
Theorem unrecognized_segments_are_dropped (e : env) (repo : string) (st : state) :
  (forall sha file_raw rest,
      blank file_raw = false ->
      has_line_break file_raw = false ->
      update_block e repo sha file_raw st
        = (Val sha, printed st [processing_line; malformed_warning])
      /\ update_blocks e repo sha (file_raw :: rest) st
         = update_blocks e repo sha rest (printed st [processing_line; malformed_warning]))
  /\ (forall sha file_raw rest,
        blank file_raw = false ->
        has_line_break file_raw = true ->
        Py.mem (segment_filename file_raw) known_files = false ->
        update_block e repo sha file_raw st
          = (Val sha,
             printed st [processing_line; unexpected_warning (segment_filename file_raw)])
        /\ update_blocks e repo sha (file_raw :: rest) st
           = update_blocks e repo sha rest
               (printed st [processing_line; unexpected_warning (segment_filename file_raw)]))
  /\ (forall llm_response,
        Forall (fun b => recognized b = false) (Py.split "--- FILE: " llm_response) ->
        exists lines,
          update_repo_files e repo llm_response st = (Val None, printed st lines)
          /\ last lines = Some no_valid_files_line)
  /\ (forall d rd st1 resp st2,
        get_existing_repo_details e (dict_get d "task") (printed st [revision_started])
          = (Val (Some rd), st1) ->
        revise_generation e d rd st1 = (Val resp, st2) ->
        Forall (fun b => recognized b = false) (Py.split "--- FILE: " resp) ->
        exists st3,
          process_revise_request e (PDict d) st = (Val tt, st3)
          /\ sent st3 = sent st
          /\ host st3 = host st2).
Proof.
  repeat apply conj.
  - intros sha file_raw rest Hb Hnl.
    pose proof (update_block_malformed e repo sha file_raw st Hb Hnl) as E.
    split; [exact E|]. cbn [update_blocks]. now rewrite (bind_val _ _ _ _ _ E).
  - intros sha file_raw rest Hb Hnl Hmem.
    pose proof (update_block_unexpected e repo sha file_raw st Hb Hnl Hmem) as E.
    split; [exact E|]. cbn [update_blocks]. now rewrite (bind_val _ _ _ _ _ E).
  - intros llm_response. apply update_repo_files_no_valid_files.
  - intros d rd st1 resp st2 Hl Hg Hall.
    destruct (Py.truthy resp) eqn:Ht.
    + destruct (update_repo_files_no_valid_files e (rd_repo rd) resp st2 Hall)
        as (lines & Hu & _).
      exists (printed st2 lines).
      destruct (revise_without_update e d st rd st1 resp st2 _ Hl Hg Ht Hu) as [Hr Hs].
      repeat split; assumption.
    + exists st2.
      rewrite process_revise_request_eq, (bind_val _ _ _ _ _ Hl), (bind_val _ _ _ _ _ Hg), Ht.
      repeat split.
      apply (services_sent _ (services_get_existing_repo_details _ _)) in Hl.
      unfold revise_generation in Hg. apply quiet_generate_updated_code in Hg.
      change (sent (printed st [revision_started])) with (sent st) in Hl. congruence.
Qed.

Lemma unrecognized_segments_are_dropped_witness :
  let e := world None reply_no_valid_files in
  update_block e "llm-app-t1" "" "Sure, here it is: " st_published
    = (Val "", printed st_published [processing_line; malformed_warning])
  /\ update_block e "llm-app-t1" "" ("style.css ---" +:+ Py.nl +:+ "body { margin: 0 }")
                  st_published
     = (Val "", printed st_published [processing_line; unexpected_warning "style.css"])
  /\ (exists lines,
        update_repo_files e "llm-app-t1" reply_no_valid_files st_published
          = (Val None, printed st_published lines)
        /\ last lines = Some no_valid_files_line)
  /\ (exists st3,
        process_revise_request e (PDict (request PNone (PInt 2))) st_published
          = (Val tt, st3)
        /\ sent st3 = []).
Proof.
  intros e.
  destruct (unrecognized_segments_are_dropped e "llm-app-t1" st_published)
    as (Hmalformed & Hunexpected & Hnone & Hflow).
  assert (Hall : Forall (fun b => recognized b = false)
                        (Py.split "--- FILE: " reply_no_valid_files)).
  { apply Forall_unrecognized. vm_compute. reflexivity. }
  split; [|split; [|split]].
  - apply (Hmalformed "" "Sure, here it is: " []); reflexivity.
  - apply (Hunexpected "" ("style.css ---" +:+ Py.nl +:+ "body { margin: 0 }") []);
      reflexivity.
  - apply Hnone. exact Hall.
  - set (d := request PNone (PInt 2)).
    set (r1 := get_existing_repo_details e (dict_get d "task")
                 (printed st_published [revision_started])).
    destruct (Hflow d details_t1 (snd r1) reply_no_valid_files
                (snd (revise_generation e d details_t1 (snd r1))))
      as (st3 & Hrun & Hs & _).
    + vm_compute. reflexivity.
    + vm_compute. reflexivity.
    + exact Hall.
    + exists st3. split; [exact Hrun | exact Hs].
Defined.

(** ** The update of the files, one at a time *)

Lemma update_blocks_app e repo l1 : forall sha l2 st,
  update_blocks e repo sha (l1 ++ l2) st
  = bind (update_blocks e repo sha l1) (fun sha' => update_blocks e repo sha' l2) st.
Proof.
  induction l1 as [|b l1 IH]; intros sha l2 st; [reflexivity|].
  cbn [app update_blocks]. unfold bind.
  destruct (update_block e repo sha b st) as [[sha'|x] st1]; [|reflexivity].
  rewrite IH. reflexivity.
Qed.

(** A step whose outcomes are read off its definition. *)
Ltac cases_of H :=
  repeat match type of H with
         | context [if ?b then _ else _] => destruct b eqn:?
         | context [match ?x with _ => _ end] => destruct x eqn:?
         end.

Lemma get_contents_inv e repo path st b st' :
  get_contents e repo path st = (Val b, st') ->
  host st' = host st
  /\ exists r, host st !! repo = Some r /\ r_files r !! path = Some b.
Proof.
  intros H. unfold get_contents, bind, call, get_host, raise, ret in H. cbn in H.
  cases_of H; try discriminate. injection H as <- <-. cbn. eauto.
Qed.

Lemma update_file_exc e repo path content sha st x st' :
  update_file e repo path content sha st = (Exc x, st') -> host st' = host st.
Proof.
  intros H.
  unfold update_file, bind, call, get_host, raise, ret, fresh_commit, set_host in H.
  cbn in H. cases_of H; try discriminate; injection H as <- <-; reflexivity.
Qed.

Lemma update_file_val e repo path content sha st c st' :
  update_file e repo path content sha st = (Val c, st') ->
  exists r,
    host st !! repo = Some r
    /\ host st' = <[repo := mkRepository
                             (<[path := mkBlob path content (blob_sha_of e content)]> (r_files r))
                             c]> (host st).
Proof.
  intros H.
  unfold update_file, bind, call, get_host, raise, ret, fresh_commit, set_host in H.
  cbn in H. cases_of H; try discriminate. injection H as <- <-. cbn. eauto.
Qed.

Lemma get_contents_exc e repo path st x st' :
  get_contents e repo path st = (Exc x, st') -> host st' = host st.
Proof.
  intros H. unfold get_contents, bind, call, get_host, raise, ret in H. cbn in H.
  cases_of H; try discriminate; injection H as <- <-; reflexivity.
Qed.

Lemma bind_inv_exc {A B} (m : M A) (k : A -> M B) st x st' :
  bind m k st = (Exc x, st') ->
  m st = (Exc x, st') \/ exists a st1, m st = (Val a, st1) /\ k a st1 = (Exc x, st').
Proof.
  unfold bind. destruct (m st) as [[a|y] st1]; intros H; [right; eauto | injection H as <- <-; left; reflexivity].
Qed.

(** A block that raises leaves the repositories as they were. *)
Lemma update_block_exc e repo sha file_raw st x st' :
  update_block e repo sha file_raw st = (Exc x, st') -> host st' = host st.
Proof.
  intros H. unfold update_block in H.
  destruct (negb (Py.truthy (Py.strip file_raw))); [discriminate|].
  apply bind_inv_exc in H. destruct H as [H | ([] & s0 & [= <-] & H)]; [discriminate|].
  cbv zeta in H.
  destruct (length (Py.split1 Py.nl file_raw) <? 2)%nat.
  { unfold bind, print, ret in H. discriminate. }
  destruct (Py.mem _ _).
  2:{ unfold bind, print, ret in H. discriminate. }
  apply bind_inv_exc in H. destruct H as [H | ([] & s1 & [= <-] & H)]; [discriminate|].
  apply bind_inv_exc in H. destruct H as [H | (b & s2 & Hget & H)].
  { apply get_contents_exc in H. exact H. }
  apply get_contents_inv in Hget. destruct Hget as [Hh _].
  apply bind_inv_exc in H. destruct H as [H | (c & s3 & _ & H)].
  { apply update_file_exc in H. rewrite H, Hh. reflexivity. }
  unfold bind, print, ret in H. discriminate.
Qed.

(** A recognized block that succeeds has committed its content. *)
Lemma update_block_commits e repo sha file_raw st sha' st' :
  recognized file_raw = true ->
  update_block e repo sha file_raw st = (Val sha', st') ->
  exists r original,
    host st !! repo = Some r
    /\ r_files r !! segment_filename file_raw = Some original
    /\ host st' = <[repo := mkRepository
                             (<[b_path original :=
                                  mkBlob (b_path original) (segment_content file_raw)
                                         (blob_sha_of e (segment_content file_raw))]>
                                (r_files r))
                             sha']> (host st).
Proof.
  unfold recognized, blank. intros Hrec H.
  apply andb_true_iff in Hrec. destruct Hrec as [Hrec Hmem].
  apply andb_true_iff in Hrec. destruct Hrec as [Hb Hnl].
  unfold update_block in H. rewrite negb_involutive in Hb.
  rewrite Hb in H. cbn [negb] in H.
  apply bind_inv_val in H. destruct H as ([] & s0 & [= <-] & H).
  cbv zeta in H. rewrite split1_length, Hnl in H. cbn [Nat.ltb Nat.leb] in H.
  fold (segment_filename file_raw) in H. fold known_files in H. rewrite Hmem in H.
  fold (segment_content file_raw) in H.
  apply bind_inv_val in H. destruct H as ([] & s1 & [= <-] & H).
  apply bind_inv_val in H. destruct H as (b & s2 & Hget & H).
  apply get_contents_inv in Hget. destruct Hget as (Hh & r & Hr & Hf).
  apply bind_inv_val in H. destruct H as (c & s3 & Hupd & H).
  apply update_file_val in Hupd. destruct Hupd as (r' & Hr' & Hh').
  unfold bind, print, ret in H. injection H as <- <-. cbn [host].
  cbn [host] in Hh, Hr. rewrite Hh in Hr', Hh'.
  rewrite Hr in Hr'. injection Hr' as <-.
  exists r, b. auto.
Qed.

(** C9.  The files are updated one at a time, in the order of the response.
    When a block raises after earlier blocks have committed their files,
    [update_repo_files] returns nothing and Round 2 ends without a
    notification, but nothing is undone: the repositories are left as the
    earlier blocks left them, with the content they committed. *)
Theorem failed_update_keeps_earlier_commits
        (e : env) (d : list (string * pyval)) (st : state)
        (rd : repo_details) (st1 : state) (resp : string) (st2 : state)
        (before : list string) (file_raw : string) (after : list string)
        (sha1 : string) (st3 : state) (x : exn) (st4 : state) :
  get_existing_repo_details e (dict_get d "task") (printed st [revision_started])
    = (Val (Some rd), st1) ->
  revise_generation e d rd st1 = (Val resp, st2) ->
  Py.split "--- FILE: " resp = before ++ file_raw :: after ->
  update_blocks e (rd_repo rd) "" before (printed st2 [parsing_line]) = (Val sha1, st3) ->
  update_block e (rd_repo rd) sha1 file_raw st3 = (Exc x, st4) ->
  (exists st5,
      update_repo_files e (rd_repo rd) resp st2 = (Val None, st5)
      /\ host st5 = host st3
      /\ process_revise_request e (PDict d) st = (Val tt, st5)
      /\ sent st5 = sent st)
  /\ (forall sha l1 l2 s,
        update_blocks e (rd_repo rd) sha (l1 ++ l2) s
        = bind (update_blocks e (rd_repo rd) sha l1)
               (fun sha' => update_blocks e (rd_repo rd) sha' l2) s)
  /\ (forall sha b s sha' s',
        recognized b = true ->
        update_block e (rd_repo rd) sha b s = (Val sha', s') ->
        exists r original,
          host s !! rd_repo rd = Some r
          /\ r_files r !! segment_filename b = Some original
          /\ host s' = <[rd_repo rd :=
                          mkRepository
                            (<[b_path original :=
                                 mkBlob (b_path original) (segment_content b)
                                        (blob_sha_of e (segment_content b))]> (r_files r))
                            sha']> (host s)).
Proof.
  intros Hl Hg Hsplit Hbefore Hfail.
  split; [|split; [intros; apply update_blocks_app
                  | intros sha b s sha' s'; apply update_block_commits]].
  assert (Ht : Py.truthy resp = true).
  { destruct (Py.truthy resp) eqn:Ht; [reflexivity|].
    apply truthy_false in Ht. subst resp. rewrite split_empty in Hsplit.
    destruct before as [|b0 before].
    - injection Hsplit as <- _. injection Hbefore as <- <-.
      rewrite update_block_blank in Hfail by reflexivity. discriminate.
    - injection Hsplit as _ Hsplit. destruct before; discriminate. }
  assert (Hu : update_repo_files e (rd_repo rd) resp st2
               = (Val None,
                  printed st4 [Line "Failed to update repository files with exception: {e}"
                                    [FExn x]])).
  { unfold update_repo_files, try_except.
    unfold bind at 1, print at 1. cbv zeta. rewrite Hsplit.
    unfold bind at 1. rewrite update_blocks_app.
    unfold printed, parsing_line in Hbefore.
    rewrite (bind_val _ _ _ _ _ Hbefore). cbn [update_blocks].
    rewrite (bind_exc _ _ _ _ _ Hfail). reflexivity. }
  eexists. split; [exact Hu|]. split.
  - cbn [host printed]. now apply update_block_exc in Hfail.
  - exact (revise_without_update e d st rd st1 resp st2 _ Hl Hg Ht Hu).
Qed.

Lemma failed_update_keeps_earlier_commits_witness :
  exists st5,
    process_revise_request second_update_fails (PDict (request PNone (PInt 2))) st_published
      = (Val tt, st5)
    /\ sent st5 = []
    /\ (host st5 !! "llm-app-t1") ≫= (fun r => r_files r !! "index.html")
       = Some (mkBlob "index.html" "<html><body>done</body></html>"
                      "h:<html><body>done</body></html>")
    /\ (host st5 !! "llm-app-t1") ≫= (fun r => r_files r !! "README.md")
       = Some (mkBlob "README.md" "# llm-app-t1" "h:# llm-app-t1").
Proof.
  set (e := second_update_fails).
  set (d := request PNone (PInt 2)).
  set (st1 := snd (get_existing_repo_details e (dict_get d "task")
                     (printed st_published [revision_started]))).
  set (st2 := snd (revise_generation e d details_t1 st1)).
  set (blocks := Py.split "--- FILE: " reply_both_files).
  set (st3 := snd (update_blocks e "llm-app-t1" "" (firstn 2 blocks)
                     (printed st2 [parsing_line]))).
  set (st4 := snd (update_block e "llm-app-t1" "c3" (nth 2 blocks "") st3)).
  destruct (failed_update_keeps_earlier_commits e d st_published details_t1 st1
              reply_both_files st2 (firstn 2 blocks) (nth 2 blocks "") []
              "c3" st3 GithubException st4)
    as ((st5 & _ & Hh & Hrun & Hs) & _ & Hcommits).
  - vm_compute. reflexivity.
  - vm_compute. reflexivity.
  - vm_compute. reflexivity.
  - vm_compute. reflexivity.
  - vm_compute. reflexivity.
  - destruct (Hcommits "" (nth 1 blocks "") (printed st2 [parsing_line]) "c3" st3)
      as (r & original & _ & _ & Hst3); [reflexivity | vm_compute; reflexivity |].
    exists st5. split; [exact Hrun|]. split; [exact Hs|].
    rewrite Hh. split; vm_compute; reflexivity.
Defined.

(** ** The inbound handler *)

Lemma handle_project_request_eq e lic d st :
  handle_project_request e lic (PDict d) st =
  if authenticated e d
  then bind (selected_workflow e lic (PDict d)) (fun _ => ret accepted_reply) st
  else (Val rejected_reply, st).
Proof.
  unfold handle_project_request, authenticated, selected_workflow.
  destruct d as [|kv d]; [reflexivity|].
  cbn [py_truthy negb andb py_get].
  unfold bind at 1, ret at 1. fold (dict_get (kv :: d) "secret").
  destruct (py_eq_env (dict_get (kv :: d) "secret") (MY_APP_SECRET e)); reflexivity.
Qed.

Lemma authenticated_iff e d :
  authenticated e d = true
  <-> d <> [] /\ py_eq_env (dict_get d "secret") (MY_APP_SECRET e) = true.
Proof.
  unfold authenticated. rewrite andb_true_iff.
  destruct d; cbn; intuition congruence.
Qed.

(** C8 (as amended).  A request whose body is a JSON object is accepted
    exactly when the object is not empty and its [secret] equals the
    configured value: if not, the handler answers 403 and nothing runs; if
    so, the selected workflow runs and the answer is never the rejection.  In
    particular, when no secret is configured, a request that is not empty and
    has no [secret] is accepted, and the selected workflow runs. *)
Theorem handler_accepts_nonempty_request_with_equal_secret
        (e : env) (lic : string) (d : list (string * pyval)) (st : state) :
  (authenticated e d = true
   <-> d <> [] /\ py_eq_env (dict_get d "secret") (MY_APP_SECRET e) = true)
  /\ (authenticated e d = false ->
      handle_project_request e lic (PDict d) st = (Val rejected_reply, st))
  /\ (authenticated e d = true ->
      handle_project_request e lic (PDict d) st
      = bind (selected_workflow e lic (PDict d)) (fun _ => ret accepted_reply) st)
  /\ (authenticated e d = true ->
      forall r st', handle_project_request e lic (PDict d) st = (r, st') ->
                    r <> Val rejected_reply)
  /\ (MY_APP_SECRET e = None -> d <> [] -> assoc_last "secret" d = None ->
      authenticated e d = true
      /\ handle_project_request e lic (PDict d) st
         = bind (selected_workflow e lic (PDict d)) (fun _ => ret accepted_reply) st).
Proof.
  split; [apply authenticated_iff|].
  split; [intros Ha; now rewrite handle_project_request_eq, Ha|].
  split; [intros Ha; now rewrite handle_project_request_eq, Ha|].
  split.
  - intros Ha r st' H. rewrite handle_project_request_eq, Ha in H.
    unfold bind in H.
    destruct (selected_workflow e lic (PDict d) st) as [[[]|x] s1];
      injection H as <- <-; discriminate.
  - intros Hs Hd Hk.
    assert (Ha : authenticated e d = true).
    { apply authenticated_iff. split; [exact Hd|].
      unfold dict_get. rewrite Hk, Hs. reflexivity. }
    split; [exact Ha|]. now rewrite handle_project_request_eq, Ha.
Qed.

Lemma handler_accepts_nonempty_request_with_equal_secret_witness :
  (authenticated (world None page) (tail (request PNone (PInt 1))) = true
   /\ fst (handle_project_request (world None page) license0
                                  (PDict (tail (request PNone (PInt 1)))) st0)
      = Val accepted_reply
   /\ length (sent (snd (handle_project_request (world None page) license0
                            (PDict (tail (request PNone (PInt 1)))) st0))) = 1%nat)
  /\ handle_project_request (world (Some "s3cret") page) license0
                            (PDict (request (PStr "guess") (PInt 1))) st0
     = (Val rejected_reply, st0)
  /\ fst (handle_project_request (world (Some "s3cret") page) license0
                                 (PDict (request (PStr "s3cret") (PInt 1))) st0)
     = Val accepted_reply.
Proof.
  split; [|split].
  - destruct (handler_accepts_nonempty_request_with_equal_secret
                (world None page) license0 (tail (request PNone (PInt 1))) st0)
      as (_ & _ & _ & _ & Hnone).
    destruct Hnone as [Ha Hrun]; [reflexivity | discriminate | reflexivity |].
    split; [exact Ha|]. rewrite Hrun. vm_compute. split; reflexivity.
  - destruct (handler_accepts_nonempty_request_with_equal_secret
                (world (Some "s3cret") page) license0 (request (PStr "guess") (PInt 1)) st0)
      as (_ & Hreject & _).
    apply Hreject. reflexivity.
  - destruct (handler_accepts_nonempty_request_with_equal_secret
                (world (Some "s3cret") page) license0 (request (PStr "s3cret") (PInt 1)) st0)
      as (_ & _ & Haccept & _).
    rewrite Haccept by reflexivity. vm_compute. reflexivity.
Defined.

(** C8 as the specification words it does not hold: with no secret
    configured, the empty object has no [secret], which compares equal to the
    configured value, and yet the request is rejected. *)
Lemma handler_rejects_empty_request :
  py_eq_env (dict_get [] "secret") (MY_APP_SECRET (world None page)) = true
  /\ handle_project_request (world None page) license0 (PDict []) st0
     = (Val rejected_reply, st0)
  /\ fst (route_api_project (world None page) license0 (PDict []) st0) = Val 403.
Proof. repeat split. Qed.

Lemma emit_respond_trace code st :
  exists st', (bind (emit (Respond code)) (fun _ => ret code)) st = (Val code, st')
              /\ trace st' = trace st ++ [Respond code]
              /\ host st' = host st /\ stdout st' = stdout st.
Proof. unfold bind, emit, ret. eexists; split; [reflexivity|]. cbn. auto. Qed.

(** C2 (as amended).  For a request that passes authentication and whose
    selected workflow returns, the handler runs the workflow to its end and
    only then answers: the accepted (200) response is the event that follows
    everything the workflow did, and it is the same whatever state the
    workflow ended in, notification sent or not. *)
Theorem handler_acknowledges_after_the_workflow
        (e : env) (lic : string) (d : list (string * pyval)) (st st' : state) :
  authenticated e d = true ->
  selected_workflow e lic (PDict d) st = (Val tt, st') ->
  exists st'',
    route_api_project e lic (PDict d) st = (Val 200, st'')
    /\ trace st'' = trace st' ++ [Respond 200]
    /\ last (trace st'') = Some (Respond 200)
    /\ host st'' = host st'
    /\ stdout st'' = stdout st'.
Proof.
  intros Ha Hw. unfold route_api_project.
  rewrite handle_project_request_eq, Ha, (bind_val _ _ _ _ _ Hw).
  unfold ret at 1, accepted_reply.
  destruct (emit_respond_trace 200 st') as (st'' & Hrun & Htr & Hh & Ho).
  exists st''. rewrite Hrun, Htr, last_snoc. auto.
Qed.

Lemma handler_acknowledges_after_the_workflow_witness :
  exists st'',
    route_api_project (world None page) license0 (PDict (request PNone (PInt 1))) st0
      = (Val 200, st'')
    /\ last (trace st'') = Some (Respond 200).
Proof.
  destruct (handler_acknowledges_after_the_workflow
              (world None page) license0 (request PNone (PInt 1)) st0
              (snd (selected_workflow (world None page) license0
                      (PDict (request PNone (PInt 1))) st0)))
    as (st'' & Hrun & _ & Hlast & _).
  - reflexivity.
  - vm_compute. reflexivity.
  - exists st''. split; [exact Hrun | exact Hlast].
Defined.

(** C2 as the specification words it does not hold: the response is not
    sent before the workflow completes.  In a run of Round 1 where every step
    succeeds, the response is the last event, after the repository was
    created, the deployment awaited and the notification sent. *)
Lemma handler_acknowledges_last :
  authenticated (world None page) (request PNone (PInt 1)) = true
  /\ fst (route_api_project (world None page) license0
                            (PDict (request PNone (PInt 1))) st0) = Val 200
  /\ responded_early
       (trace (snd (route_api_project (world None page) license0
                                      (PDict (request PNone (PInt 1))) st0))) = false
  /\ length (posts (trace (snd (route_api_project (world None page) license0
                                                  (PDict (request PNone (PInt 1))) st0))))
     = 1%nat
  /\ last (trace (snd (route_api_project (world None page) license0
                                         (PDict (request PNone (PInt 1))) st0)))
     = Some (Respond 200).
Proof. vm_compute. repeat split. Qed.

(** * Further properties of the code *)

(** ** The notification dispatcher, in general *)

Lemma first_ack_some e p n : forall k,
  first_ack e p n = Some k ->
  (k < n)%nat /\ acknowledged (post e (p + k)) = true
  /\ forall j, (j < k)%nat -> acknowledged (post e (p + j)) = false.
Proof.
  revert p. induction n as [|n IH]; intros p k H; cbn in H; [discriminate|].
  destruct (acknowledged (post e p)) eqn:Hp.
  - injection H as <-. split; [lia|]. split; [now rewrite Nat.add_0_r|].
    intros j Hj; lia.
  - destruct (first_ack e (S p) n) as [k'|] eqn:Hk; [|discriminate].
    injection H as <-. destruct (IH _ _ Hk) as (Hlt & Hok & Hbefore).
    split; [lia|]. split.
    + now rewrite Nat.add_succ_r.
    + intros [|j] Hj; [now rewrite Nat.add_0_r|].
      rewrite Nat.add_succ_r. apply Hbefore. lia.
Qed.

Lemma first_ack_none e p n :
  first_ack e p n = None ->
  forall j, (j < n)%nat -> acknowledged (post e (p + j)) = false.
Proof.
  revert p. induction n as [|n IH]; intros p H j Hj; [lia|]. cbn in H.
  destruct (acknowledged (post e p)) eqn:Hp; [discriminate|].
  destruct (first_ack e (S p) n) eqn:Hk; [discriminate|].
  destruct j as [|j]; [now rewrite Nat.add_0_r|].
  rewrite Nat.add_succ_r. apply (IH (S p)); [assumption | lia].
Qed.

Lemma posts_backoff url body n : forall d,
  posts (backoff url body n d) = repeat (Post url body) n.
Proof. induction n as [|n IH]; intros d; cbn; [reflexivity|]. now rewrite IH. Qed.

Lemma total_app l1 l2 : total (l1 ++ l2) = total l1 + total l2.
Proof.
  induction l1 as [|x l1 IH]; cbn; [reflexivity|].
  fold (total (l1 ++ l2)). fold (total l1). rewrite IH. lia.
Qed.

Lemma total_sleeps_backoff url body n : forall d,
  total (sleeps (backoff url body n d)) = d * (2 ^ Z.of_nat n - 1).
Proof.
  induction n as [|n IH]; intros d; [cbn; lia|].
  cbn [backoff]. change (sleeps (Post url body :: Sleep d :: backoff url body n (d * 2)))
    with (d :: sleeps (backoff url body n (d * 2))).
  cbn [total fold_right]. fold (total (sleeps (backoff url body n (d * 2)))).
  rewrite IH, Nat2Z.inj_succ, Z.pow_succ_r by lia. lia.
Qed.

Lemma repeat_snoc {A} (x : A) n : repeat x n ++ [x] = repeat x (S n).
Proof. induction n as [|n IH]; cbn; [reflexivity|]. now rewrite IH. Qed.

Lemma notify_evaluator_run (e : env) url body st :
  exists st',
    notify_evaluator e url body st
      = (Val (match first_ack e (n_posts st) 5 with Some _ => true | None => false end), st')
    /\ trace st' = trace st ++
         match first_ack e (n_posts st) 5 with
         | Some k => backoff url body k 1 ++ [Post url body]
         | None => backoff url body 5 1
         end
    /\ host st' = host st.
Proof.
  unfold notify_evaluator.
  destruct (first_ack e (n_posts st) 5) as [k|] eqn:Hf.
  - destruct (first_ack_some _ _ _ _ Hf) as (Hk & Hok & Hbefore).
    destruct (notify_loop_first_success e url body (seq 0 max_retries) k 1 st)
      as (st' & Hrun & Htr & _ & _ & Hfr); [exact Hk | exact Hbefore | exact Hok |].
    exists st'. split; [exact Hrun|]. split; [exact Htr | apply Hfr].
  - pose proof (first_ack_none _ _ _ Hf) as Hall.
    destruct (notify_loop_all_fail e url body (seq 0 max_retries) 1 st)
      as (st' & Hrun & Htr & _ & _ & Hfr); [exact Hall|].
    exists st'. split; [exact Hrun|]. split; [exact Htr | apply Hfr].
Qed.

Lemma notify_evaluator_sent (e : env) url body st :
  exists st',
    notify_evaluator e url body st
      = (Val (match first_ack e (n_posts st) 5 with Some _ => true | None => false end), st')
    /\ sent st' = sent st ++ repeat (Post url body) (attempts e (n_posts st))
    /\ host st' = host st.
Proof.
  destruct (notify_evaluator_run e url body st) as (st' & Hrun & Htr & Hh).
  exists st'. split; [exact Hrun|]. split; [|exact Hh].
  unfold sent, attempts. rewrite Htr, posts_app.
  destruct (first_ack e (n_posts st) 5) as [k|].
  - rewrite posts_app, posts_backoff. cbn [posts List.filter is_post].
    now rewrite repeat_snoc.
  - now rewrite posts_backoff.
Qed.

(** X1.  [notify_evaluator] never raises.  It returns success exactly when
    one of the first five replies of the evaluator is a 200; it sends the same
    payload to the same address each time, once more than there were failed
    replies before the first 200 and five times when there is none; and the
    time it sleeps is [2 ^ k - 1] after [k] failed attempts, 31 at most. *)
Theorem notify_evaluator_outcome (e : env) url body st :
  exists st',
    notify_evaluator e url body st
      = (Val (match first_ack e (n_posts st) 5 with Some _ => true | None => false end), st')
    /\ sent st' = sent st ++
         repeat (Post url body)
                (match first_ack e (n_posts st) 5 with Some k => S k | None => 5%nat end)
    /\ (exists delays,
          sleeps (trace st') = sleeps (trace st) ++ delays
          /\ total delays
             = 2 ^ Z.of_nat (match first_ack e (n_posts st) 5 with
                             | Some k => k | None => 5%nat end) - 1
          /\ total delays <= 31)
    /\ (first_ack e (n_posts st) 5 = None
        <-> forall k, (k < 5)%nat -> acknowledged (post e (n_posts st + k)) = false)
    /\ host st' = host st.
Proof.
  destruct (notify_evaluator_run e url body st) as (st' & Hrun & Htr & Hh).
  exists st'. split; [exact Hrun|]. unfold sent. rewrite Htr, posts_app, sleeps_app.
  destruct (first_ack e (n_posts st) 5) as [k|] eqn:Hf.
  - destruct (first_ack_some _ _ _ _ Hf) as (Hk & Hok & Hbefore).
    split; [|split; [|split; [|exact Hh]]].
    + rewrite posts_app, posts_backoff. cbn [posts List.filter is_post].
      now rewrite repeat_snoc.
    + exists (sleeps (backoff url body k 1)). split.
      * rewrite sleeps_app. cbn [sleeps omap]. now rewrite app_nil_r.
      * rewrite total_sleeps_backoff. split; [lia|].
        assert (2 ^ Z.of_nat k <= 2 ^ 5) by (apply Z.pow_le_mono_r; lia). lia.
    + split; [discriminate|]. intros Hall. rewrite (Hall k Hk) in Hok. discriminate.
  - pose proof (first_ack_none _ _ _ Hf) as Hall.
    split; [|split; [|split; [|exact Hh]]].
    + now rewrite posts_backoff.
    + exists (sleeps (backoff url body 5 1)). split; [reflexivity|].
      split; [reflexivity | cbn; lia].
    + split; [intros _; exact Hall | reflexivity].
Qed.

(** ** The deployment watcher: the other ways it ends *)

(** X2.  A poll that raises ends the watch at once with failure: it is not
    retried, whatever later polls would have shown, and nothing is slept
    after it. *)
Theorem watcher_poll_error_is_final (e : env) repo st k :
  (k < max_polls)%nat ->
  (forall j, (j < k)%nat -> pending (poll e (n_polls st + j)) = true) ->
  poll e (n_polls st + k) = PollRaises ->
  exists st',
    wait_for_github_pages_deployment e repo st = (Val false, st')
    /\ trace st' = trace st ++ Sleep 5 :: rounds repo k ++ [Api (GetWorkflowRuns repo)]
    /\ n_polls st' = (n_polls st + S k)%nat
    /\ host st' = host st.
Proof.
  intros Hk Hbefore Ho.
  destruct (wait_spec e repo st) as (st' & Hrun & Htr & Hp & _ & _ & Hfr).
  assert (Hd : first_decisive e (n_polls st) max_polls = Some k).
  { apply first_decisive_intro; [exact Hk | now rewrite Ho | exact Hbefore]. }
  rewrite Hd in *.
  rewrite Ho in Hrun. exists st'. repeat split; try assumption. apply Hfr.
Qed.

Lemma watcher_poll_error_is_final_witness :
  exists st',
    wait_for_github_pages_deployment poll_breaks "llm-app-t1" st0 = (Val false, st')
    /\ n_polls st' = 2%nat.
Proof.
  destruct (watcher_poll_error_is_final poll_breaks "llm-app-t1" st0 1)
    as (st' & Hrun & _ & Hp & _).
  - unfold max_polls; lia.
  - intros [|j] Hj; [reflexivity | lia].
  - reflexivity.
  - exists st'. split; [exact Hrun | exact Hp].
Defined.

(** X3.  When the first reply that is not pending shows a run completed with
    success, and [k] pending replies came before it, the watcher returns
    success after having slept [5 + 10 * k] in all; it stops at that poll,
    without a further sleep. *)
Theorem watcher_success_after (e : env) repo st k latest :
  (k < max_polls)%nat ->
  (forall j, (j < k)%nat -> pending (poll e (n_polls st + j)) = true) ->
  poll e (n_polls st + k) = LatestRun latest ->
  status latest = "completed" ->
  conclusion latest = Some "success" ->
  exists st',
    wait_for_github_pages_deployment e repo st = (Val true, st')
    /\ sleeps (trace st') = sleeps (trace st) ++ 5 :: repeat poll_interval_seconds k
    /\ total (5 :: repeat poll_interval_seconds k) = 5 + 10 * Z.of_nat k
    /\ last (trace st') = Some (Api (GetWorkflowRuns repo))
    /\ n_polls st' = (n_polls st + S k)%nat.
Proof.
  intros Hk Hbefore Ho Hs Hc.
  assert (Hcomp : completed latest = true) by (unfold completed; now rewrite Hs).
  assert (Hsucc : succeeded latest = true) by (apply succeeded_iff; auto).
  destruct (wait_spec e repo st) as (st' & Hrun & Htr & Hp & _ & _ & _).
  assert (Hd : first_decisive e (n_polls st) max_polls = Some k).
  { apply first_decisive_intro; [exact Hk | rewrite Ho; cbn; now rewrite Hcomp | exact Hbefore]. }
  rewrite Hd in *.
  rewrite Ho in Hrun. cbn [success_reply] in Hrun. rewrite Hsucc in Hrun.
  exists st'. split; [exact Hrun|]. rewrite Htr.
  split; [|split; [|split]].
  - rewrite sleeps_app, sleeps_sleep, sleeps_app, sleeps_rounds, sleeps_api.
    cbn [sleeps omap]. now rewrite app_nil_r.
  - cbn [total fold_right]. fold (total (repeat poll_interval_seconds k)).
    rewrite total_repeat. unfold poll_interval_seconds. lia.
  - change (Sleep 5 :: rounds repo k ++ [Api (GetWorkflowRuns repo)])
      with ((Sleep 5 :: rounds repo k) ++ [Api (GetWorkflowRuns repo)]).
    rewrite app_assoc. apply last_snoc.
  - exact Hp.
Qed.

Lemma watcher_success_after_witness :
  exists st',
    wait_for_github_pages_deployment fourth_poll "llm-app-t1" st0 = (Val true, st')
    /\ sleeps (trace st') = [5; 10; 10; 10].
Proof.
  destruct (watcher_success_after fourth_poll "llm-app-t1" st0 3 run_ok)
    as (st' & Hrun & Hs & _).
  - unfold max_polls; lia.
  - intros [|[|[|j]]] Hj; try reflexivity; lia.
  - reflexivity.
  - reflexivity.
  - reflexivity.
  - exists st'. split; [exact Hrun | exact Hs].
Defined.

Lemma wait_frame e repo st :
  exists st',
    wait_for_github_pages_deployment e repo st = (Val (watch_verdict e (n_polls st)), st')
    /\ same_frame st st' /\ sent st' = sent st /\ n_posts st' = n_posts st.
Proof.
  destruct (wait_spec e repo st) as (st' & Hrun & _ & _ & _ & Hq & Hfr).
  exists st'. split; [exact Hrun|]. split; [exact Hfr|]. split; [|exact Hq].
  exact (quiet_wait e repo _ _ _ Hrun).
Qed.

Lemma call_ok e c st :
  fault e (n_api st) = false ->
  call e c st
  = (Val tt, mkState (host st) (trace st ++ [Api c]) (stdout st) (S (n_api st))
                     (n_polls st) (n_posts st) (n_llm st) (n_commits st)).
Proof. intros H. unfold call. now rewrite H. Qed.

Lemma call_fails e c st :
  fault e (n_api st) = true ->
  call e c st
  = (Exc GithubException,
     mkState (host st) (trace st ++ [Api c]) (stdout st) (S (n_api st))
             (n_polls st) (n_posts st) (n_llm st) (n_commits st)).
Proof. intros H. unfold call. now rewrite H. Qed.

Lemma create_repo_ok e name st :
  fault e (n_api st) = false -> host st !! name = None ->
  create_repo e name st
  = (Val name, mkState (<[name := mkRepository ∅ ""]> (host st))
                       (trace st ++ [Api (CreateRepo name)]) (stdout st) (S (n_api st))
                       (n_polls st) (n_posts st) (n_llm st) (n_commits st)).
Proof.
  intros Hf Hn. unfold create_repo. rewrite (bind_val _ _ _ _ _ (call_ok e _ st Hf)).
  unfold bind, get_host, set_host, ret. cbn [host]. now rewrite Hn.
Qed.

Lemma create_file_ok e repo path content st r :
  fault e (n_api st) = false -> host st !! repo = Some r -> r_files r !! path = None ->
  create_file e repo path content st
  = (Val (commit_sha_of e (n_commits st)),
     mkState (<[repo := mkRepository
                          (<[path := mkBlob path content (blob_sha_of e content)]> (r_files r))
                          (commit_sha_of e (n_commits st))]> (host st))
             (trace st ++ [Api (CreateFile repo path content)]) (stdout st) (S (n_api st))
             (n_polls st) (n_posts st) (n_llm st) (S (n_commits st))).
Proof.
  intros Hf Hr Hp. unfold create_file. rewrite (bind_val _ _ _ _ _ (call_ok e _ st Hf)).
  unfold bind, get_host, set_host, fresh_commit, ret. cbn [host]. rewrite Hr, Hp. reflexivity.
Qed.

Lemma get_branch_head_ok e repo st r :
  fault e (n_api st) = false -> host st !! repo = Some r ->
  get_branch_head e repo st
  = (Val (r_head r),
     mkState (host st) (trace st ++ [Api (GetBranch repo)]) (stdout st) (S (n_api st))
             (n_polls st) (n_posts st) (n_llm st) (n_commits st)).
Proof.
  intros Hf Hr. unfold get_branch_head. rewrite (bind_val _ _ _ _ _ (call_ok e _ st Hf)).
  unfold bind, get_host, ret. cbn [host]. now rewrite Hr.
Qed.

Lemma moved_refl st : moved st st 0 0.
Proof. unfold moved. repeat split; lia. Qed.

Lemma moved_trans a b c c1 m1 c2 m2 :
  moved a b c1 m1 -> moved b c c2 m2 -> moved a c (c1 + c2) (m1 + m2).
Proof. unfold moved. intros (?&?&?&?) (?&?&?&?). repeat split; try lia; congruence. Qed.

Lemma print_moves text args st :
  exists st', print text args st = (Val tt, st') /\ host st' = host st /\ moved st st' 0 0.
Proof.
  eexists. split; [reflexivity|]. unfold moved, services, sent. cbn. repeat split; lia.
Qed.

Lemma call_moves e c st :
  fault e (n_api st) = false ->
  exists st', call e c st = (Val tt, st') /\ host st' = host st /\ moved st st' 1 0.
Proof.
  intros H. eexists. split; [apply (call_ok e c st H)|].
  unfold moved, services, sent. cbn. rewrite posts_app, sleeps_app. cbn.
  rewrite !app_nil_r. repeat split; lia.
Qed.

Lemma create_repo_moves e name st :
  fault e (n_api st) = false -> host st !! name = None ->
  exists st',
    create_repo e name st = (Val name, st')
    /\ host st' = <[name := mkRepository ∅ ""]> (host st) /\ moved st st' 1 0.
Proof.
  intros H Hn. eexists. split; [apply (create_repo_ok e name st H Hn)|].
  unfold moved, services, sent. cbn. rewrite posts_app, sleeps_app. cbn.
  rewrite !app_nil_r. repeat split; lia.
Qed.

Lemma create_file_moves e repo path content st r :
  fault e (n_api st) = false -> host st !! repo = Some r -> r_files r !! path = None ->
  exists st',
    create_file e repo path content st = (Val (commit_sha_of e (n_commits st)), st')
    /\ host st' = <[repo := mkRepository
                             (<[path := mkBlob path content (blob_sha_of e content)]> (r_files r))
                             (commit_sha_of e (n_commits st))]> (host st)
    /\ moved st st' 1 1.
Proof.
  intros H Hr Hp. eexists. split; [apply (create_file_ok e repo path content st r H Hr Hp)|].
  unfold moved, services, sent. cbn. rewrite posts_app, sleeps_app. cbn.
  rewrite !app_nil_r. repeat split; lia.
Qed.

(** The steps of [create_and_deploy_repo] up to the request for Pages, when
    none of them fails. *)
Lemma publish_steps e lic task html st (k : string -> M (option details)) :
  (forall j, (j < 7)%nat -> fault e (n_api st + j) = false) ->
  host st !! repo_name_of e task = None ->
  exists st1,
    bind (call e AuthToken) (fun _ =>
    bind (call e GithubClient) (fun _ =>
    bind (call e GetUser) (fun _ =>
    bind (print "Creating repository: {repo_name}" [FStr (repo_name_of e task)]) (fun _ =>
    bind (create_repo e (repo_name_of e task)) (fun repo =>
    bind (create_file e repo "LICENSE" lic) (fun _ =>
    bind (create_file e repo "README.md" (readme_of (repo_name_of e task))) (fun _ =>
    bind (create_file e repo "index.html" html) (fun _ =>
    bind (print "Enabling GitHub Pages via API..." []) (fun _ =>
    k repo))))))))) st
    = k (repo_name_of e task) st1
    /\ host st1 = <[repo_name_of e task :=
                      mkRepository (seeded_files e lic (repo_name_of e task) html)
                                   (commit_sha_of e (n_commits st + 2))]> (host st)
    /\ moved st st1 7 3.
Proof.
  intros Hf Hfree. set (name := repo_name_of e task) in *.
  destruct (call_moves e AuthToken st) as (s1 & R1 & G1 & M1).
  { rewrite <- (Nat.add_0_r (n_api st)). apply Hf. lia. }
  rewrite (bind_val _ _ _ _ _ R1).
  destruct (call_moves e GithubClient s1) as (s2 & R2 & G2 & M2).
  { destruct M1 as (-> & _). apply Hf. lia. }
  rewrite (bind_val _ _ _ _ _ R2).
  pose proof (moved_trans _ _ _ _ _ _ _ M1 M2) as M12. cbn [Nat.add] in M12.
  destruct (call_moves e GetUser s2) as (s3 & R3 & G3 & M3).
  { destruct M12 as (-> & _). apply Hf. lia. }
  rewrite (bind_val _ _ _ _ _ R3).
  pose proof (moved_trans _ _ _ _ _ _ _ M12 M3) as M13. cbn [Nat.add] in M13.
  destruct (print_moves "Creating repository: {repo_name}" [FStr name] s3)
    as (s4 & R4 & G4 & M4).
  rewrite (bind_val _ _ _ _ _ R4).
  pose proof (moved_trans _ _ _ _ _ _ _ M13 M4) as M14. cbn [Nat.add] in M14.
  destruct (create_repo_moves e name s4) as (s5 & R5 & G5 & M5).
  { destruct M14 as (-> & _). apply Hf. lia. }
  { rewrite G4, G3, G2, G1. exact Hfree. }
  rewrite (bind_val _ _ _ _ _ R5).
  pose proof (moved_trans _ _ _ _ _ _ _ M14 M5) as M15. cbn [Nat.add] in M15.
  destruct (create_file_moves e name "LICENSE" lic s5 (mkRepository ∅ ""))
    as (s6 & R6 & G6 & M6).
  { destruct M15 as (-> & _). apply Hf. lia. }
  { rewrite G5. apply lookup_insert_eq. }
  { apply lookup_empty. }
  rewrite (bind_val _ _ _ _ _ R6).
  pose proof (moved_trans _ _ _ _ _ _ _ M15 M6) as M16. cbn [Nat.add] in M16.
  cbn [r_files] in G6.
  set (f1 := <["LICENSE" := mkBlob "LICENSE" lic (blob_sha_of e lic)]>
               (∅ : gmap string blob)) in *.
  destruct (create_file_moves e name "README.md" (readme_of name) s6
              (mkRepository f1 (commit_sha_of e (n_commits s5))))
    as (s7 & R7 & G7 & M7).
  { destruct M16 as (-> & _). apply Hf. lia. }
  { rewrite G6. apply lookup_insert_eq. }
  { cbn [r_files]. subst f1. rewrite lookup_insert_ne by discriminate. apply lookup_empty. }
  rewrite (bind_val _ _ _ _ _ R7).
  pose proof (moved_trans _ _ _ _ _ _ _ M16 M7) as M17. cbn [Nat.add] in M17.
  cbn [r_files] in G7.
  set (f2 := <["README.md" := mkBlob "README.md" (readme_of name)
                                     (blob_sha_of e (readme_of name))]> f1) in *.
  destruct (create_file_moves e name "index.html" html s7
              (mkRepository f2 (commit_sha_of e (n_commits s6))))
    as (s8 & R8 & G8 & M8).
  { destruct M17 as (-> & _). apply Hf. lia. }
  { rewrite G7. apply lookup_insert_eq. }
  { cbn [r_files]. subst f2 f1. rewrite !lookup_insert_ne by discriminate.
    apply lookup_empty. }
  rewrite (bind_val _ _ _ _ _ R8).
  pose proof (moved_trans _ _ _ _ _ _ _ M17 M8) as M18. cbn [Nat.add] in M18.
  destruct (print_moves "Enabling GitHub Pages via API..." [] s8) as (s9 & R9 & G9 & M9).
  rewrite (bind_val _ _ _ _ _ R9).
  pose proof (moved_trans _ _ _ _ _ _ _ M18 M9) as M19. cbn [Nat.add] in M19.
  exists s9. split; [reflexivity|]. split; [|exact M19].
  rewrite G9, G8, G7, G6, G5, !insert_insert_eq. cbn [r_files].
  destruct M17 as (_ & Hc & _). rewrite Hc. unfold seeded_files. fold f1. fold f2.
  rewrite G4, G3, G2, G1. reflexivity.
Qed.

Lemma create_and_deploy_repo_eq e lic task html :
  create_and_deploy_repo e lic task html
  = try_except
      (bind (call e AuthToken) (fun _ =>
       bind (call e GithubClient) (fun _ =>
       bind (call e GetUser) (fun _ =>
       bind (print "Creating repository: {repo_name}" [FStr (repo_name_of e task)]) (fun _ =>
       bind (create_repo e (repo_name_of e task)) (fun repo =>
       bind (create_file e repo "LICENSE" lic) (fun _ =>
       bind (create_file e repo "README.md" (readme_of (repo_name_of e task))) (fun _ =>
       bind (create_file e repo "index.html" html) (fun _ =>
       bind (print "Enabling GitHub Pages via API..." []) (fun _ =>
       pages_and_deployment e repo))))))))))
      publish_failed.
Proof. reflexivity. Qed.

Lemma enable_pages_reply e repo st :
  enable_pages e repo st
  = (match pages e repo with
     | PagesStatus code url => Val (code, url)
     | PagesRaises => Exc RequestException
     end,
     mkState (host st) (trace st ++ [Api (EnablePages repo)]) (stdout st) (n_api st)
             (n_polls st) (n_posts st) (n_llm st) (n_commits st)).
Proof. unfold enable_pages. destruct (pages e repo); reflexivity. Qed.

Lemma create_and_deploy_repo_run (e : env) lic task html st url :
  (forall j, (j < 8)%nat -> fault e (n_api st + j) = false) ->
  host st !! repo_name_of e task = None ->
  pages e (repo_name_of e task) = PagesStatus 201 url ->
  watch_verdict e (n_polls st) = true ->
  exists st',
    create_and_deploy_repo e lic task html st
    = (Val (Some (mkDetails (html_url e (repo_name_of e task)) url
                            (commit_sha_of e (n_commits st + 2)))), st')
    /\ host st' = <[repo_name_of e task :=
                      mkRepository (seeded_files e lic (repo_name_of e task) html)
                                   (commit_sha_of e (n_commits st + 2))]> (host st).
Proof.
  intros Hf Hfree Hpages Hverdict.
  rewrite create_and_deploy_repo_eq. unfold try_except.
  destruct (publish_steps e lic task html st (pages_and_deployment e))
    as (st1 & Hrun & Hh & Ha & Hc & Hs & _);
    [intros j Hj; apply Hf; lia | exact Hfree |].
  rewrite Hrun. clear Hrun. set (name := repo_name_of e task) in *.
  unfold pages_and_deployment.
  pose proof (enable_pages_reply e name st1) as Hen. rewrite Hpages in Hen.
  rewrite (bind_val _ _ _ _ _ Hen). clear Hen.
  cbn [fst snd negb Z.eqb Pos.eqb].
  destruct (print_moves "GitHub Pages enabled. URL will be: {pages_url}" [FVal url]
              (mkState (host st1) (trace st1 ++ [Api (EnablePages name)]) (stdout st1)
                       (n_api st1) (n_polls st1) (n_posts st1) (n_llm st1) (n_commits st1)))
    as (s2 & R2 & G2 & (Ha2 & _ & Hs2 & _)).
  rewrite (bind_val _ _ _ _ _ R2).
  destruct (wait_frame e name s2) as (sw & Hw & (Hhw & Haw & _ & _) & Hsent & _).
  rewrite (bind_val _ _ _ _ _ Hw).
  assert (Hp : n_polls s2 = n_polls st).
  { unfold services in Hs, Hs2. cbn [n_polls] in Hs2. congruence. }
  rewrite Hp, Hverdict. cbn [negb].
  cbn [host n_api] in G2, Ha2.
  destruct (call_moves e (GetBranch name) sw) as (s3 & R3 & G3 & _).
  { rewrite Haw, Ha2, Ha, Nat.add_0_r. apply Hf. lia. }
  assert (Hhead : get_branch_head e name sw
                  = (Val (commit_sha_of e (n_commits st + 2)), s3)).
  { unfold get_branch_head. rewrite (bind_val _ _ _ _ _ R3).
    unfold bind, get_host, ret. cbn [fst]. rewrite G3, Hhw, G2, Hh, lookup_insert_eq.
    reflexivity. }
  rewrite (bind_val _ _ _ _ _ Hhead). unfold ret.
  exists s3. split; [reflexivity|]. now rewrite G3, Hhw, G2.
Qed.

(** X4.  When none of its eight calls to the hosting platform fails, the
    name of the repository is free, the request for Pages is answered 201
    and the watcher sees the deployment succeed, [create_and_deploy_repo]
    returns the address of the repository, the address of the pages as the
    platform gave it, and the commit of [index.html], which is the head; the
    repository then holds exactly the licence, the generated README and the
    generated page. *)
Theorem create_and_deploy_repo_succeeds (e : env) lic task html st url :
  (forall j, (j < 8)%nat -> fault e (n_api st + j) = false) ->
  host st !! repo_name_of e task = None ->
  pages e (repo_name_of e task) = PagesStatus 201 url ->
  watch_verdict e (n_polls st) = true ->
  exists st',
    create_and_deploy_repo e lic task html st
    = (Val (Some (mkDetails (html_url e (repo_name_of e task)) url
                            (commit_sha_of e (n_commits st + 2)))), st')
    /\ host st' = <[repo_name_of e task :=
                      mkRepository (seeded_files e lic (repo_name_of e task) html)
                                   (commit_sha_of e (n_commits st + 2))]> (host st)
    /\ sent st' = sent st.
Proof.
  intros Hf Hfree Hpages Hverdict.
  destruct (create_and_deploy_repo_run e lic task html st url Hf Hfree Hpages Hverdict)
    as (st' & Hrun & Hh).
  exists st'. split; [exact Hrun|]. split; [exact Hh|].
  exact (quiet_create_and_deploy_repo e lic task html _ _ _ Hrun).
Qed.

(** What a failed attempt to publish leaves alone when it stops before the
    repository is created. *)
Ltac untouched :=
  cbn [host trace n_polls n_posts n_llm];
  unfold services, sent; cbn [trace n_polls n_posts n_llm];
  rewrite ?posts_app, ?sleeps_app; cbn; rewrite ?app_nil_r; auto.

Lemma create_repo_taken e name st r :
  host st !! name = Some r ->
  create_repo e name st
  = (Exc GithubException,
     mkState (host st) (trace st ++ [Api (CreateRepo name)]) (stdout st) (S (n_api st))
             (n_polls st) (n_posts st) (n_llm st) (n_commits st)).
Proof.
  intros Hr. unfold create_repo, bind, call, get_host, raise.
  destruct (fault e (n_api st)); [reflexivity|]. cbn [host]. now rewrite Hr.
Qed.

(** X5.  When a repository of that name exists already,
    [create_and_deploy_repo] returns nothing and leaves every repository as
    it was: no file is written, Pages is not requested, the watcher is not
    started. *)
Theorem create_and_deploy_repo_name_taken (e : env) lic task html st r :
  host st !! repo_name_of e task = Some r ->
  exists st',
    create_and_deploy_repo e lic task html st = (Val None, st')
    /\ host st' = host st
    /\ services st' = services st
    /\ sleeps (trace st') = sleeps (trace st)
    /\ Forall (fun ev => match ev with
                         | Api (CreateFile _ _ _) | Api (EnablePages _) => False
                         | _ => True
                         end) (drop (length (trace st)) (trace st')).
Proof.
  intros Htaken. rewrite create_and_deploy_repo_eq. unfold try_except, publish_failed.
  set (name := repo_name_of e task) in *.
  destruct (fault e (n_api st)) eqn:H0.
  { erewrite bind_exc by (apply call_fails; exact H0).
    unfold bind, print, ret. eexists. split; [reflexivity|]. untouched.
    repeat split; auto. rewrite drop_app_length. repeat constructor. }
  erewrite bind_val by (apply call_ok; exact H0).
  destruct (fault e (S (n_api st))) eqn:H1.
  { erewrite bind_exc by (apply call_fails; exact H1).
    unfold bind, print, ret. eexists. split; [reflexivity|]. untouched.
    repeat split; auto. rewrite <- app_assoc, drop_app_length. repeat constructor. }
  erewrite bind_val by (apply call_ok; exact H1).
  destruct (fault e (S (S (n_api st)))) eqn:H2.
  { erewrite bind_exc by (apply call_fails; exact H2).
    unfold bind, print, ret. eexists. split; [reflexivity|]. untouched.
    repeat split; auto. rewrite <- !app_assoc, drop_app_length. repeat constructor. }
  erewrite bind_val by (apply call_ok; exact H2).
  erewrite bind_val by reflexivity.
  erewrite bind_exc by (apply (create_repo_taken e name _ r); exact Htaken).
  unfold bind, print, ret. eexists. split; [reflexivity|]. untouched.
  repeat split; auto. rewrite <- !app_assoc, drop_app_length. repeat constructor.
Qed.

Lemma create_and_deploy_repo_name_taken_witness :
  exists st',
    create_and_deploy_repo (world None page) license0 (PStr "t1") page st_published
      = (Val None, st')
    /\ host st' = host st_published.
Proof.
  destruct (create_and_deploy_repo_name_taken (world None page) license0 (PStr "t1") page
              st_published
              (mkRepository
                 {[ "index.html" := mkBlob "index.html" page ("h:" +:+ page);
                    "README.md" := mkBlob "README.md" "# llm-app-t1" "h:# llm-app-t1" ]}
                 "c2"))
    as (st' & Hrun & Hh & _).
  - vm_compute. reflexivity.
  - exists st'. split; [exact Hrun | exact Hh].
Defined.

Lemma create_and_deploy_repo_succeeds_witness :
  exists st',
    create_and_deploy_repo (world None page) license0 (PStr "t1") page st0
      = (Val (Some (mkDetails "https://github.com/u/llm-app-t1"
                              (PStr "https://u.github.io/llm-app-t1/") "c2")), st')
    /\ (host st' !! "llm-app-t1") ≫= (fun r => r_files r !! "index.html")
       = Some (mkBlob "index.html" page ("h:" +:+ page)).
Proof.
  destruct (create_and_deploy_repo_succeeds (world None page) license0 (PStr "t1") page st0
              (PStr "https://u.github.io/llm-app-t1/"))
    as (st' & Hrun & Hh & _).
  - intros j _. reflexivity.
  - reflexivity.
  - reflexivity.
  - reflexivity.
  - exists st'. split; [exact Hrun|]. rewrite Hh. vm_compute. reflexivity.
Defined.

(** X6.  When the repository has been created and seeded but the request
    for Pages is not answered 201 (another status, or the request raises),
    [create_and_deploy_repo] returns nothing and removes nothing: the new
    repository stays on the platform with its three files.  The watcher is
    not started. *)
Theorem create_and_deploy_repo_pages_refused (e : env) lic task html st :
  (forall j, (j < 7)%nat -> fault e (n_api st + j) = false) ->
  host st !! repo_name_of e task = None ->
  (forall url, pages e (repo_name_of e task) <> PagesStatus 201 url) ->
  exists st',
    create_and_deploy_repo e lic task html st = (Val None, st')
    /\ host st' = <[repo_name_of e task :=
                      mkRepository (seeded_files e lic (repo_name_of e task) html)
                                   (commit_sha_of e (n_commits st + 2))]> (host st)
    /\ services st' = services st
    /\ sleeps (trace st') = sleeps (trace st).
Proof.
  intros Hf Hfree Hpages.
  rewrite create_and_deploy_repo_eq. unfold try_except.
  destruct (publish_steps e lic task html st (pages_and_deployment e))
    as (st1 & Hrun & Hh & _ & _ & Hs & Hsl); [exact Hf | exact Hfree |].
  rewrite Hrun. clear Hrun. set (name := repo_name_of e task) in *.
  unfold pages_and_deployment.
  pose proof (enable_pages_reply e name st1) as Hen.
  destruct (pages e name) as [code url|] eqn:Hp.
  - rewrite (bind_val _ _ _ _ _ Hen). cbn [fst snd].
    destruct (code =? 201) eqn:Hc.
    { apply Z.eqb_eq in Hc. subst code. now destruct (Hpages url). }
    cbn [negb]. unfold bind at 1, print at 1, ret. eexists. split; [reflexivity|].
    cbn [host trace]. split; [exact Hh|]. split.
    + unfold services, sent in *. cbn [trace n_polls n_posts n_llm].
      rewrite posts_app. cbn. rewrite app_nil_r. exact Hs.
    + rewrite sleeps_app. cbn. rewrite app_nil_r. exact Hsl.
  - rewrite (bind_exc _ _ _ _ _ Hen).
    unfold publish_failed, bind, print, ret. eexists. split; [reflexivity|].
    cbn [host trace]. split; [exact Hh|]. split.
    + unfold services, sent in *. cbn [trace n_polls n_posts n_llm].
      rewrite posts_app. cbn. rewrite app_nil_r. exact Hs.
    + rewrite sleeps_app. cbn. rewrite app_nil_r. exact Hsl.
Qed.

Lemma create_and_deploy_repo_pages_refused_witness :
  exists st',
    create_and_deploy_repo pages_off license0 (PStr "t1") page st0 = (Val None, st')
    /\ (host st' !! "llm-app-t1") ≫= (fun r => r_files r !! "LICENSE")
       = Some (mkBlob "LICENSE" license0 ("h:" +:+ license0))
    /\ n_polls st' = 0%nat.
Proof.
  destruct (create_and_deploy_repo_pages_refused pages_off license0 (PStr "t1") page st0)
    as (st' & Hrun & Hh & Hs & _).
  - intros j _. reflexivity.
  - reflexivity.
  - intros url. discriminate.
  - exists st'. split; [exact Hrun|]. split.
    + rewrite Hh. vm_compute. reflexivity.
    + apply (f_equal (fun t => snd (fst (fst t)))) in Hs. exact Hs.
Defined.

(** X7.  [create_and_deploy_repo] and [update_repo_files] never raise:
    whatever the hosting platform, the Pages request or the watcher do, the
    caller gets a value, [None] standing for every failure.  (The lookup of
    Round 2 is not of this kind.) *)
Theorem publish_and_update_never_raise (e : env) lic task html repo llm_response st :
  (exists o st', create_and_deploy_repo e lic task html st = (Val o, st'))
  /\ (exists o st', update_repo_files e repo llm_response st = (Val o, st')).
Proof.
  split; [apply create_and_deploy_repo_returns | apply update_repo_files_returns].
Qed.

(** ** The lookup of Round 2 reads, and only reads *)

Lemma host_print text args : preserves host (print text args).
Proof. intros st r st' H. unfold print in H. by_unfolding H. Qed.

Lemma host_call e c : preserves host (call e c).
Proof. intros st r st' H. unfold call in H. by_unfolding H. Qed.

#[local] Hint Resolve host_print host_call : steps.

Lemma host_get_repo e name : preserves host (get_repo e name).
Proof. unfold get_repo. compose. Qed.

Lemma host_get_contents e repo path : preserves host (get_contents e repo path).
Proof. unfold get_contents. compose. Qed.

Lemma host_repo_details_handler name x : preserves host (repo_details_handler name x).
Proof. unfold repo_details_handler. compose. Qed.

#[local] Hint Resolve host_get_repo host_get_contents host_repo_details_handler : steps.

Lemma host_get_existing_repo_details e task :
  preserves host (get_existing_repo_details e task).
Proof.
  intros st r st' H. unfold get_existing_repo_details in H.
  match type of H with
  | (match ?m st with _ => _ end) = _ =>
      assert (HA : preserves host m) by compose;
      destruct (m st) as [[a|x] st1] eqn:E1; apply HA in E1
  end.
  - match type of H with
    | (match ?m st1 with _ => _ end) = _ =>
        assert (HB : preserves host m) by compose;
        destruct (m st1) as [[d|x] st2] eqn:E2; apply HB in E2
    end.
    + injection H as <- <-. congruence.
    + apply host_repo_details_handler in H. congruence.
  - apply host_repo_details_handler in H. congruence.
Qed.

Lemma get_repo_inv e name st repo st' :
  get_repo e name st = (Val repo, st') ->
  repo = name /\ host st' = host st /\ exists r, host st !! name = Some r.
Proof.
  intros H. unfold get_repo, bind, call, get_host, raise, ret in H. cbn in H.
  cases_of H; try discriminate. injection H as <- <-. cbn. eauto.
Qed.

(** X8.  [get_existing_repo_details] never changes a repository, however it
    ends.  When it returns details, the repository named after the task
    exists and holds both files, and the details are that name, the account,
    and the contents of [index.html] and of [README.md] as stored. *)
Theorem get_existing_repo_details_reads (e : env) task st r st' :
  get_existing_repo_details e task st = (r, st') ->
  host st' = host st
  /\ forall rd,
       r = Val (Some rd) ->
       rd_repo rd = repo_name_of e task
       /\ rd_user rd = login e
       /\ exists repository index_file readme_file,
            host st !! repo_name_of e task = Some repository
            /\ r_files repository !! "index.html" = Some index_file
            /\ r_files repository !! "README.md" = Some readme_file
            /\ rd_index_html rd = b_content index_file
            /\ rd_readme_md rd = b_content readme_file.
Proof.
  intros H. split; [exact (host_get_existing_repo_details e task _ _ _ H)|].
  intros rd ->. unfold get_existing_repo_details in H.
  match type of H with
  | (match ?m st with _ => _ end) = _ =>
      assert (HA : preserves host m) by compose;
      destruct (m st) as [[a|x] st1] eqn:E1; apply HA in E1
  end.
  2:{ unfold repo_details_handler, raise in H. discriminate. }
  fold (repo_name_of e task) in H.
  match type of H with
  | (match ?m st1 with _ => _ end) = _ => destruct (m st1) as [[d|x] st2] eqn:E2
  end.
  2:{ unfold repo_details_handler, bind, print, ret in H. discriminate. }
  injection H as <- <-.
  apply bind_inv_val in E2. destruct E2 as (repo & s1 & Hrepo & E2).
  apply get_repo_inv in Hrepo. destruct Hrepo as (-> & Hh1 & repository & Hr).
  apply bind_inv_val in E2. destruct E2 as (bi & s2 & Hi & E2).
  apply get_contents_inv in Hi. destruct Hi as (Hh2 & ri & Hri & Hfi).
  apply bind_inv_val in E2. destruct E2 as (br & s3 & Hm & E2).
  apply get_contents_inv in Hm. destruct Hm as (Hh3 & rm & Hrm & Hfm).
  injection E2 as <- <-. cbn.
  rewrite Hh1 in Hri. rewrite Hh2, Hh1 in Hrm.
  rewrite E1 in *. rewrite Hr in Hri, Hrm.
  injection Hri as <-. injection Hrm as <-.
  repeat split. exists repository, bi, br. auto.
Qed.

Lemma get_repo_moves e name st r :
  fault e (n_api st) = false -> host st !! name = Some r ->
  exists st', get_repo e name st = (Val name, st') /\ host st' = host st /\ moved st st' 1 0.
Proof.
  intros Hf Hr. destruct (call_moves e (GetRepo name) st Hf) as (s1 & R1 & G1 & M1).
  exists s1. split; [|auto]. unfold get_repo. rewrite (bind_val _ _ _ _ _ R1).
  unfold bind, get_host, ret. cbn [fst]. now rewrite G1, Hr.
Qed.

Lemma get_contents_moves e repo path st r b :
  fault e (n_api st) = false -> host st !! repo = Some r -> r_files r !! path = Some b ->
  exists st',
    get_contents e repo path st = (Val b, st') /\ host st' = host st /\ moved st st' 1 0.
Proof.
  intros Hf Hr Hb. destruct (call_moves e (GetContents repo path) st Hf) as (s1 & R1 & G1 & M1).
  exists s1. split; [|auto]. unfold get_contents. rewrite (bind_val _ _ _ _ _ R1).
  unfold bind, get_host, ret. cbn [fst]. now rewrite G1, Hr, Hb.
Qed.

Lemma get_repo_missing e name st :
  host st !! name = None ->
  exists st',
    get_repo e name st = (Exc GithubException, st')
    /\ trace st' = trace st ++ [Api (GetRepo name)].
Proof.
  intros Hr. unfold get_repo, bind, call, get_host, raise.
  destruct (fault e (n_api st)); [eauto|]. cbn [host]. rewrite Hr. eauto.
Qed.

Lemma call_trace e c st r st' :
  call e c st = (r, st') -> trace st' = trace st ++ [Api c].
Proof. unfold call. destruct (fault e (n_api st)); intros [= <- <-]; reflexivity. Qed.

(** The three calls that open both [create_and_deploy_repo] and
    [get_existing_repo_details], when they go through. *)
Lemma client_steps e st :
  (forall j, (j < 3)%nat -> fault e (n_api st + j) = false) ->
  exists st',
    bind (call e AuthToken) (fun _ => bind (call e GithubClient) (fun _ => call e GetUser)) st
    = (Val tt, st')
    /\ host st' = host st /\ moved st st' 3 0
    /\ trace st' = trace st ++ [Api AuthToken; Api GithubClient; Api GetUser].
Proof.
  intros Hf.
  destruct (call_moves e AuthToken st) as (s1 & R1 & G1 & M1).
  { rewrite <- (Nat.add_0_r (n_api st)). apply Hf. lia. }
  destruct (call_moves e GithubClient s1) as (s2 & R2 & G2 & M2).
  { destruct M1 as (-> & _). apply Hf. lia. }
  pose proof (moved_trans _ _ _ _ _ _ _ M1 M2) as M12. cbn [Nat.add] in M12.
  destruct (call_moves e GetUser s2) as (s3 & R3 & G3 & M3).
  { destruct M12 as (-> & _). apply Hf. lia. }
  pose proof (moved_trans _ _ _ _ _ _ _ M12 M3) as M13. cbn [Nat.add] in M13.
  rewrite (bind_val _ _ _ _ _ R1), (bind_val _ _ _ _ _ R2), R3.
  exists s3. split; [reflexivity|]. split; [congruence|]. split; [exact M13|].
  rewrite (call_trace _ _ _ _ _ R3), (call_trace _ _ _ _ _ R2), (call_trace _ _ _ _ _ R1).
  now rewrite <- !app_assoc.
Qed.

(** X9.  When its six calls to the hosting platform go through and the
    repository named after the task holds both files, the lookup returns
    their contents; when its first three calls go through and there is no
    repository of that name, it returns nothing, having asked for no file. *)
Theorem get_existing_repo_details_finds (e : env) task st :
  (forall repository index_file readme_file,
      (forall j, (j < 6)%nat -> fault e (n_api st + j) = false) ->
      host st !! repo_name_of e task = Some repository ->
      r_files repository !! "index.html" = Some index_file ->
      r_files repository !! "README.md" = Some readme_file ->
      exists st',
        get_existing_repo_details e task st
        = (Val (Some (mkRepoDetails (repo_name_of e task) (login e)
                                    (b_content index_file) (b_content readme_file))), st'))
  /\ ((forall j, (j < 3)%nat -> fault e (n_api st + j) = false) ->
      host st !! repo_name_of e task = None ->
      exists st',
        get_existing_repo_details e task st = (Val None, st')
        /\ trace st' = trace st ++ [Api AuthToken; Api GithubClient; Api GetUser;
                                    Api (GetRepo (repo_name_of e task))]).
Proof.
  split.
  - intros repository bi br Hf Hr Hi Hm.
    destruct (client_steps e st) as (s3 & R3 & G3 & (A3 & _) & _);
      [intros j Hj; apply Hf; lia|].
    unfold get_existing_repo_details. fold (repo_name_of e task).
    set (name := repo_name_of e task) in *. rewrite R3.
    destruct (get_repo_moves e name s3 repository) as (s4 & R4 & G4 & (A4 & _)).
    { rewrite A3. apply Hf. lia. }
    { now rewrite G3. }
    rewrite (bind_val _ _ _ _ _ R4).
    destruct (get_contents_moves e name "index.html" s4 repository bi)
      as (s5 & R5 & G5 & (A5 & _)).
    { rewrite A4, A3. replace (n_api st + 3 + 1)%nat with (n_api st + 4)%nat by lia.
      apply Hf. lia. }
    { now rewrite G4, G3. }
    { exact Hi. }
    rewrite (bind_val _ _ _ _ _ R5).
    destruct (get_contents_moves e name "README.md" s5 repository br)
      as (s6 & R6 & G6 & _).
    { rewrite A5, A4, A3. replace (n_api st + 3 + 1 + 1)%nat with (n_api st + 5)%nat by lia.
      apply Hf. lia. }
    { now rewrite G5, G4, G3. }
    { exact Hm. }
    rewrite (bind_val _ _ _ _ _ R6). unfold ret. eauto.
  - intros Hf Hr.
    destruct (client_steps e st Hf) as (s3 & R3 & G3 & _ & T3).
    unfold get_existing_repo_details. fold (repo_name_of e task).
    set (name := repo_name_of e task) in *. rewrite R3.
    destruct (get_repo_missing e name s3) as (s4 & R4 & T4); [now rewrite G3|].
    rewrite (bind_exc _ _ _ _ _ R4).
    unfold repo_details_handler, bind, print, ret. eexists. split; [reflexivity|].
    cbn [trace]. rewrite T4, T3, <- app_assoc. reflexivity.
Qed.

Lemma get_existing_repo_details_reads_witness :
  exists st',
    get_existing_repo_details (world None page) (PStr "t1") st_published
      = (Val (Some details_t1), st')
    /\ host st' = host st_published.
Proof.
  set (r := get_existing_repo_details (world None page) (PStr "t1") st_published).
  destruct (get_existing_repo_details_reads (world None page) (PStr "t1") st_published
              (fst r) (snd r)) as (Hh & _).
  - subst r. now destruct (get_existing_repo_details _ _ _).
  - exists (snd r). split; [vm_compute; reflexivity | exact Hh].
Defined.

Lemma get_existing_repo_details_finds_witness :
  (exists st',
      get_existing_repo_details (world None page) (PStr "t1") st_published
      = (Val (Some details_t1), st'))
  /\ (exists st', get_existing_repo_details (world None page) (PStr "t1") st0 = (Val None, st')).
Proof.
  split.
  - destruct (get_existing_repo_details_finds (world None page) (PStr "t1") st_published)
      as (Hfound & _).
    apply (Hfound
             (mkRepository
                {[ "index.html" := mkBlob "index.html" page ("h:" +:+ page);
                   "README.md" := mkBlob "README.md" "# llm-app-t1" "h:# llm-app-t1" ]}
                "c2")
             (mkBlob "index.html" page ("h:" +:+ page))
             (mkBlob "README.md" "# llm-app-t1" "h:# llm-app-t1")).
    + intros j _. reflexivity.
    + vm_compute. reflexivity.
    + vm_compute. reflexivity.
    + vm_compute. reflexivity.
  - destruct (get_existing_repo_details_finds (world None page) (PStr "t1") st0)
      as (_ & Hmissing).
    destruct Hmissing as (st' & Hrun & _); [intros j _; reflexivity | reflexivity |].
    exists st'. exact Hrun.
Defined.

(** ** Strings *)

#[local] Arguments String.append : simpl nomatch.

Lemma append_nil_r s : s +:+ "" = s.
Proof. induction s as [|c s IH]; simpl; congruence. Qed.

Lemma append_assoc s1 s2 s3 : (s1 +:+ s2) +:+ s3 = s1 +:+ (s2 +:+ s3).
Proof. induction s1 as [|c s1 IH]; simpl; congruence. Qed.

Lemma length_append s1 s2 :
  String.length (s1 +:+ s2) = (String.length s1 + String.length s2)%nat.
Proof. induction s1 as [|c s1 IH]; simpl; congruence. Qed.

Lemma rev_app_append a : forall b, String.rev_app a b = String.rev a +:+ b.
Proof.
  unfold String.rev. induction a as [|x a IH]; intros b; cbn; [reflexivity|].
  rewrite (IH (String x b)), (IH (String x "")), append_assoc. reflexivity.
Qed.

Lemma rev_cons x a : String.rev (String x a) = String.rev a +:+ String x "".
Proof. unfold String.rev at 1. cbn. apply rev_app_append. Qed.

Lemma rev_app_rev_app a : forall b c,
  String.rev_app (String.rev_app a b) c = String.rev_app b (a +:+ c).
Proof. induction a as [|x a IH]; intros b c; cbn; [reflexivity|]. now rewrite IH. Qed.

Lemma rev_rev_app a : String.rev (String.rev_app a "") = a.
Proof. unfold String.rev. rewrite rev_app_rev_app. cbn. apply append_nil_r. Qed.

Lemma prefix_append sep : forall s,
  String.prefix sep s = true -> exists rest, s = sep +:+ rest.
Proof.
  induction sep as [|a sep IH]; intros s H; [exists s; reflexivity|].
  destruct s as [|c s]; cbn in H; [discriminate|].
  destruct (Ascii.ascii_dec a c) as [<-|]; [|discriminate].
  destruct (IH _ H) as (rest & ->). exists rest. reflexivity.
Qed.

Lemma split_go_skip sep pre : forall cur rest,
  Py.split_go sep (String.length pre) cur (pre +:+ rest) = Py.split_go sep 0 cur rest.
Proof. induction pre as [|c pre IH]; intros cur rest; cbn; [reflexivity | apply IH]. Qed.

Lemma split_go_nonempty sep s : forall skip cur, Py.split_go sep skip cur s <> [].
Proof.
  induction s as [|c s IH]; intros skip cur; cbn [Py.split_go]; [discriminate|].
  destruct skip; [|apply IH].
  destruct (String.prefix sep (String c s)); [discriminate | apply IH].
Qed.

Lemma join_cons sep x l : l <> [] -> join sep (x :: l) = x +:+ sep +:+ join sep l.
Proof. destruct l; [congruence | reflexivity]. Qed.

Lemma join_split_go sep n :
  sep <> "" ->
  forall s cur, (String.length s <= n)%nat ->
                join sep (Py.split_go sep 0 cur s) = String.rev cur +:+ s.
Proof.
  intros Hsep. induction n as [|n IH]; intros s cur Hn.
  - destruct s; [|cbn in Hn; lia]. cbn. now rewrite append_nil_r.
  - destruct s as [|c s]; [cbn; now rewrite append_nil_r|].
    cbn [Py.split_go]. destruct (String.prefix sep (String c s)) eqn:Hp.
    + destruct (prefix_append _ _ Hp) as (rest & Hrest).
      destruct sep as [|a sep]; [congruence|].
      cbn in Hrest. injection Hrest as -> ->.
      replace (String.length (String a sep) - 1)%nat with (String.length sep)
        by (cbn [String.length]; lia).
      rewrite split_go_skip.
      rewrite join_cons by apply split_go_nonempty.
      rewrite IH.
      * reflexivity.
      * cbn in Hn. rewrite length_append in Hn. lia.
    + rewrite IH by (cbn in Hn; lia).
      rewrite rev_cons, append_assoc. reflexivity.
Qed.

(** X10.  Splitting the response on the marker loses nothing: the segments,
    joined again by the marker, are the response.  The blocks that
    [update_repo_files] goes through are therefore exactly what the response
    has between its markers, in order. *)
Theorem response_is_its_segments (llm_response : string) :
  join "--- FILE: " (Py.split "--- FILE: " llm_response) = llm_response.
Proof.
  unfold Py.split.
  rewrite (join_split_go "--- FILE: " (String.length llm_response));
    [reflexivity | discriminate | lia].
Qed.

(** ** Blocks in the format of the prompt *)

Lemma substring_all s : forall n,
  (String.length s <= n)%nat -> String.substring 0 n s = s.
Proof.
  induction s as [|c s IH]; intros n Hn; [destruct n; reflexivity|].
  destruct n as [|n]; [cbn in Hn; lia|]. cbn. rewrite IH by (cbn in Hn; lia). reflexivity.
Qed.

Lemma split1_go_line line : forall cur body,
  has_line_break line = false ->
  Py.split1_go Py.nl cur (line +:+ Py.nl +:+ body)
  = [String.rev (String.rev_app line cur); body].
Proof.
  induction line as [|c line IH]; intros cur body Hnl.
  - change ("" +:+ Py.nl +:+ body) with (String (ascii_of_nat 10) body).
    cbn [Py.split1_go]. unfold Py.nl. cbn [String.prefix String.length String.substring].
    destruct (Ascii.ascii_dec (ascii_of_nat 10) (ascii_of_nat 10)); [|congruence].
    replace (String.prefix "" body) with true by (destruct body; reflexivity).
    rewrite substring_all by lia. reflexivity.
  - unfold has_line_break in Hnl. cbn [list_ascii_of_string existsb] in Hnl.
    apply orb_false_iff in Hnl. destruct Hnl as [Hc Hnl].
    cbn [String.append Py.split1_go]. unfold Py.nl at 1. cbn [String.prefix].
    destruct (Ascii.ascii_dec (ascii_of_nat 10) c) as [<-|Hne].
    + rewrite Ascii.eqb_refl in Hc. discriminate.
    + cbn [String.rev_app]. apply IH. exact Hnl.
Qed.

Lemma split1_line line body :
  has_line_break line = false ->
  Py.split1 Py.nl (line +:+ Py.nl +:+ body) = [line; body].
Proof.
  intros Hnl. unfold Py.split1. rewrite split1_go_line by exact Hnl.
  now rewrite rev_rev_app.
Qed.

Lemma has_line_break_append a b :
  has_line_break (a +:+ b) = has_line_break a || has_line_break b.
Proof.
  unfold has_line_break. induction a as [|c a IH]; cbn; [reflexivity|].
  now rewrite IH, orb_assoc.
Qed.

Lemma rstrip_nonempty c s : Py.isspace c = false -> Py.rstrip (String c s) <> "".
Proof.
  intros Hc. cbn. destruct (Py.rstrip s); [rewrite Hc|]; discriminate.
Qed.

Lemma not_blank c s : Py.isspace c = false -> blank (String c s) = false.
Proof.
  intros Hc. unfold blank, Py.strip. cbn [Py.lstrip]. rewrite Hc.
  pose proof (rstrip_nonempty c s Hc) as H.
  destruct (Py.rstrip (String c s)); [congruence | reflexivity].
Qed.

Lemma known_file_cases name :
  In name known_files -> name = "index.html" \/ name = "README.md".
Proof. intros [<-|[<-|[]]]; auto. Qed.

Lemma file_block_split name body :
  In name known_files ->
  Py.split1 Py.nl (file_block name body) = [name +:+ " ---"; body].
Proof.
  intros Hin. apply known_file_cases in Hin.
  assert (Hline : has_line_break (name +:+ " ---") = false)
    by (destruct Hin as [-> | ->]; reflexivity).
  unfold file_block. rewrite <- (split1_line (name +:+ " ---") body Hline).
  now rewrite !append_assoc.
Qed.

Lemma file_block_filename name body :
  In name known_files -> segment_filename (file_block name body) = name.
Proof.
  intros Hin. unfold segment_filename. rewrite (file_block_split _ _ Hin). cbn [nth].
  apply known_file_cases in Hin. destruct Hin as [-> | ->]; reflexivity.
Qed.

Lemma file_block_content name body :
  In name known_files ->
  segment_content (file_block name body) = strip_fences (Py.strip body).
Proof.
  intros Hin. unfold segment_content. rewrite (file_block_split _ _ Hin). reflexivity.
Qed.

Lemma file_block_has_line_break name body : has_line_break (file_block name body) = true.
Proof.
  unfold file_block. rewrite !has_line_break_append.
  replace (has_line_break Py.nl) with true by reflexivity.
  now rewrite orb_true_r, orb_true_l || rewrite !orb_true_r.
Qed.

Lemma file_block_recognized (name body : string) :
  In name known_files -> recognized (file_block name body) = true.
Proof.
  intros Hin. unfold recognized.
  rewrite (file_block_filename _ _ Hin), file_block_has_line_break.
  apply known_file_cases in Hin.
  assert (Hb : blank (file_block name body) = false)
    by (destruct Hin as [-> | ->]; apply not_blank; reflexivity).
  rewrite Hb. destruct Hin as [-> | ->]; reflexivity.
Qed.

(** X11.  A block written as the prompt requires, the name of one of the two
    known files followed by the closing dashes, a line break and a body, is
    recognized whatever the body is: the name read from it is that file's,
    and the content to be written is the body, stripped and without its code
    fences. *)
Theorem prompt_format_is_recognized (name body : string) :
  In name known_files ->
  recognized (file_block name body) = true
  /\ segment_filename (file_block name body) = name
  /\ segment_content (file_block name body) = strip_fences (Py.strip body).
Proof.
  intros Hin. split; [|split].
  - unfold recognized.
    rewrite (file_block_filename _ _ Hin), file_block_has_line_break.
    assert (Hb : blank (file_block name body) = false)
      by (destruct (known_file_cases _ Hin) as [-> | ->]; apply not_blank; reflexivity).
    rewrite Hb. destruct (known_file_cases _ Hin) as [-> | ->]; reflexivity.
  - exact (file_block_filename _ _ Hin).
  - unfold segment_content. now rewrite (file_block_split _ _ Hin).
Qed.

Lemma prompt_format_is_recognized_witness :
  recognized (file_block "README.md" "# revised") = true
  /\ segment_content (file_block "index.html" ("```html" +:+ Py.nl +:+ "<p>x</p>" +:+ Py.nl +:+ "```"))
     = Py.nl +:+ "<p>x</p>" +:+ Py.nl.
Proof.
  destruct (prompt_format_is_recognized "README.md" "# revised") as (Hr & _);
    [right; left; reflexivity|].
  destruct (prompt_format_is_recognized "index.html"
              ("```html" +:+ Py.nl +:+ "<p>x</p>" +:+ Py.nl +:+ "```")) as (_ & _ & Hc);
    [left; reflexivity|].
  split; [exact Hr|]. rewrite Hc. reflexivity.
Defined.

(** ** The update of the repository *)

Lemma others_kept_refl repo st : others_kept repo st st.
Proof. intros name _. reflexivity. Qed.

Lemma others_kept_trans repo a b c :
  others_kept repo a b -> others_kept repo b c -> others_kept repo a c.
Proof. intros H1 H2 name Hn. rewrite (H2 name Hn). apply H1, Hn. Qed.

Lemma others_kept_host repo st st' : host st' = host st -> others_kept repo st st'.
Proof. intros H name _. now rewrite H. Qed.

Lemma update_block_others e repo sha b st r st' :
  update_block e repo sha b st = (r, st') -> others_kept repo st st'.
Proof.
  intros H. destruct r as [sha'|x].
  - destruct (recognized b) eqn:Hrec.
    + destruct (update_block_commits e repo sha b st sha' st' Hrec H) as (r0 & o & _ & _ & Hh).
      intros name Hn. rewrite Hh. now apply lookup_insert_ne.
    + destruct (update_block_unrecognized e repo sha b st Hrec) as (lines & E).
      rewrite E in H. injection H as _ <-. now apply others_kept_host.
  - apply others_kept_host. exact (update_block_exc e repo sha b st x st' H).
Qed.

Lemma update_blocks_others e repo l : forall sha st r st',
  update_blocks e repo sha l st = (r, st') -> others_kept repo st st'.
Proof.
  induction l as [|b l IH]; intros sha st r st' H; cbn [update_blocks] in H.
  - injection H as _ <-. apply others_kept_refl.
  - unfold bind in H. destruct (update_block e repo sha b st) as [[sha1|x] st1] eqn:E.
    + apply (others_kept_trans repo st st1 st');
        [exact (update_block_others _ _ _ _ _ _ _ E) | exact (IH _ _ _ _ H)].
    + injection H as _ <-. exact (update_block_others _ _ _ _ _ _ _ E).
Qed.

(** The commit recorded by the loop is the one it started with, and then
    nothing was written, or the head of the repository. *)
Lemma update_blocks_head e repo l : forall sha st sha' st',
  update_blocks e repo sha l st = (Val sha', st') ->
  (sha' = sha /\ host st' = host st)
  \/ exists r, host st' !! repo = Some r /\ r_head r = sha'.
Proof.
  induction l as [|b l IH]; intros sha st sha' st' H; cbn [update_blocks] in H.
  - injection H as <- <-. left. split; reflexivity.
  - apply bind_inv_val in H. destruct H as (sha1 & st1 & E & H).
    destruct (IH _ _ _ _ H) as [[-> Hh] | Hr]; [|right; exact Hr].
    destruct (recognized b) eqn:Hrec.
    + destruct (update_block_commits e repo sha b st sha1 st1 Hrec E) as (r0 & o & _ & _ & Hh1).
      right. eexists. rewrite Hh, Hh1, lookup_insert_eq. split; reflexivity.
    + destruct (update_block_unrecognized e repo sha b st Hrec) as (lines & E').
      rewrite E' in E. injection E as <- <-. left. split; [reflexivity | exact Hh].
Qed.

(** What [update_repo_files] returns, in terms of its loop. *)
Lemma update_repo_files_loop e repo resp st o st' :
  update_repo_files e repo resp st = (o, st') ->
  exists r s1,
    update_blocks e repo "" (Py.split "--- FILE: " resp) (printed st [parsing_line]) = (r, s1)
    /\ host st' = host s1
    /\ forall sha, o = Val (Some sha) -> r = Val sha /\ Py.truthy sha = true.
Proof.
  unfold update_repo_files, try_except. unfold bind at 1, print at 1. cbv zeta.
  change (mkState (host st) (trace st)
                  (stdout st ++ [Line "Parsing LLM response and updating repository files..." []])
                  (n_api st) (n_polls st) (n_posts st) (n_llm st) (n_commits st))
    with (printed st [parsing_line]).
  unfold bind at 1.
  destruct (update_blocks e repo "" (Py.split "--- FILE: " resp) (printed st [parsing_line]))
    as [[sha|x] s1] eqn:E.
  - destruct (Py.truthy sha) eqn:Ht; cbn [negb].
    + destruct (wait_verdict e repo s1) as (sw & Hw & Hh).
      rewrite (bind_val _ _ _ _ _ Hw).
      destruct (watch_verdict e (n_polls s1)); cbn [negb].
      * unfold ret. intros [= <- <-]. exists (Val sha), s1.
        split; [reflexivity|]. split; [exact Hh|]. intros sha' [= <-]. auto.
      * unfold bind, print, ret. intros [= <- <-]. exists (Val sha), s1.
        split; [reflexivity|]. split; [exact Hh|]. intros sha' [=].
    + unfold bind, print, ret. intros [= <- <-]. exists (Val sha), s1.
      split; [reflexivity|]. split; [reflexivity|]. intros sha' [=].
  - unfold bind, print, ret. intros [= <- <-]. exists (Exc x), s1.
    split; [reflexivity|]. split; [reflexivity|]. intros sha' [=].
Qed.

Lemma update_repo_files_head e repo llm_response st sha st' :
  update_repo_files e repo llm_response st = (Val (Some sha), st') ->
  sha <> "" /\ exists r, host st' !! repo = Some r /\ r_head r = sha.
Proof.
  intros H. destruct (update_repo_files_loop _ _ _ _ _ _ H) as (r & s1 & E & Hh & Hsome).
  destruct (Hsome sha eq_refl) as [-> Ht].
  split; [intros ->; discriminate|].
  destruct (update_blocks_head _ _ _ _ _ _ _ E) as [[-> _] | Hr]; [discriminate|].
  rewrite Hh. exact Hr.
Qed.

Lemma update_repo_files_others e repo llm_response st o st' :
  update_repo_files e repo llm_response st = (o, st') -> others_kept repo st st'.
Proof.
  intros H. destruct (update_repo_files_loop _ _ _ _ _ _ H) as (r & s1 & E & Hh & _).
  intros name Hn. rewrite Hh.
  exact (update_blocks_others _ _ _ _ _ _ _ E name Hn).
Qed.

(** X12.  Whatever the response and whatever the platform answers,
    [update_repo_files] leaves every other repository as it was; and the
    commit it returns, which Round 2 reports to the evaluator, is never the
    empty string and is the head of the repository when the function
    returns. *)
Theorem update_repo_files_returns_the_head
        (e : env) (repo llm_response : string) (st : state)
        (o : res (option string)) (st' : state) :
  update_repo_files e repo llm_response st = (o, st') ->
  others_kept repo st st'
  /\ forall sha,
       o = Val (Some sha) ->
       sha <> ""
       /\ exists r, host st' !! repo = Some r /\ r_head r = sha.
Proof.
  intros H. split; [exact (update_repo_files_others _ _ _ _ _ _ H)|].
  intros sha ->. exact (update_repo_files_head _ _ _ _ _ _ H).
Qed.

Lemma update_repo_files_returns_the_head_witness :
  exists st',
    update_repo_files (world None reply_both_files) "llm-app-t1" reply_both_files st_published
      = (Val (Some "c4"), st')
    /\ (r_head <$> host st' !! "llm-app-t1") = Some "c4".
Proof.
  set (e := world None reply_both_files).
  set (st' := snd (update_repo_files e "llm-app-t1" reply_both_files st_published)).
  assert (Hrun : update_repo_files e "llm-app-t1" reply_both_files st_published
                 = (Val (Some "c4"), st')) by (vm_compute; reflexivity).
  destruct (update_repo_files_returns_the_head e "llm-app-t1" reply_both_files st_published
              (Val (Some "c4")) st' Hrun) as (_ & Hhead).
  destruct (Hhead "c4" eq_refl) as (_ & r & Hr & Hc).
  exists st'. split; [exact Hrun|]. rewrite Hr. cbn. now rewrite Hc.
Defined.

(** ** A response in the format of the prompt *)

Lemma update_file_moves e repo path content sha st r b :
  fault e (n_api st) = false -> host st !! repo = Some r ->
  r_files r !! path = Some b -> b_sha b = sha ->
  exists st',
    update_file e repo path content sha st = (Val (commit_sha_of e (n_commits st)), st')
    /\ host st' = <[repo := mkRepository (written e path content (r_files r))
                                         (commit_sha_of e (n_commits st))]> (host st)
    /\ moved st st' 1 1.
Proof.
  intros Hf Hr Hp Hs. unfold update_file.
  rewrite (bind_val _ _ _ _ _ (call_ok e _ st Hf)).
  unfold bind, get_host, fresh_commit, set_host, ret. cbn [host n_commits].
  rewrite Hr, Hp, Hs, String.eqb_refl. eexists. split; [reflexivity|].
  split; [reflexivity|]. unfold moved. untouched. repeat split; lia.
Qed.

Lemma update_block_moves e repo sha b st r original :
  recognized b = true ->
  host st !! repo = Some r ->
  r_files r !! segment_filename b = Some original ->
  b_path original = segment_filename b ->
  fault e (n_api st) = false -> fault e (S (n_api st)) = false ->
  exists st',
    update_block e repo sha b st = (Val (commit_sha_of e (n_commits st)), st')
    /\ host st' = <[repo := mkRepository
                              (written e (segment_filename b) (segment_content b) (r_files r))
                              (commit_sha_of e (n_commits st))]> (host st)
    /\ moved st st' 2 1.
Proof.
  unfold recognized, blank. intros Hrec Hr Hfile Hpath Hf1 Hf2.
  apply andb_true_iff in Hrec. destruct Hrec as [Hrec Hmem].
  apply andb_true_iff in Hrec. destruct Hrec as [Hb Hnl].
  unfold update_block. rewrite negb_involutive in Hb. rewrite Hb. cbn [negb].
  destruct (print_moves "Processing file block..." [] st) as (s0 & E0 & H0 & M0).
  rewrite (bind_val _ _ _ _ _ E0). cbv zeta.
  rewrite split1_length, Hnl. cbn [Nat.ltb Nat.leb].
  fold (segment_filename b). fold known_files. rewrite Hmem.
  fold (segment_content b).
  destruct (print_moves "Found valid file: {filename}" [FStr (segment_filename b)] s0)
    as (s1 & E1 & H1 & M1).
  rewrite (bind_val _ _ _ _ _ E1).
  pose proof (moved_trans _ _ _ _ _ _ _ M0 M1) as M01. cbn [Nat.add] in M01.
  assert (Hn1 : n_api s1 = n_api st) by (destruct M01 as (-> & _); lia).
  assert (Hc1 : n_commits s1 = n_commits st) by (destruct M01 as (_ & -> & _); lia).
  assert (Hh1 : host s1 = host st) by congruence.
  destruct (get_contents_moves e repo (segment_filename b) s1 r original)
    as (s2 & E2 & H2 & M2); [congruence | congruence | exact Hfile |].
  rewrite (bind_val _ _ _ _ _ E2).
  pose proof (moved_trans _ _ _ _ _ _ _ M01 M2) as M02. cbn [Nat.add] in M02.
  assert (Hn2 : n_api s2 = S (n_api st)) by (destruct M02 as (-> & _); lia).
  assert (Hc2 : n_commits s2 = n_commits st) by (destruct M02 as (_ & -> & _); lia).
  destruct (update_file_moves e repo (b_path original) (segment_content b) (b_sha original)
              s2 r original) as (s3 & E3 & H3 & M3);
    [congruence | congruence | congruence | reflexivity |].
  rewrite (bind_val _ _ _ _ _ E3).
  destruct (print_moves "Successfully updated {filename}. New commit: {new_commit_sha}"
              [FStr (segment_filename b); FStr (commit_sha_of e (n_commits s2))] s3)
    as (s4 & E4 & H4 & M4).
  rewrite (bind_val _ _ _ _ _ E4). unfold ret. rewrite Hc2.
  exists s4. split; [reflexivity|]. split.
  - rewrite H4, H3, Hpath, Hc2, H2, Hh1. reflexivity.
  - pose proof (moved_trans _ _ _ _ _ _ _ (moved_trans _ _ _ _ _ _ _ M02 M3) M4) as M.
    exact M.
Qed.

(** X13.  A response structured as the prompt asks, the block of
    [index.html] followed by the block of [README.md] after a preamble that is
    no block, is applied as a whole when the platform cooperates: each file is
    fetched and written once, with the body of its block stripped and without
    code fences, in two commits; and once the deployment is seen to succeed
    the second commit, the head of the repository, is returned. *)
Theorem update_repo_files_applies_the_response
        (e : env) (repo llm_response : string) (st : state)
        (preamble html readme : string) (r : repository) (index_file readme_file : blob) :
  Py.split "--- FILE: " llm_response
    = [preamble; file_block "index.html" html; file_block "README.md" readme] ->
  recognized preamble = false ->
  host st !! repo = Some r ->
  r_files r !! "index.html" = Some index_file -> b_path index_file = "index.html" ->
  r_files r !! "README.md" = Some readme_file -> b_path readme_file = "README.md" ->
  (forall j, (j < 4)%nat -> fault e (n_api st + j) = false) ->
  commit_sha_of e (S (n_commits st)) <> "" ->
  watch_verdict e (n_polls st) = true ->
  exists st',
    update_repo_files e repo llm_response st
      = (Val (Some (commit_sha_of e (S (n_commits st)))), st')
    /\ host st'
       = <[repo := mkRepository
                     (written e "README.md" (strip_fences (Py.strip readme))
                        (written e "index.html" (strip_fences (Py.strip html)) (r_files r)))
                     (commit_sha_of e (S (n_commits st)))]> (host st)
    /\ n_api st' = (n_api st + 4)%nat
    /\ n_commits st' = (n_commits st + 2)%nat.
Proof.
  intros Hsplit Hpre Hr Hi Hip Hm Hmp Hf Hsha Hv.
  assert (I1 : In "index.html" known_files) by (left; reflexivity).
  assert (I2 : In "README.md" known_files) by (right; left; reflexivity).
  pose proof (file_block_recognized _ html I1) as R1.
  pose proof (file_block_filename _ html I1) as N1.
  pose proof (file_block_content _ html I1) as C1.
  pose proof (file_block_recognized _ readme I2) as R2.
  pose proof (file_block_filename _ readme I2) as N2.
  pose proof (file_block_content _ readme I2) as C2.
  unfold update_repo_files, try_except. unfold bind at 1, print at 1. cbv zeta.
  change (mkState (host st) (trace st)
                  (stdout st ++ [Line "Parsing LLM response and updating repository files..." []])
                  (n_api st) (n_polls st) (n_posts st) (n_llm st) (n_commits st))
    with (printed st [parsing_line]).
  rewrite Hsplit. cbn [update_blocks].
  destruct (update_block_unrecognized e repo "" preamble (printed st [parsing_line]) Hpre)
    as (lines & E0).
  rewrite printed_printed in E0. set (s0 := printed st ([parsing_line] ++ lines)) in *.
  unfold bind at 1. unfold bind at 1. rewrite E0.
  destruct (update_block_moves e repo "" (file_block "index.html" html) s0 r index_file)
    as (s1 & E1 & H1 & M1);
    [exact R1 | exact Hr | now rewrite N1 | now rewrite N1
     | rewrite <- (Hf 0%nat) by lia; f_equal; cbn; lia
     | rewrite <- (Hf 1%nat) by lia; f_equal; cbn; lia |].
  rewrite (bind_val _ _ _ _ _ E1).
  rewrite N1, C1 in H1. change (host s0) with (host st) in H1.
  change (n_commits s0) with (n_commits st) in *.
  assert (Hn1 : n_api s1 = (n_api st + 2)%nat) by (destruct M1 as (-> & _); reflexivity).
  assert (Hc1 : n_commits s1 = S (n_commits st)) by (destruct M1 as (_ & -> & _); cbn; lia).
  set (files1 := written e "index.html" (strip_fences (Py.strip html)) (r_files r)) in *.
  destruct (update_block_moves e repo (commit_sha_of e (n_commits st))
              (file_block "README.md" readme) s1
              (mkRepository files1 (commit_sha_of e (n_commits st))) readme_file)
    as (s2 & E2 & H2 & M2);
    [exact R2
     | rewrite H1; apply lookup_insert_eq
     | rewrite N2; cbn [r_files]; unfold files1, written;
       rewrite lookup_insert_ne by discriminate; exact Hm
     | now rewrite N2
     | rewrite Hn1; apply Hf; lia
     | rewrite Hn1, <- (Hf 3%nat) by lia; f_equal; lia |].
  rewrite (bind_val _ _ _ _ _ E2). unfold ret at 1.
  rewrite N2, C2, Hc1 in H2. cbn [r_files] in H2. rewrite Hc1.
  destruct (commit_sha_of e (S (n_commits st))) as [|c sha] eqn:Hc; [congruence|].
  cbn [Py.truthy negb].
  destruct (wait_frame e repo s2) as (s3 & Hw & Hfr & _).
  assert (Hp : n_polls s2 = n_polls st).
  { destruct M1 as (_ & _ & S1 & _). destruct M2 as (_ & _ & S2 & _).
    rewrite S1 in S2. apply (f_equal (fun t => snd (fst (fst t)))) in S2. exact S2. }
  rewrite Hp, Hv in Hw. rewrite (bind_val _ _ _ _ _ Hw). cbn [negb]. unfold ret.
  exists s3. split; [reflexivity|].
  destruct Hfr as (Hh3 & Ha3 & _ & Hc3).
  split; [|split].
  - rewrite Hh3, H2, H1. apply insert_insert_eq.
  - rewrite Ha3. destruct M2 as (-> & _). lia.
  - rewrite Hc3. destruct M2 as (_ & -> & _). lia.
Qed.

Lemma update_repo_files_applies_the_response_witness :
  exists st',
    update_repo_files (world None reply_both_files) "llm-app-t1" reply_both_files st_published
      = (Val (Some "c4"), st')
    /\ (host st' !! "llm-app-t1") ≫= (fun r => b_content <$> r_files r !! "index.html")
       = Some "<html><body>done</body></html>".
Proof.
  set (e := world None reply_both_files).
  destruct (update_repo_files_applies_the_response e "llm-app-t1" reply_both_files st_published
              "" ("<html><body>done</body></html>" +:+ Py.nl +:+ Py.nl) "# revised"
              (mkRepository
                 {[ "index.html" := mkBlob "index.html" page ("h:" +:+ page);
                    "README.md" := mkBlob "README.md" "# llm-app-t1" "h:# llm-app-t1" ]}
                 "c2")
              (mkBlob "index.html" page ("h:" +:+ page))
              (mkBlob "README.md" "# llm-app-t1" "h:# llm-app-t1"))
    as (st' & Hrun & Hh & _).
  - vm_compute. reflexivity.
  - vm_compute. reflexivity.
  - vm_compute. reflexivity.
  - vm_compute. reflexivity.
  - reflexivity.
  - vm_compute. reflexivity.
  - reflexivity.
  - intros j _. reflexivity.
  - vm_compute. discriminate.
  - vm_compute. reflexivity.
  - exists st'. split; [exact Hrun|]. rewrite Hh.
    unfold written. rewrite lookup_insert_eq. cbn [mbind option_bind r_files].
    rewrite lookup_insert_ne by discriminate. rewrite lookup_insert_eq. reflexivity.
Defined.

(** ** What leaves the count of notifications unchanged *)

Lemma services_n_posts {A} (m : M A) : preserves services m -> preserves n_posts m.
Proof. intros H st r st' E. apply H in E. unfold services in E. congruence. Qed.

Lemma n_posts_sleep s : preserves n_posts (sleep s).
Proof. intros st r st' H. unfold sleep, emit in H. by_unfolding H. Qed.

Lemma n_posts_get_workflow_runs e repo : preserves n_posts (get_workflow_runs e repo).
Proof. intros st r st' H. unfold get_workflow_runs in H. by_unfolding H. Qed.

Lemma n_posts_generate_content e : preserves n_posts (generate_content e).
Proof. intros st r st' H. unfold generate_content in H. by_unfolding H. Qed.

#[local] Hint Resolve n_posts_sleep n_posts_get_workflow_runs n_posts_generate_content : steps.
#[local] Hint Resolve services_n_posts | 5 : steps.

Lemma n_posts_poll_once e repo : preserves n_posts (poll_once e repo).
Proof. unfold poll_once. compose. Qed.

#[local] Hint Resolve n_posts_poll_once : steps.

Lemma n_posts_poll_loop e repo fuel : forall elapsed,
  preserves n_posts (poll_loop e fuel repo elapsed).
Proof. induction fuel as [|fuel IH]; intros elapsed; cbn [poll_loop]; compose. Qed.

Lemma n_posts_wait e repo : preserves n_posts (wait_for_github_pages_deployment e repo).
Proof. unfold wait_for_github_pages_deployment. compose; apply n_posts_poll_loop. Qed.

#[local] Hint Resolve n_posts_wait : steps.

Lemma n_posts_generate_app_code e brief checks attachments :
  preserves n_posts (generate_app_code e brief checks attachments).
Proof. unfold generate_app_code. compose. Qed.

Lemma n_posts_generate_updated_code e brief checks existing attachments :
  preserves n_posts (generate_updated_code e brief checks existing attachments).
Proof. unfold generate_updated_code. compose. Qed.

Lemma n_posts_create_and_deploy_repo e lic task html :
  preserves n_posts (create_and_deploy_repo e lic task html).
Proof. unfold create_and_deploy_repo. compose. Qed.

Lemma n_posts_update_repo_files e repo llm_response :
  preserves n_posts (update_repo_files e repo llm_response).
Proof. unfold update_repo_files. compose. Qed.

(** ** The notification at the end of the two workflows *)

Lemma attempts_bounds e p : (1 <= attempts e p <= 5)%nat.
Proof.
  unfold attempts. destruct (first_ack e p 5) as [k|] eqn:H; [|lia].
  apply first_ack_some in H. lia.
Qed.

(** The notification and the last line of a workflow. *)
Lemma notify_and_finish e url body text st :
  exists st',
    bind (notify_evaluator e url body) (fun _ => print text []) st = (Val tt, st')
    /\ sent st' = sent st ++ repeat (Post url body) (attempts e (n_posts st))
    /\ last (stdout st') = Some (Line text [])
    /\ host st' = host st.
Proof.
  destruct (notify_evaluator_sent e url body st) as (s1 & Hrun & Hs & Hh).
  rewrite (bind_val _ _ _ _ _ Hrun). unfold print. eexists. split; [reflexivity|].
  cbn [stdout host]. split; [exact Hs|]. split; [apply last_snoc | exact Hh].
Qed.

(** X14.  Round 1, once the code is generated and published: the evaluator
    is sent the payload of the request and of the published repository, with
    round 1, at the address of the request, between one and five times;
    whether or not a notification was acknowledged the workflow then ends
    the same way, with its last line printed and no error. *)
Theorem build_notifies_what_it_published
        (e : env) (lic : string) (d : list (string * pyval)) (st : state)
        (code : string) (st1 : state) (gd : details) (st2 : state) :
  build_generation e d (printed st [build_started]) = (Val code, st1) ->
  code <> "" ->
  create_and_deploy_repo e lic (dict_get d "task") code st1 = (Val (Some gd), st2) ->
  exists st3,
    process_build_request e lic (PDict d) st = (Val tt, st3)
    /\ sent st3
       = sent st ++ repeat (Post (dict_get d "evaluation_url")
                                 (mkPayload (dict_get d "email") (dict_get d "task") 1
                                            (dict_get d "nonce") (repo_url gd)
                                            (commit_sha gd) (pages_url gd)))
                           (attempts e (n_posts st))
    /\ (1 <= attempts e (n_posts st) <= 5)%nat
    /\ last (stdout st3) = Some build_finished
    /\ host st3 = host st2.
Proof.
  intros Hg Hcode Hp.
  rewrite process_build_request_eq, (bind_val _ _ _ _ _ Hg).
  destruct code as [|c code]; [congruence|]. cbn [Py.truthy negb].
  rewrite (bind_val _ _ _ _ _ Hp).
  destruct (notify_and_finish e (dict_get d "evaluation_url") (build_payload d gd)
              "Build task finished." st2) as (st3 & Hrun & Hs & Hl & Hh).
  exists st3. split; [exact Hrun|].
  assert (Hq : sent st2 = sent st).
  { apply quiet_create_and_deploy_repo in Hp. unfold build_generation in Hg.
    apply quiet_generate_app_code in Hg. rewrite Hp, Hg. reflexivity. }
  assert (Hn : n_posts st2 = n_posts st).
  { apply n_posts_create_and_deploy_repo in Hp. unfold build_generation in Hg.
    apply n_posts_generate_app_code in Hg. rewrite Hp, Hg. reflexivity. }
  rewrite Hq, Hn in Hs.
  split; [exact Hs|]. split; [apply attempts_bounds|]. split; [exact Hl | exact Hh].
Qed.

Lemma build_notifies_what_it_published_witness :
  exists st3,
    process_build_request deaf_evaluator license0 (PDict (request PNone (PInt 1))) st0
      = (Val tt, st3)
    /\ length (sent st3) = 5%nat
    /\ last (stdout st3) = Some build_finished.
Proof.
  set (d := request PNone (PInt 1)).
  set (st1 := snd (build_generation deaf_evaluator d (printed st0 [build_started]))).
  set (st2 := snd (create_and_deploy_repo deaf_evaluator license0 (dict_get d "task") page st1)).
  destruct (build_notifies_what_it_published deaf_evaluator license0 d st0 page st1
              (mkDetails "https://github.com/u/llm-app-t1"
                         (PStr "https://u.github.io/llm-app-t1/") "c2") st2)
    as (st3 & Hrun & Hs & _ & Hl & _).
  - vm_compute. reflexivity.
  - discriminate.
  - vm_compute. reflexivity.
  - exists st3. split; [exact Hrun|]. split; [|exact Hl].
    rewrite Hs. reflexivity.
Defined.

Lemma update_repo_files_empty e repo st o st' :
  update_repo_files e repo "" st = (o, st') -> o = Val None.
Proof.
  intros H.
  destruct (update_repo_files_no_valid_files e repo "" st) as (lines & E & _).
  - apply Forall_unrecognized. reflexivity.
  - rewrite E in H. now injection H as <- _.
Qed.

(** X15.  Round 2, once the files are found, regenerated and updated: the
    evaluator is sent, between one and five times, a payload with round 2,
    the commit returned by the update, which is the head of the repository,
    and a Pages address made of the login and the name of the repository;
    the workflow then ends with its last line printed, acknowledged or
    not. *)
Theorem revise_notifies_the_new_head
        (e : env) (d : list (string * pyval)) (st : state)
        (rd : repo_details) (st1 : state) (resp : string) (st2 : state)
        (sha : string) (st3 : state) :
  get_existing_repo_details e (dict_get d "task") (printed st [revision_started])
    = (Val (Some rd), st1) ->
  revise_generation e d rd st1 = (Val resp, st2) ->
  update_repo_files e (rd_repo rd) resp st2 = (Val (Some sha), st3) ->
  exists st4,
    process_revise_request e (PDict d) st = (Val tt, st4)
    /\ sent st4
       = sent st ++ repeat (Post (dict_get d "evaluation_url")
                                 (mkPayload (dict_get d "email") (dict_get d "task") 2
                                            (dict_get d "nonce") (html_url e (rd_repo rd)) sha
                                            (PStr ("https://" +:+ rd_user rd +:+ ".github.io/"
                                                              +:+ rd_repo rd +:+ "/"))))
                           (attempts e (n_posts st))
    /\ (1 <= attempts e (n_posts st) <= 5)%nat
    /\ (exists r, host st4 !! rd_repo rd = Some r /\ r_head r = sha)
    /\ last (stdout st4) = Some revision_finished.
Proof.
  intros Hl Hg Hu.
  rewrite process_revise_request_eq, (bind_val _ _ _ _ _ Hl), (bind_val _ _ _ _ _ Hg).
  destruct resp as [|c resp]; [apply update_repo_files_empty in Hu; discriminate|].
  cbn [Py.truthy negb]. rewrite (bind_val _ _ _ _ _ Hu).
  destruct (update_repo_files_head _ _ _ _ _ _ Hu) as (Hsha & r & Hr & Hhead).
  destruct sha as [|c' sha]; [congruence|]. cbn [Py.truthy negb].
  destruct (notify_and_finish e (dict_get d "evaluation_url")
              (revise_payload e d rd (String c' sha)) "Revision task finished." st3)
    as (st4 & Hrun & Hs & Hlast & Hh).
  exists st4. split; [exact Hrun|].
  assert (Hq : sent st3 = sent st).
  { apply quiet_update_repo_files in Hu. unfold revise_generation in Hg.
    apply quiet_generate_updated_code in Hg.
    apply (services_sent _ (services_get_existing_repo_details _ _)) in Hl.
    rewrite Hu, Hg, Hl. reflexivity. }
  assert (Hn : n_posts st3 = n_posts st).
  { apply n_posts_update_repo_files in Hu. unfold revise_generation in Hg.
    apply n_posts_generate_updated_code in Hg.
    apply (services_n_posts _ (services_get_existing_repo_details _ _)) in Hl.
    rewrite Hu, Hg, Hl. reflexivity. }
  rewrite Hq, Hn in Hs.
  split; [exact Hs|]. split; [apply attempts_bounds|].
  split; [|exact Hlast]. exists r. rewrite Hh. auto.
Qed.

Lemma revise_notifies_the_new_head_witness :
  exists st4,
    process_revise_request (world None reply_both_files) (PDict (request PNone (PInt 2)))
                           st_published = (Val tt, st4)
    /\ (p_commit_sha <$> omap (fun ev => match ev with Post _ body => Some body | _ => None end)
                              (trace st4)) = ["c4"]
    /\ (r_head <$> host st4 !! "llm-app-t1") = Some "c4".
Proof.
  set (e := world None reply_both_files).
  set (d := request PNone (PInt 2)).
  set (st1 := snd (get_existing_repo_details e (dict_get d "task")
                     (printed st_published [revision_started]))).
  set (st2 := snd (revise_generation e d details_t1 st1)).
  set (st3 := snd (update_repo_files e "llm-app-t1" reply_both_files st2)).
  destruct (revise_notifies_the_new_head e d st_published details_t1 st1 reply_both_files st2
              "c4" st3) as (st4 & Hrun & Hs & _ & (r & Hr & Hhead) & _).
  - vm_compute. reflexivity.
  - vm_compute. reflexivity.
  - vm_compute. reflexivity.
  - exists st4. split; [exact Hrun|]. split.
    + unfold sent, posts in Hs.
      assert (Hp : forall tr,
                 omap (fun ev => match ev with Post _ body => Some body | _ => None end) tr
                 = omap (fun ev => match ev with Post _ body => Some body | _ => None end)
                        (List.filter is_post tr)).
      { induction tr as [|[] tr IH]; cbn; congruence. }
      rewrite Hp, Hs. reflexivity.
    + change (rd_repo details_t1) with "llm-app-t1" in Hr.
      rewrite Hr. cbn. now rewrite Hhead.
Defined.

(** ** The attachments of a request *)

Lemma subscripts_spec att st : forall keys,
  keys <> [] ->
  if has_keys keys att
  then subscripts att keys st = (Val tt, st)
  else exists x, subscripts att keys st = (Exc x, st) /\ (x = TypeError \/ x = KeyError).
Proof.
  destruct att as [| | | | |d];
    try solve [intros [|k keys] Hk; [congruence|]; cbn; unfold bind, raise; eauto].
  induction keys as [|k keys IH]; intros Hk; [congruence|].
  cbn [has_keys forallb subscripts subscript]. unfold bind.
  destruct (assoc_last k d) as [v|]; cbn [andb]; [|unfold raise; eauto].
  unfold ret at 1. destruct keys as [|k' keys]; [reflexivity|].
  apply IH. discriminate.
Qed.

Lemma each_attachment_spec keys st : forall l,
  keys <> [] ->
  if forallb (has_keys keys) l
  then each_attachment keys l st = (Val tt, st)
  else exists x, each_attachment keys l st = (Exc x, st) /\ (x = TypeError \/ x = KeyError).
Proof.
  intros l Hk. induction l as [|att l IH]; [reflexivity|].
  cbn [forallb each_attachment]. unfold bind.
  pose proof (subscripts_spec att st keys Hk) as Hs.
  destruct (has_keys keys att); cbn [andb].
  - rewrite Hs. exact IH.
  - destruct Hs as (x & -> & Hx). eauto.
Qed.

Lemma attachments_prompt_part_spec keys attachments st :
  keys <> [] ->
  if readable keys attachments
  then attachments_prompt_part keys attachments st = (Val tt, st)
  else exists x,
      attachments_prompt_part keys attachments st = (Exc x, st)
      /\ (x = TypeError \/ x = KeyError).
Proof.
  intros Hk. unfold readable, attachments_prompt_part.
  destruct (py_truthy attachments) eqn:Ht; cbn [negb orb]; [|reflexivity].
  destruct attachments as [| | | |l|]; try (unfold raise; eauto).
  apply each_attachment_spec, Hk.
Qed.

Lemma readable_name attachments :
  readable ["name"; "url"] attachments = true -> readable ["name"] attachments = true.
Proof.
  unfold readable. destruct (py_truthy attachments); cbn [negb orb]; [|reflexivity].
  destruct attachments as [| | | |l|]; try discriminate.
  induction l as [|att l IH]; [reflexivity|]. cbn [forallb].
  intros H. apply andb_true_iff in H. destruct H as [Ha Hl].
  rewrite (IH Hl), andb_true_r. destruct att; try discriminate.
  cbn [has_keys forallb] in *. apply andb_true_iff in Ha. destruct Ha as [-> _]. reflexivity.
Qed.

(** X16.  Both generation steps read the attachments before anything else.
    Attachments that cannot be read (a value that is true and no list, or an
    element that is no object or lacks [name], or [url] in Round 1) make the
    step raise a [TypeError] or a [KeyError] at once: nothing is printed and
    the model is not called.  Otherwise the model is called exactly once and
    its failure is the step's; Round 1 returns the reply stripped and without
    code fences, Round 2 returns it as it is.  Round 2 does not need the
    [url] of an attachment. *)
Theorem generation_reads_the_attachments_first
        (e : env) (brief checks attachments : pyval) (existing : string * string)
        (st : state) :
  (readable ["name"; "url"] attachments = false ->
   exists x, generate_app_code e brief checks attachments st = (Exc x, st)
             /\ (x = TypeError \/ x = KeyError))
  /\ (readable ["name"; "url"] attachments = true ->
      exists st',
        generate_app_code e brief checks attachments st
        = (reply_as e (n_llm st) (fun t => strip_fences (Py.strip t)), st')
        /\ trace st' = trace st ++ [Generate]
        /\ n_llm st' = S (n_llm st) /\ host st' = host st)
  /\ (readable ["name"] attachments = false ->
      exists x, generate_updated_code e brief checks existing attachments st = (Exc x, st)
                /\ (x = TypeError \/ x = KeyError))
  /\ (readable ["name"] attachments = true ->
      exists st',
        generate_updated_code e brief checks existing attachments st
        = (reply_as e (n_llm st) (fun t => t), st')
        /\ trace st' = trace st ++ [Generate]
        /\ n_llm st' = S (n_llm st) /\ host st' = host st)
  /\ (readable ["name"; "url"] attachments = true -> readable ["name"] attachments = true).
Proof.
  pose proof (attachments_prompt_part_spec ["name"; "url"] attachments st) as H2.
  pose proof (attachments_prompt_part_spec ["name"] attachments st) as H1.
  repeat apply conj.
  - intros Hr. rewrite Hr in H2. destruct H2 as (x & E & Hx); [discriminate|].
    exists x. split; [|exact Hx]. unfold generate_app_code.
    now rewrite (bind_exc _ _ _ _ _ E).
  - intros Hr. rewrite Hr in H2. unfold generate_app_code.
    rewrite (bind_val _ _ _ _ _ (H2 ltac:(discriminate))).
    unfold bind, print, generate_content, reply_as, ret. cbn [n_llm].
    destruct (llm e (n_llm st)); eexists; (split; [reflexivity|]); cbn; auto.
  - intros Hr. rewrite Hr in H1. destruct H1 as (x & E & Hx); [discriminate|].
    exists x. split; [|exact Hx]. unfold generate_updated_code.
    now rewrite (bind_exc _ _ _ _ _ E).
  - intros Hr. rewrite Hr in H1. unfold generate_updated_code.
    rewrite (bind_val _ _ _ _ _ (H1 ltac:(discriminate))).
    unfold bind, print, generate_content, reply_as, ret. cbn [n_llm].
    destruct (llm e (n_llm st)); eexists; (split; [reflexivity|]); cbn; auto.
  - apply readable_name.
Qed.

Lemma generation_reads_the_attachments_first_witness :
  generate_app_code (world None page) PNone PNone
                    (dict_get_or request_without_url "attachments" (PList [])) st0
    = (Exc KeyError, st0)
  /\ (exists st',
         generate_updated_code (world None page) PNone PNone ("", "")
                               (dict_get_or request_without_url "attachments" (PList [])) st0
         = (Val page, st'))
  /\ (exists st', generate_app_code (world None page) PNone PNone (PList []) st0
                  = (Val page, st')).
Proof.
  set (atts := dict_get_or request_without_url "attachments" (PList [])).
  destruct (generation_reads_the_attachments_first (world None page) PNone PNone atts
              ("", "") st0) as (H1 & _ & _ & H4 & _).
  destruct (generation_reads_the_attachments_first (world None page) PNone PNone (PList [])
              ("", "") st0) as (_ & H2 & _ & _ & H5).
  split; [|split].
  - destruct (H1 eq_refl) as (x & E & _). rewrite E. vm_compute in E.
    injection E as <-. reflexivity.
  - destruct (H4 eq_refl) as (st' & E & _). exists st'. exact E.
  - destruct (H2 eq_refl) as (st' & E & _). exists st'. rewrite E. reflexivity.
Defined.

(** ** The handler on other bodies *)

(** X17.  A body that is valid JSON and no object: when it is falsy
    ([null], [false], [0], the empty string or list) the handler answers 403
    like for a wrong secret; when it is truthy, reading its [secret] raises
    [AttributeError], the route answers 500, and in both cases nothing else
    happens: no workflow runs, nothing is printed. *)
Theorem handler_on_bodies_that_are_no_object
        (e : env) (lic : string) (data : pyval) (st : state) :
  is_object data = false ->
  handle_project_request e lic data st
    = (if py_truthy data then Exc AttributeError else Val rejected_reply, st)
  /\ exists st',
      route_api_project e lic data st = (Val (if py_truthy data then 500 else 403), st')
      /\ trace st' = trace st ++ [Respond (if py_truthy data then 500 else 403)]
      /\ host st' = host st /\ stdout st' = stdout st.
Proof.
  intros Hobj.
  assert (H : handle_project_request e lic data st
              = (if py_truthy data then Exc AttributeError else Val rejected_reply, st)).
  { unfold handle_project_request.
    destruct (py_truthy data) eqn:Ht; cbn [negb]; [|reflexivity].
    destruct data; try discriminate; reflexivity. }
  split; [exact H|].
  unfold route_api_project. rewrite H.
  destruct (py_truthy data); [apply (emit_respond_trace 500) | apply (emit_respond_trace 403)].
Qed.

Lemma handler_on_bodies_that_are_no_object_witness :
  (exists st', route_api_project (world None page) license0 (PList [PInt 1]) st0 = (Val 500, st')
               /\ trace st' = [Respond 500])
  /\ (exists st', route_api_project (world None page) license0 PNone st0 = (Val 403, st')).
Proof.
  split.
  - destruct (handler_on_bodies_that_are_no_object (world None page) license0
                (PList [PInt 1]) st0 eq_refl) as (_ & st' & Hrun & Htr & _).
    exists st'. split; [exact Hrun | exact Htr].
  - assert (H := handler_on_bodies_that_are_no_object (world None page) license0
                   PNone st0 eq_refl).
    destruct H as (_ & st' & Hrun & _). exists st'. exact Hrun.
Defined.

Lemma py_eq_int_1 v : py_eq_int v 1 = true <-> v = PInt 1 \/ v = PBool true.
Proof.
  destruct v as [|[]|z| | |]; cbn; split; try intuition congruence.
  - intros H. apply Z.eqb_eq in H. subst. auto.
  - intros [[= ->]|[=]]. reflexivity.
Qed.

Lemma py_eq_int_2 v : py_eq_int v 2 = true <-> v = PInt 2.
Proof.
  destruct v as [|[]|z| | |]; cbn; split; try intuition congruence.
  - intros H. apply Z.eqb_eq in H. subst. auto.
  - intros [= ->]. reflexivity.
Qed.

(** X18.  The round selects the workflow by equality: Round 2 for [2],
    Round 1 for [1] and for [true], which equals [1].  An authenticated
    request with any other round, or with none, is answered 200 like a
    processed one although nothing was done: no workflow runs and nothing is
    printed. *)
Theorem handler_accepts_unknown_rounds
        (e : env) (lic : string) (d : list (string * pyval)) (st : state) :
  authenticated e d = true ->
  dict_get d "round" <> PInt 1 ->
  dict_get d "round" <> PBool true ->
  dict_get d "round" <> PInt 2 ->
  handle_project_request e lic (PDict d) st = (Val accepted_reply, st)
  /\ exists st',
      route_api_project e lic (PDict d) st = (Val 200, st')
      /\ trace st' = trace st ++ [Respond 200]
      /\ host st' = host st /\ stdout st' = stdout st.
Proof.
  intros Ha H1 Hb H2.
  assert (E1 : py_eq_int (dict_get d "round") 1 = false).
  { destruct (py_eq_int (dict_get d "round") 1) eqn:E; [|reflexivity].
    apply py_eq_int_1 in E. tauto. }
  assert (E2 : py_eq_int (dict_get d "round") 2 = false).
  { destruct (py_eq_int (dict_get d "round") 2) eqn:E; [|reflexivity].
    apply py_eq_int_2 in E. tauto. }
  assert (H : handle_project_request e lic (PDict d) st = (Val accepted_reply, st)).
  { rewrite handle_project_request_eq, Ha. unfold selected_workflow.
    cbn [py_get]. unfold bind at 1, ret at 1. unfold bind at 1, ret at 1.
    fold (dict_get d "round"). rewrite E2, E1. reflexivity. }
  split; [exact H|].
  unfold route_api_project. rewrite H. apply (emit_respond_trace 200).
Qed.

Lemma handler_accepts_unknown_rounds_witness :
  handle_project_request (world None page) license0 (PDict (request PNone (PInt 3))) st0
    = (Val accepted_reply, st0)
  /\ handle_project_request (world None page) license0 (PDict (request PNone (PStr "1"))) st0
     = (Val accepted_reply, st0).
Proof.
  split.
  - apply (handler_accepts_unknown_rounds (world None page) license0 (request PNone (PInt 3)) st0);
      [reflexivity | discriminate | discriminate | discriminate].
  - apply (handler_accepts_unknown_rounds (world None page) license0
             (request PNone (PStr "1")) st0);
      [reflexivity | discriminate | discriminate | discriminate].
Defined.

(** ** What a published repository tells *)

Lemma call_inv e c st u st' :
  call e c st = (Val u, st') ->
  fault e (n_api st) = false /\ n_api st' = S (n_api st) /\ host st' = host st.
Proof.
  unfold call. destruct (fault e (n_api st)); [discriminate|].
  intros [= _ <-]. auto.
Qed.

Lemma print_inv text args st u st' :
  print text args st = (Val u, st') -> n_api st' = n_api st /\ host st' = host st.
Proof. unfold print. intros [= _ <-]. auto. Qed.

Lemma create_repo_inv e name st repo st' :
  create_repo e name st = (Val repo, st') ->
  repo = name /\ fault e (n_api st) = false /\ host st !! name = None
  /\ n_api st' = S (n_api st).
Proof.
  unfold create_repo. intros H.
  apply bind_inv_val in H. destruct H as (u & s1 & Hc & H).
  apply call_inv in Hc. destruct Hc as (Hf & Hn & Hh).
  unfold bind, get_host, set_host, raise, ret in H.
  destruct (host s1 !! name) eqn:Hl; [discriminate|].
  injection H as <- <-. rewrite Hh in Hl. auto.
Qed.

Lemma create_file_inv e repo path content st sha st' :
  create_file e repo path content st = (Val sha, st') ->
  fault e (n_api st) = false /\ n_api st' = S (n_api st).
Proof.
  unfold create_file. intros H.
  apply bind_inv_val in H. destruct H as (u & s1 & Hc & H).
  apply call_inv in Hc. destruct Hc as (Hf & Hn & Hh).
  unfold bind, get_host, set_host, raise, ret, fresh_commit in H.
  destruct (host s1 !! repo) as [r|]; [|discriminate].
  destruct (r_files r !! path); [discriminate|].
  injection H as _ <-. auto.
Qed.

Lemma get_branch_head_inv e repo st sha st' :
  get_branch_head e repo st = (Val sha, st') -> fault e (n_api st) = false.
Proof.
  unfold get_branch_head. intros H.
  apply bind_inv_val in H. destruct H as (u & s1 & Hc & H).
  apply call_inv in Hc. tauto.
Qed.

Lemma pages_and_deployment_inv e repo st gd st' :
  pages_and_deployment e repo st = (Val (Some gd), st') ->
  pages e repo = PagesStatus 201 (pages_url gd) /\ fault e (n_api st) = false.
Proof.
  unfold pages_and_deployment. intros H.
  apply bind_inv_val in H. destruct H as (resp & s1 & He & H).
  rewrite enable_pages_reply in He.
  destruct (pages e repo) as [code url|]; [|discriminate].
  injection He as <- <-. cbn [fst snd] in H.
  destruct (code =? 201) eqn:Hcode; cbn [negb] in H.
  2:{ unfold bind, print, ret in H. discriminate. }
  apply Z.eqb_eq in Hcode. subst code.
  apply bind_inv_val in H. destruct H as (u & s2 & Hp & H).
  apply print_inv in Hp. destruct Hp as (Hn2 & _). cbn [n_api] in Hn2.
  apply bind_inv_val in H. destruct H as (ok & sw & Hw & H).
  destruct (wait_frame e repo s2) as (sw' & Hw' & (_ & Hnw & _) & _).
  rewrite Hw' in Hw. injection Hw as <- <-.
  destruct (watch_verdict e (n_polls s2)); cbn [negb] in H.
  2:{ unfold bind, print, ret in H. discriminate. }
  apply bind_inv_val in H. destruct H as (c & s3 & Hb & H).
  apply get_branch_head_inv in Hb. unfold ret in H. injection H as <- <-.
  cbn [pages_url]. split; [reflexivity|]. congruence.
Qed.

Lemma create_and_deploy_repo_needs e lic task html st gd st' :
  create_and_deploy_repo e lic task html st = (Val (Some gd), st') ->
  (forall j, (j < 8)%nat -> fault e (n_api st + j) = false)
  /\ host st !! repo_name_of e task = None
  /\ pages e (repo_name_of e task) = PagesStatus 201 (pages_url gd)
  /\ watch_verdict e (n_polls st) = true.
Proof.
  intros H. pose proof (create_and_deploy_repo_some _ _ _ _ _ _ _ H) as Hv.
  rewrite create_and_deploy_repo_eq in H.
  apply try_except_inv in H. destruct H as [H | (x & s & _ & H)].
  2:{ unfold publish_failed, bind, print, ret in H. discriminate. }
  apply bind_inv_val in H. destruct H as (u1 & s1 & E1 & H). apply call_inv in E1.
  apply bind_inv_val in H. destruct H as (u2 & s2 & E2 & H). apply call_inv in E2.
  apply bind_inv_val in H. destruct H as (u3 & s3 & E3 & H). apply call_inv in E3.
  apply bind_inv_val in H. destruct H as (u4 & s4 & E4 & H). apply print_inv in E4.
  apply bind_inv_val in H. destruct H as (repo & s5 & E5 & H). apply create_repo_inv in E5.
  destruct E5 as (-> & E5).
  apply bind_inv_val in H. destruct H as (c6 & s6 & E6 & H). apply create_file_inv in E6.
  apply bind_inv_val in H. destruct H as (c7 & s7 & E7 & H). apply create_file_inv in E7.
  apply bind_inv_val in H. destruct H as (c8 & s8 & E8 & H). apply create_file_inv in E8.
  apply bind_inv_val in H. destruct H as (u9 & s9 & E9 & H). apply print_inv in E9.
  apply pages_and_deployment_inv in H. destruct H as (Hpages & Hlast).
  destruct E1 as (F1 & N1 & H1), E2 as (F2 & N2 & H2), E3 as (F3 & N3 & H3),
           E4 as (N4 & H4), E5 as (F5 & Hfree & N5), E6 as (F6 & N6), E7 as (F7 & N7),
           E8 as (F8 & N8), E9 as (N9 & _).
  split; [|split; [congruence | split; [exact Hpages | exact Hv]]].
  intros j Hj.
  assert (Hj' : (j = 0 \/ j = 1 \/ j = 2 \/ j = 3 \/ j = 4 \/ j = 5 \/ j = 6 \/ j = 7)%nat)
    by lia.
  destruct Hj' as [->|[->|[->|[->|[->|[->|[->| ->]]]]]]].
  - now rewrite Nat.add_0_r.
  - replace (n_api st + 1)%nat with (n_api s1) by lia. exact F2.
  - replace (n_api st + 2)%nat with (n_api s2) by lia. exact F3.
  - replace (n_api st + 3)%nat with (n_api s4) by lia. exact F5.
  - replace (n_api st + 4)%nat with (n_api s5) by lia. exact F6.
  - replace (n_api st + 5)%nat with (n_api s6) by lia. exact F7.
  - replace (n_api st + 6)%nat with (n_api s7) by lia. exact F8.
  - replace (n_api st + 7)%nat with (n_api s9) by lia. exact Hlast.
Qed.

(** X19.  [create_and_deploy_repo] returns details only for a repository it
    has just created and seeded: the name was free, each of the eight calls
    to the platform succeeded, the request for Pages was answered 201 and the
    deployment was seen to succeed.  The details are then the address of that
    repository, the address of the pages as the platform gave it, and the
    head of the repository, which holds exactly the three seeded files. *)
Theorem create_and_deploy_repo_details_are_of_a_new_repository
        (e : env) (lic : string) (task : pyval) (html : string) (st : state)
        (gd : details) (st' : state) :
  create_and_deploy_repo e lic task html st = (Val (Some gd), st') ->
  host st !! repo_name_of e task = None
  /\ (forall j, (j < 8)%nat -> fault e (n_api st + j) = false)
  /\ pages e (repo_name_of e task) = PagesStatus 201 (pages_url gd)
  /\ watch_verdict e (n_polls st) = true
  /\ repo_url gd = html_url e (repo_name_of e task)
  /\ host st' = <[repo_name_of e task :=
                    mkRepository (seeded_files e lic (repo_name_of e task) html)
                                 (commit_sha gd)]> (host st).
Proof.
  intros H.
  destruct (create_and_deploy_repo_needs _ _ _ _ _ _ _ H) as (Hf & Hfree & Hpages & Hv).
  destruct (create_and_deploy_repo_run e lic task html st (pages_url gd) Hf Hfree Hpages Hv)
    as (st'' & Hrun & Hh).
  rewrite Hrun in H. injection H as <- <-.
  cbn [repo_url commit_sha pages_url] in *.
  split; [exact Hfree|]. split; [exact Hf|]. split; [exact Hpages|].
  split; [exact Hv|]. split; [reflexivity | exact Hh].
Qed.

Lemma create_and_deploy_repo_details_are_of_a_new_repository_witness :
  exists st',
    create_and_deploy_repo (world None page) license0 (PStr "t1") page st0
      = (Val (Some (mkDetails "https://github.com/u/llm-app-t1"
                              (PStr "https://u.github.io/llm-app-t1/") "c2")), st')
    /\ (r_head <$> host st' !! "llm-app-t1") = Some "c2".
Proof.
  set (e := world None page).
  set (gd := mkDetails "https://github.com/u/llm-app-t1"
                       (PStr "https://u.github.io/llm-app-t1/") "c2").
  set (st' := snd (create_and_deploy_repo e license0 (PStr "t1") page st0)).
  assert (Hrun : create_and_deploy_repo e license0 (PStr "t1") page st0 = (Val (Some gd), st'))
    by (vm_compute; reflexivity).
  destruct (create_and_deploy_repo_details_are_of_a_new_repository
              e license0 (PStr "t1") page st0 gd st' Hrun) as (_ & _ & _ & _ & _ & Hh).
  exists st'. split; [exact Hrun|].
  change (repo_name_of e (PStr "t1")) with "llm-app-t1" in Hh.
  rewrite Hh, lookup_insert_eq. reflexivity.
Defined.


(** ** Code fences *)

Lemma replace_go_skip old new pre : forall rest,
  Py.replace_go old new (String.length pre) (pre +:+ rest) = Py.replace_go old new 0 rest.
Proof. induction pre as [|c pre IH]; intros rest; cbn; [reflexivity | apply IH]. Qed.

Lemma prefix_intro sep : forall rest, String.prefix sep (sep +:+ rest) = true.
Proof.
  induction sep as [|a sep IH]; intros rest; cbn; [destruct rest; reflexivity|].
  destruct (Ascii.ascii_dec a a); [apply IH | congruence].
Qed.

(** A match is removed and the scan goes on after it. *)
Lemma replace_match old s :
  old <> "" -> String.prefix old s = true ->
  exists rest, s = old +:+ rest /\ Py.replace old "" s = Py.replace old "" rest.
Proof.
  intros Hold Hp. destruct (prefix_append _ _ Hp) as (rest & ->).
  exists rest. split; [reflexivity|]. unfold Py.replace.
  destruct old as [|a old]; [congruence|].
  change (String a old +:+ rest) with (String a (old +:+ rest)).
  cbn [Py.replace_go].
  change (String a (old +:+ rest)) with (String a old +:+ rest).
  rewrite prefix_intro.
  replace (String.length (String a old) - 1)%nat with (String.length old)
    by (cbn [String.length]; lia).
  rewrite replace_go_skip. reflexivity.
Qed.

Lemma replace_no_match old c s :
  String.prefix old (String c s) = false ->
  Py.replace old "" (String c s) = String c (Py.replace old "" s).
Proof. intros Hp. unfold Py.replace. cbn [Py.replace_go]. now rewrite Hp. Qed.

Lemma prefix_fence_cases s :
  String.prefix fence s = true <-> exists rest, s = fence +:+ rest.
Proof.
  split; [apply prefix_append | intros (rest & ->); apply prefix_intro].
Qed.

(** What the result begins with, the text began with. *)
Lemma replace_fence_head s c t :
  Py.replace fence "" s = String c t -> c = "`"%char ->
  exists s', s = String c s'.
Proof.
  intros H ->. destruct s as [|c s']; [discriminate|].
  destruct (String.prefix fence (String c s')) eqn:Hp.
  - apply prefix_fence_cases in Hp. destruct Hp as (rest & Hs).
    cbn in Hs. injection Hs as -> _. eauto.
  - rewrite replace_no_match in H by exact Hp. injection H as -> _. eauto.
Qed.

Lemma replace_fence_no_prefix c s :
  String.prefix fence (String c s) = false ->
  String.prefix fence (String c (Py.replace fence "" s)) = false.
Proof.
  intros Hp. destruct (String.prefix fence (String c (Py.replace fence "" s))) eqn:Hq;
    [|reflexivity].
  apply prefix_fence_cases in Hq. destruct Hq as (t & Hq).
  cbn in Hq. injection Hq as -> Hq.
  (* the result after [c] begins with two marks: so does [s] *)
  destruct (replace_fence_head s _ _ Hq eq_refl) as (s1 & ->).
  destruct (String.prefix fence (String "`" s1)) eqn:Hp1.
  - apply prefix_fence_cases in Hp1. destruct Hp1 as (rest & Hs).
    cbn in Hs. injection Hs as ->.
    cbn in Hp. discriminate Hp.
  - rewrite replace_no_match in Hq by exact Hp1. injection Hq as Hq.
    destruct (replace_fence_head s1 _ _ Hq eq_refl) as (s2 & ->).
    cbn in Hp. destruct s2; discriminate Hp.
Qed.

Lemma replace_fence_clean n : forall s,
  (String.length s <= n)%nat -> contains fence (Py.replace fence "" s) = false.
Proof.
  induction n as [|n IH]; intros s Hn.
  - destruct s; [reflexivity | cbn in Hn; lia].
  - destruct s as [|c s]; [reflexivity|].
    destruct (String.prefix fence (String c s)) eqn:Hp.
    + destruct (replace_match fence _ ltac:(discriminate) Hp) as (rest & Hs & ->).
      apply IH. rewrite Hs, length_append in Hn. cbn in Hn. lia.
    + rewrite replace_no_match by exact Hp. cbn [contains].
      rewrite (replace_fence_no_prefix _ _ Hp). cbn [orb].
      apply IH. cbn in Hn. lia.
Qed.

(** X20.  What the program keeps of a reply of the model never contains the
    mark of a code fence, whatever the reply: neither the page that Round 1
    publishes nor the content that Round 2 writes to a file. *)
Theorem no_code_fence_is_kept (e : env) (text file_raw : string)
        (brief checks attachments : pyval) (st : state) :
  contains "```" (strip_fences text) = false
  /\ contains "```" (segment_content file_raw) = false
  /\ forall code st',
       generate_app_code e brief checks attachments st = (Val code, st') ->
       contains "```" code = false.
Proof.
  assert (H : forall s, contains "```" (strip_fences s) = false).
  { intros s. unfold strip_fences. apply (replace_fence_clean _ _ (le_n _)). }
  split; [apply H|]. split; [apply H|].
  intros code st' Hrun. unfold generate_app_code in Hrun.
  apply bind_inv_val in Hrun. destruct Hrun as (u & s1 & _ & Hrun).
  apply bind_inv_val in Hrun. destruct Hrun as (u' & s2 & _ & Hrun).
  apply bind_inv_val in Hrun. destruct Hrun as (t & s3 & _ & Hrun).
  unfold bind, print, ret in Hrun. injection Hrun as <- _. apply H.
Qed.

Lemma no_code_fence_is_kept_witness :
  exists st',
    generate_app_code (world None fenced_reply) PNone PNone (PList []) st0
      = (Val (Py.nl +:+ page +:+ Py.nl), st')
    /\ contains "```" (Py.nl +:+ page +:+ Py.nl) = false.
Proof.
  set (e := world None fenced_reply).
  set (st' := snd (generate_app_code e PNone PNone (PList []) st0)).
  assert (Hrun : generate_app_code e PNone PNone (PList []) st0
                 = (Val (Py.nl +:+ page +:+ Py.nl), st')) by (vm_compute; reflexivity).
  destruct (no_code_fence_is_kept e "" "" PNone PNone (PList []) st0) as (_ & _ & H).
  exists st'. split; [exact Hrun | exact (H _ _ Hrun)].
Defined.
